(** * Money-manager backend: reporting, edit-window and ledger handlers

    A shallow embedding of the Express route handlers of the backend
    (income, expense and combined-transaction routes, with the Mongoose
    schemas they rely on) and the properties of its period bucketing,
    sorting, totals, edit-window guard and balance adjustments.

    Conventions of the embedding.
    - Amounts and balances are JavaScript numbers in the source; they are
      embedded as integers [Z].  The properties of the handlers are
      stated through the additions and the subtractions that the code
      performs, in the order in which it performs them, and through sums of
      lists.
    - A [Date] is its time value: milliseconds since the epoch, in UTC, as
      in ECMAScript.  The host's local-time offsets, its name for the time
      zone, its parser of date strings and its collation are the fields of
      the class [Host].
    - A text is the sequence of the bytes of its UTF-8 encoding.
    - A plain JavaScript object used as a dictionary is the ordered list of
      its own properties, read through the prototype chain of [{}].
    - A handler takes the state of the collections it touches and returns
      the HTTP status together with the new state. *)

From Stdlib Require Import ZArith List String Ascii Lia DecimalString.
From Stdlib Require Import Sorted Permutation.
From stdpp Require Import gmap strings.

Open Scope string_scope.
Open Scope Z_scope.

(** ** JavaScript primitives used by the handlers *)

Module JS.

(** [Number.prototype.toString] (and template-literal interpolation) of an
    integer-valued number. *)
Definition Number_toString (z : Z) : string :=
  NilZero.string_of_int (Z.to_int z).

(** The filler computed by [String.prototype.padStart]: [k] characters
    taken cyclically from [pad]. *)
Fixpoint fill_string (pad cur : string) (k : nat) : string :=
  match k with
  | O => EmptyString
  | S k' =>
      match cur with
      | String c rest => String c (fill_string pad rest k')
      | EmptyString =>
          match pad with
          | String c rest => String c (fill_string pad rest k')
          | EmptyString => EmptyString
          end
      end
  end.

(** [s.padStart(targetLength, padString)]. *)
Definition padStart (s : string) (targetLength : nat) (padString : string) : string :=
  if (targetLength <=? String.length s)%nat then s
  else fill_string padString padString (targetLength - String.length s) ++ s.

(** [Math.ceil(a / b)] for integers [a] and a positive integer [b]. *)
Definition Math_ceil_div (a b : Z) : Z := - ((- a) / b).

(** [Math.abs]. *)
Definition Math_abs (a : Z) : Z := Z.abs a.

(** [s.split(sep)[0]] for a one-character separator: the text before its
    first occurrence. *)
Fixpoint split_head (sep : ascii) (s : string) : string :=
  match s with
  | EmptyString => EmptyString
  | String c rest =>
      if Ascii.eqb c sep then EmptyString else String c (split_head sep rest)
  end.

(** String truthiness: the empty string is falsy. *)
Definition truthy (s : string) : bool :=
  match s with
  | EmptyString => false
  | String _ _ => true
  end.

(** Truthiness of an optional string field of a request body or query
    ([None] is [undefined]). *)
Definition truthy_opt (s : option string) : bool :=
  match s with
  | Some v => truthy v
  | None => false
  end.

(** [a || b] on an optional string with a string default. *)
Definition or_default (a : option string) (b : string) : string :=
  match a with
  | Some v => if truthy v then v else b
  | None => b
  end.

(** ** [Array.prototype.sort] with a comparator

    The comparator returns a number, [None] standing for [NaN], which
    the sort reads as [+0].  The sort is stable; it is embedded as a
    stable insertion sort, which is the result of every stable sort
    when the comparator is consistent. *)
Section Sort.
Context {A : Type}.
Variable comparefn : A -> A -> option Z.

Definition SortCompare (x y : A) : Z :=
  match comparefn x y with
  | Some v => v
  | None => 0
  end.

Fixpoint insert (x : A) (l : list A) : list A :=
  match l with
  | [] => [x]
  | y :: l' =>
      if SortCompare x y <=? 0 then x :: y :: l' else y :: insert x l'
  end.

Fixpoint sort (l : list A) : list A :=
  match l with
  | [] => []
  | x :: l' => insert x (sort l')
  end.
End Sort.

(** [arr.slice(0, end)]; [end] is [None] for [NaN]. *)
Definition slice0 {A : Type} (l : list A) (end_ : option Z) : list A :=
  match end_ with
  | None => []
  | Some e =>
      if e <? 0 then firstn (Z.to_nat (Z.max (Z.of_nat (length l) + e) 0)) l
      else firstn (Z.to_nat e) l
  end.

End JS.

(** ** Plain objects used as dictionaries

    [const m = {}] followed by [m[k]] reads and [m[k] = v] writes.  The own
    properties are kept in creation order; a read that finds no own
    property continues in [Object.prototype]. *)

Module JSObject.

(** The property names that every [{}] inherits from [Object.prototype]. *)
Definition Object_prototype_keys : list string :=
  [ "constructor"; "__proto__"; "hasOwnProperty"; "isPrototypeOf";
    "propertyIsEnumerable"; "toLocaleString"; "toString"; "valueOf";
    "__defineGetter__"; "__defineSetter__"; "__lookupGetter__";
    "__lookupSetter__" ].

Definition inherited (k : string) : bool :=
  existsb (String.eqb k) Object_prototype_keys.

(** The result of reading [m[k]]: an own value, a (truthy) member of
    [Object.prototype], or [undefined]. *)
Inductive property (V : Type) : Type :=
| Own (v : V)
| Inherited
| Undefined.
Arguments Own {V} v.
Arguments Inherited {V}.
Arguments Undefined {V}.

Fixpoint own {V : Type} (k : string) (o : list (string * V)) : option V :=
  match o with
  | [] => None
  | (k', v) :: o' => if String.eqb k k' then Some v else own k o'
  end.

Definition get {V : Type} (o : list (string * V)) (k : string) : property V :=
  match own k o with
  | Some v => Own v
  | None => if inherited k then Inherited else Undefined
  end.

(** [m[k] = v] for a key that is not [__proto__]: an existing own property
    keeps its place, a new one is created last. *)
Fixpoint set {V : Type} (k : string) (v : V) (o : list (string * V))
  : list (string * V) :=
  match o with
  | [] => [(k, v)]
  | (k', v') :: o' =>
      if String.eqb k k' then (k, v) :: o' else (k', v') :: set k v o'
  end.

Definition digit_value (c : ascii) : option N :=
  let n := N_of_ascii c in
  if ((48 <=? n) && (n <=? 57))%N then Some (n - 48)%N else None.

Fixpoint digits_value (s : string) (acc : N) : option N :=
  match s with
  | EmptyString => Some acc
  | String c rest =>
      match digit_value c with
      | Some d => digits_value rest (acc * 10 + d)%N
      | None => None
      end
  end.

(** A key is an array index when it is the canonical decimal text of an
    integer below [2^32 - 1]. *)
Definition array_index (k : string) : option N :=
  match k with
  | EmptyString => None
  | String _ _ =>
      match digits_value k 0%N with
      | Some n =>
          if String.eqb (JS.Number_toString (Z.of_N n)) k && (n <? 4294967295)%N
          then Some n else None
      | None => None
      end
  end.

Definition index_props {V : Type} (o : list (string * V))
  : list (N * (string * V)) :=
  flat_map (fun p => match array_index (fst p) with
                     | Some n => [(n, p)]
                     | None => []
                     end) o.

Definition named_props {V : Type} (o : list (string * V)) : list (string * V) :=
  List.filter (fun p => match array_index (fst p) with
                        | Some _ => false
                        | None => true
                        end) o.

(** The order of [Object.keys], [Object.values] and [Object.entries]:
    array indices in ascending numeric order, then the other keys in
    creation order. *)
Definition entries {V : Type} (o : list (string * V)) : list (string * V) :=
  List.map snd
    (JS.sort (fun a b => Some (Z.of_N (fst a) - Z.of_N (fst b))) (index_props o))
  ++ named_props o.

Definition values {V : Type} (o : list (string * V)) : list V :=
  List.map snd (entries o).

End JSObject.

(** ** Dates

    Time values and the calendar of ECMAScript (the proleptic Gregorian
    calendar), with the day number converted to and from a civil date by
    the era/day-of-era computation. *)

Module Date.

Definition msPerDay : Z := 86400000.
Definition msPerHour : Z := 3600000.
Definition msPerMinute : Z := 60000.
Definition msPerSecond : Z := 1000.

Definition Day (t : Z) : Z := t / msPerDay.
Definition TimeWithinDay (t : Z) : Z := t mod msPerDay.

(** Day number (days since 1970-01-01) of the civil date [y]-[m]-[d],
    [m] in 1..12. *)
Definition days_from_civil (y m d : Z) : Z :=
  let y' := if m <=? 2 then y - 1 else y in
  let era := y' / 400 in
  let yoe := y' mod 400 in
  let mp := if 2 <? m then m - 3 else m + 9 in
  let doy := (153 * mp + 2) / 5 + d - 1 in
  let doe := yoe * 365 + yoe / 4 - yoe / 100 + doy in
  era * 146097 + doe - 719468.

(** Civil date (year, month in 1..12, day of month) of a day number. *)
Definition civil_from_days (z : Z) : Z * Z * Z :=
  let z' := z + 719468 in
  let era := z' / 146097 in
  let doe := z' mod 146097 in
  let yoe := (doe - doe / 1460 + doe / 36524 - doe / 146096) / 365 in
  let y := yoe + era * 400 in
  let doy := doe - (365 * yoe + yoe / 4 - yoe / 100) in
  let mp := (5 * doy + 2) / 153 in
  let d := doy - (153 * mp + 2) / 5 + 1 in
  let m := if mp <? 10 then mp + 3 else mp - 9 in
  (if m <=? 2 then y + 1 else y, m, d).

Definition YearFromTime (t : Z) : Z := fst (fst (civil_from_days (Day t))).
(** Months are numbered from 0, as in ECMAScript. *)
Definition MonthFromTime (t : Z) : Z := snd (fst (civil_from_days (Day t))) - 1.
Definition DateFromTime (t : Z) : Z := snd (civil_from_days (Day t)).
Definition HourFromTime (t : Z) : Z := (t / msPerHour) mod 24.
Definition MinFromTime (t : Z) : Z := (t / msPerMinute) mod 60.
Definition SecFromTime (t : Z) : Z := (t / msPerSecond) mod 60.
Definition msFromTime (t : Z) : Z := t mod msPerSecond.

Definition MakeDay (year month date : Z) : Z :=
  let ym := year + month / 12 in
  let mn := month mod 12 in
  days_from_civil ym (mn + 1) 1 + date - 1.

Definition MakeDate (day time : Z) : Z := day * msPerDay + time.

Definition pad (n : nat) (z : Z) : string :=
  JS.padStart (JS.Number_toString z) n "0".

(** What the handlers need from the host running them.
    - [LocalTZA t isUTC] is the offset of local time from UTC in
      milliseconds: for [isUTC = true] the offset in force at the instant
      [t], for [isUTC = false] the offset by which the local time [t] is
      read (where a local time occurs twice or is skipped, the offset in
      force before the transition).  It changes with daylight saving; it is
      less than a day.
    - [TimeZoneName t] is the name of the zone that ends the text of a
      date, with its parentheses, or the empty text.
    - [Date_toLocaleTimeString] is the text printed by
      [toLocaleTimeString], [Date_parse] the time value that the [Date]
      constructor reads from a text ([None] for an invalid date), and
      [localeCompare a b] the number [a.localeCompare(b)] of the host's
      collation. *)
Class Host : Type := {
  LocalTZA : Z -> bool -> Z;
  LocalTZA_range :
    forall t isUTC,
      (- msPerDay <? LocalTZA t isUTC) && (LocalTZA t isUTC <? msPerDay) = true;
  TimeZoneName : Z -> string;
  Date_toLocaleTimeString : Z -> string;
  Date_parse : string -> option Z;
  localeCompare : string -> string -> Z
}.

Definition WeekDay (t : Z) : Z := (Day t + 4) mod 7.

Definition dayName (n : Z) : string :=
  nth (Z.to_nat n) ["Sun"; "Mon"; "Tue"; "Wed"; "Thu"; "Fri"; "Sat"] "".

Definition monthName (n : Z) : string :=
  nth (Z.to_nat n)
    ["Jan"; "Feb"; "Mar"; "Apr"; "May"; "Jun";
     "Jul"; "Aug"; "Sep"; "Oct"; "Nov"; "Dec"] "".

(** The date and the time of a local time value, as [toString] prints
    them. *)
Definition DateString (t : Z) : string :=
  let yv := YearFromTime t in
  dayName (WeekDay t) ++ " " ++ monthName (MonthFromTime t) ++ " "
  ++ pad 2 (DateFromTime t) ++ " "
  ++ (if yv <? 0 then "-" else "") ++ pad 4 (Z.abs yv).

Definition TimeString (t : Z) : string :=
  pad 2 (HourFromTime t) ++ ":" ++ pad 2 (MinFromTime t) ++ ":"
  ++ pad 2 (SecFromTime t) ++ " GMT".

Section WithHost.
Context {host : Host}.

Definition LocalTime (t : Z) : Z := t + LocalTZA t true.
Definition UTC (t : Z) : Z := t - LocalTZA t false.

Definition getFullYear (d : Z) : Z := YearFromTime (LocalTime d).
Definition getMonth (d : Z) : Z := MonthFromTime (LocalTime d).
Definition getDate (d : Z) : Z := DateFromTime (LocalTime d).

(** [new Date(year, month, date)]: local midnight of the given civil date;
    years 0 to 99 stand for 1900 to 1999. *)
Definition new_Date (year month date : Z) : Z :=
  let yr := if (0 <=? year) && (year <=? 99) then 1900 + year else year in
  UTC (MakeDate (MakeDay yr month date) 0).

(** [d.setDate(date)]; the result is the new time value of [d]. *)
Definition setDate (d : Z) (date : Z) : Z :=
  let t := LocalTime d in
  UTC (MakeDate (MakeDay (YearFromTime t) (MonthFromTime t) date)
                (TimeWithinDay t)).

Definition TimeZoneString (tv : Z) : string :=
  let offset := LocalTZA tv true in
  let absOffset := Z.abs offset in
  (if 0 <=? offset then "+" else "-")
  ++ pad 2 (HourFromTime absOffset) ++ pad 2 (MinFromTime absOffset)
  ++ TimeZoneName tv.

(** [String(d)], [d.toString()] and the interpolation of [d] in a template
    literal, as in [Fri Mar 15 2024 17:30:00 GMT+0530 (India Standard Time)]. *)
Definition Date_toString (tv : Z) : string :=
  let t := LocalTime tv in
  DateString t ++ " " ++ TimeString t ++ TimeZoneString tv.

End WithHost.

(** [d.toISOString()], which prints the UTC fields. *)
Definition toISOString (d : Z) : string :=
  let y := YearFromTime d in
  let year :=
    if (0 <=? y) && (y <=? 9999) then pad 4 y
    else (if y <? 0 then "-" else "+") ++ pad 6 (Z.abs y) in
  year ++ "-" ++ pad 2 (MonthFromTime d + 1) ++ "-" ++ pad 2 (DateFromTime d)
  ++ "T" ++ pad 2 (HourFromTime d) ++ ":" ++ pad 2 (MinFromTime d) ++ ":"
  ++ pad 2 (SecFromTime d) ++ "." ++ pad 3 (msFromTime d) ++ "Z".

End Date.
Import Date.

(** ** More of the standard library of the language *)

Module JSString.

(** White space and line terminators, which [String.prototype.trim] and
    [parseInt] strip.  A text is the sequence of the bytes of its UTF-8
    encoding, so a white-space character is one, two or three bytes long:
    the six ASCII ones (U+0009 to U+000D and U+0020), U+00A0, U+1680,
    U+2000 to U+200A, U+2028, U+2029, U+202F, U+205F, U+3000 and U+FEFF. *)
Definition is_space (c : ascii) : bool :=
  let n := N_of_ascii c in
  ((n =? 32) || ((9 <=? n) && (n <=? 13)))%N.

Definition is_space2 (a b : ascii) : bool :=
  ((N_of_ascii a =? 194) && (N_of_ascii b =? 160))%N.

Definition is_space3 (a b c : ascii) : bool :=
  let x := N_of_ascii a in
  let y := N_of_ascii b in
  let z := N_of_ascii c in
  (((x =? 225) && (y =? 154) && (z =? 128))
   || ((x =? 226) && (y =? 128)
       && (((128 <=? z) && (z <=? 138)) || (z =? 168) || (z =? 169) || (z =? 175)))
   || ((x =? 226) && (y =? 129) && (z =? 159))
   || ((x =? 227) && (y =? 128) && (z =? 128))
   || ((x =? 239) && (y =? 187) && (z =? 191)))%N.

Fixpoint trimStart (s : string) : string :=
  match s with
  | EmptyString => EmptyString
  | String a r1 =>
      if is_space a then trimStart r1
      else
        match r1 with
        | EmptyString => s
        | String b r2 =>
            if is_space2 a b then trimStart r2
            else
              match r2 with
              | EmptyString => s
              | String c r3 => if is_space3 a b c then trimStart r3 else s
              end
        end
  end.

(** A text made of white space only. *)
Definition blank (s : string) : bool :=
  match trimStart s with
  | EmptyString => true
  | String _ _ => false
  end.

(** [trimEnd] keeps a character when what begins with it is not blank. *)
Fixpoint trimEnd (s : string) : string :=
  match s with
  | EmptyString => EmptyString
  | String c rest => if blank s then EmptyString else String c (trimEnd rest)
  end.

Definition trim (s : string) : string := trimEnd (trimStart s).

Definition hex_value (c : ascii) : option N :=
  let n := N_of_ascii c in
  if ((48 <=? n) && (n <=? 57))%N then Some (n - 48)%N
  else if ((97 <=? n) && (n <=? 102))%N then Some (n - 87)%N
  else if ((65 <=? n) && (n <=? 70))%N then Some (n - 55)%N
  else None.

(** The longest prefix of digits of the radix, as a number; [None] when
    there is no digit. *)
Fixpoint leading_digits (radix : N) (s : string) (acc : option N) : option N :=
  match s with
  | EmptyString => acc
  | String c rest =>
      match hex_value c with
      | Some d =>
          if (d <? radix)%N
          then leading_digits radix rest
                 (Some (match acc with Some a => a * radix + d | None => d end)%N)
          else acc
      | None => acc
      end
  end.

(** [parseInt(s)]: leading white space, an optional sign, an optional
    [0x] prefix, then digits; [None] is [NaN]. *)
Definition parseInt (s : string) : option Z :=
  let s1 := trimStart s in
  let '(sign, s2) :=
    match s1 with
    | String "-" rest => (-1, rest)
    | String "+" rest => (1, rest)
    | _ => (1, s1)
    end in
  let '(radix, s3) :=
    match s2 with
    | String "0" (String "x" rest) => (16%N, rest)
    | String "0" (String "X" rest) => (16%N, rest)
    | _ => (10%N, s2)
    end in
  match leading_digits radix s3 None with
  | Some n => Some (sign * Z.of_N n)
  | None => None
  end.

End JSString.

(** ** Documents of the three collections *)

(** A document of the Income or of the Expense collection (the two schemas
    differ only in the name of the transfer counterpart field). *)
Module Entry.
Record t : Type := {
  _id : string;
  email : string;
  source : string;
  amount : Z;
  paymentMethod : string;
  date : Z;
  time : string;
  notes : option string;
  division : string;
  category : option string;
  account : string;
  isTransfer : bool;
  transferCounterpart : option string;
  createdAt : Z;
  updatedAt : Z
}.

(** The schema method [canEdit] of both models. *)
Definition canEdit (now : Z) (e : t) : bool :=
  let twelveHoursAgo := now - 12 * 60 * 60 * 1000 in
  twelveHoursAgo <? createdAt e.

(** The setters of the schema ([trim: true]). *)
Definition cast (e : t) : t :=
  {| _id := _id e;
     email := email e;
     source := JSString.trim (source e);
     amount := amount e;
     paymentMethod := JSString.trim (paymentMethod e);
     date := date e;
     time := JSString.trim (time e);
     notes := option_map JSString.trim (notes e);
     division := division e;
     category := option_map JSString.trim (category e);
     account := JSString.trim (account e);
     isTransfer := isTransfer e;
     transferCounterpart := option_map JSString.trim (transferCounterpart e);
     createdAt := createdAt e;
     updatedAt := updatedAt e |}.

(** The validators of the schema: required paths, [min: 0] on the amount
    and the enumeration of the division. *)
Definition valid (e : t) : bool :=
  JS.truthy (email e) && JS.truthy (source e) && (0 <=? amount e)
  && JS.truthy (paymentMethod e) && JS.truthy (time e)
  && (String.eqb (division e) "Office" || String.eqb (division e) "Personal")
  && JS.truthy (account e).

(** [doc.save()] of a new document: the document stored, or [None] when
    validation throws. *)
Definition save (e : t) : option t :=
  let e' := cast e in
  if valid e' then Some e' else None.

(** [Model.findById], for an identifier that casts to an [ObjectId]. *)
Definition findById (id : string) (c : list t) : option t :=
  List.find (fun e => String.eqb (_id e) id) c.

(** [Model.findByIdAndDelete]. *)
Fixpoint deleteById (id : string) (c : list t) : list t :=
  match c with
  | [] => []
  | e :: c' => if String.eqb (_id e) id then c' else e :: deleteById id c'
  end.

(** Replace the first document with the given id. *)
Fixpoint replaceById (id : string) (e' : t) (c : list t) : list t :=
  match c with
  | [] => []
  | e :: c' => if String.eqb (_id e) id then e' :: c' else e :: replaceById id e' c'
  end.
End Entry.

Module Account.
Record t : Type := {
  accountType : string;
  balance : Z;
  currency : string;
  isActive : bool
}.

Definition inc (delta : Z) (a : t) : t :=
  {| accountType := accountType a;
     balance := balance a + delta;
     currency := currency a;
     isActive := isActive a |}.
End Account.

(** The Account collection, keyed by its unique index [(email, accountName)]. *)
Abbreviation Accounts := (gmap (string * string) Account.t).

(** [Account.findOneAndUpdate({email, accountName}, {$inc: {balance: delta}})]
    without upsert: nothing changes when no account matches.  The filter is
    cast through the schema, where [accountName] has [trim: true], so the
    account looked up is the one of the trimmed name. *)
Definition incBalance (email accountName : string) (delta : Z) (a : Accounts)
  : Accounts :=
  alter (Account.inc delta) (email, JSString.trim accountName) a.

(** The balance of an account, when it exists. *)
Definition balanceOf (email accountName : string) (a : Accounts) : option Z :=
  Account.balance <$> a !! (email, accountName).

(** The state of the store. *)
Record Store : Type := {
  incomes : list Entry.t;
  expenses : list Entry.t;
  accounts : Accounts
}.

(** A JSON response: the status, the [error] or [message] text, and the
    document returned with it. *)
Record Response : Type := {
  status : Z;
  text : string;
  document : option Entry.t
}.

Definition error (code : Z) (msg : string) : Response :=
  {| status := code; text := msg; document := None |}.

(** ** Request bodies *)

Module Body.

(** The [amount] of a request body: missing (or empty), a JSON number, or
    a non-empty text together with what [parseFloat] reads from it ([None]
    for [NaN]). *)
Inductive amount_field : Type :=
| NoAmount
| AmountNumber (z : Z)
| AmountText (parsed : option Z).

Definition amount_truthy (a : amount_field) : bool :=
  match a with
  | NoAmount => false
  | AmountNumber z => negb (z =? 0)
  | AmountText _ => true
  end.

Definition parseFloat (a : amount_field) : option Z :=
  match a with
  | NoAmount => None
  | AmountNumber z => Some z
  | AmountText parsed => parsed
  end.

(** The body of [POST /add] and of [POST /minus]. *)
Record entry : Type := {
  email : option string;
  source : option string;
  amount : amount_field;
  date : option string;
  time : option string;
  notes : option string;
  paymentMethod : option string;
  division : option string;
  category : option string;
  account : option string
}.

(** The body of [POST /transfer]. *)
Record transfer : Type := {
  t_email : option string;
  fromAccount : option string;
  toAccount : option string;
  t_amount : amount_field;
  t_date : option string;
  t_time : option string;
  t_notes : option string
}.

(** The body of [PUT /:id]: for every path of the schema what the body
    sets it to, [None] when the body does not name the path; and the update
    operators of the body other than [$set] ([$inc], [$mul], [$min], [$max]
    and the like), given by what they do to the document, [None] when the
    body has none. *)
Record update : Type := {
  u_email : option string;
  u_source : option string;
  u_amount : option Z;
  u_paymentMethod : option string;
  u_date : option Z;
  u_time : option string;
  u_notes : option string;
  u_division : option string;
  u_category : option string;
  u_account : option string;
  u_isTransfer : option bool;
  u_transferCounterpart : option string;
  u_operators : option (Entry.t -> Entry.t)
}.

Definition text (s : option string) : string := default "" s.

(** A value given for a [required] text path is not empty. *)
Definition required_text (given : option string) : bool :=
  match given with
  | Some v => JS.truthy v
  | None => true
  end.

(** The update validators ([runValidators: true]): the validators of the
    schema, each on the value that the body sets its path to, after the
    setters.  They look neither at the paths that the body does not name nor
    at what the operators do. *)
Definition validators (u : update) : bool :=
  required_text (u_email u)
  && required_text (option_map JSString.trim (u_source u))
  && match u_amount u with Some v => 0 <=? v | None => true end
  && required_text (option_map JSString.trim (u_paymentMethod u))
  && required_text (option_map JSString.trim (u_time u))
  && match u_division u with
     | Some d => String.eqb d "Office" || String.eqb d "Personal"
     | None => true
     end
  && required_text (option_map JSString.trim (u_account u)).

(** [Model.findByIdAndUpdate(id, body, {new: true, runValidators: true})] on
    the document found: the updated document, or [None] when a validator
    rejects the update.  The identifier and the creation time are kept and
    [updatedAt] is set by the timestamps of the schema. *)
Definition applyUpdate (u : update) (now : Z) (e : Entry.t) : option Entry.t :=
  if validators u then
    let set :=
      {| Entry._id := Entry._id e;
         Entry.email := default (Entry.email e) (u_email u);
         Entry.source := default (Entry.source e) (option_map JSString.trim (u_source u));
         Entry.amount := default (Entry.amount e) (u_amount u);
         Entry.paymentMethod :=
           default (Entry.paymentMethod e) (option_map JSString.trim (u_paymentMethod u));
         Entry.date := default (Entry.date e) (u_date u);
         Entry.time := default (Entry.time e) (option_map JSString.trim (u_time u));
         Entry.notes :=
           match u_notes u with Some n => Some (JSString.trim n) | None => Entry.notes e end;
         Entry.division := default (Entry.division e) (u_division u);
         Entry.category :=
           match u_category u with
           | Some c => Some (JSString.trim c)
           | None => Entry.category e
           end;
         Entry.account := default (Entry.account e) (option_map JSString.trim (u_account u));
         Entry.isTransfer := default (Entry.isTransfer e) (u_isTransfer u);
         Entry.transferCounterpart :=
           match u_transferCounterpart u with
           | Some c => Some (JSString.trim c)
           | None => Entry.transferCounterpart e
           end;
         Entry.createdAt := Entry.createdAt e;
         Entry.updatedAt := now |} in
    let changed := match u_operators u with Some f => f set | None => set end in
    Some {| Entry._id := Entry._id e;
            Entry.email := Entry.email changed;
            Entry.source := Entry.source changed;
            Entry.amount := Entry.amount changed;
            Entry.paymentMethod := Entry.paymentMethod changed;
            Entry.date := Entry.date changed;
            Entry.time := Entry.time changed;
            Entry.notes := Entry.notes changed;
            Entry.division := Entry.division changed;
            Entry.category := Entry.category changed;
            Entry.account := Entry.account changed;
            Entry.isTransfer := Entry.isTransfer changed;
            Entry.transferCounterpart := Entry.transferCounterpart changed;
            Entry.createdAt := Entry.createdAt e;
            Entry.updatedAt := now |}
  else None.

(** The body [{$inc: {amount: delta}}]. *)
Definition inc_amount (delta : Z) : update :=
  {| u_email := None; u_source := None; u_amount := None; u_paymentMethod := None;
     u_date := None; u_time := None; u_notes := None; u_division := None;
     u_category := None; u_account := None; u_isTransfer := None;
     u_transferCounterpart := None;
     u_operators :=
       Some (fun e =>
               {| Entry._id := Entry._id e;
                  Entry.email := Entry.email e;
                  Entry.source := Entry.source e;
                  Entry.amount := Entry.amount e + delta;
                  Entry.paymentMethod := Entry.paymentMethod e;
                  Entry.date := Entry.date e;
                  Entry.time := Entry.time e;
                  Entry.notes := Entry.notes e;
                  Entry.division := Entry.division e;
                  Entry.category := Entry.category e;
                  Entry.account := Entry.account e;
                  Entry.isTransfer := Entry.isTransfer e;
                  Entry.transferCounterpart := Entry.transferCounterpart e;
                  Entry.createdAt := Entry.createdAt e;
                  Entry.updatedAt := Entry.updatedAt e |}) |}.

End Body.

Definition twelveHours : Z := 12 * 60 * 60 * 1000.

(** ** Period keys and per-kind period groups *)

Section PeriodKey.
Context {host : Host}.

(** The [switch (period)] that computes the key of a dated record; it is
    written out, identically, in [groupByPeriod] of the income routes, in
    [groupByPeriod] of the expense routes and in
    [groupTransactionsByPeriod]. *)
Definition periodKey (period : string) (date : Z) : string :=
  if String.eqb period "monthly" then
    JS.Number_toString (getFullYear date) ++ "-"
    ++ JS.padStart (JS.Number_toString (getMonth date + 1)) 2 "0"
  else if String.eqb period "weekly" then
    let weekNumber := JS.Math_ceil_div (getDate date) 7 in
    JS.Number_toString (getFullYear date) ++ "-W"
    ++ JS.padStart (JS.Number_toString weekNumber) 2 "0"
  else if String.eqb period "yearly" then
    JS.Number_toString (getFullYear date)
  else
    JS.split_head "T" (toISOString date).

End PeriodKey.

(** A group of the per-kind groupers. *)
Module Group.
Record t : Type := {
  period : string;
  totalAmount : Z;
  count : Z;
  items : list Entry.t
}.

Definition init (key : string) : t :=
  {| period := key; totalAmount := 0; count := 0; items := [] |}.

Definition push (e : Entry.t) (g : t) : t :=
  {| period := period g;
     totalAmount := totalAmount g + Entry.amount e;
     count := count g + 1;
     items := items g ++ [e] |}.
End Group.

(** ** The income routes *)

Module Income.

(** The body of the 200 response of [GET /period/:email]. *)
Record PeriodReport : Type := {
  r_period : string;
  r_dateRange : Z * Z;
  r_data : list Group.t;
  r_total : Z
}.

Inductive PeriodResult : Type :=
| PeriodOk (body : PeriodReport)
| PeriodFailed (code : Z) (msg : string).

Section Routes.
Context {host : Host}.

(** [POST /add]; [oid] is the identifier given to the new document. *)
Definition add (body : Body.entry) (oid : string) (now : Z) (st : Store)
  : Response * Store :=
  if negb (JS.truthy_opt (Body.email body))
     || negb (JS.truthy_opt (Body.source body))
     || negb (Body.amount_truthy (Body.amount body))
     || negb (JS.truthy_opt (Body.date body))
     || negb (JS.truthy_opt (Body.time body))
     || negb (JS.truthy_opt (Body.paymentMethod body))
  then (error 400 "Required fields are missing!", st)
  else
    match Body.parseFloat (Body.amount body),
          Date_parse (Body.text (Body.date body)) with
    | Some amount, Some date =>
        let newIncome :=
          {| Entry._id := oid;
             Entry.email := Body.text (Body.email body);
             Entry.source := Body.text (Body.source body);
             Entry.amount := amount;
             Entry.paymentMethod := Body.text (Body.paymentMethod body);
             Entry.date := date;
             Entry.time := Body.text (Body.time body);
             Entry.notes := Body.notes body;
             Entry.division := JS.or_default (Body.division body) "Personal";
             Entry.category :=
               Some (JS.or_default (Body.category body) (Body.text (Body.source body)));
             Entry.account := JS.or_default (Body.account body) "Cash";
             Entry.isTransfer := false;
             Entry.transferCounterpart := None;
             Entry.createdAt := now;
             Entry.updatedAt := now |} in
        match Entry.save newIncome with
        | Some saved =>
            let accounts' :=
              if JS.truthy_opt (Body.account body)
              then incBalance (Body.text (Body.email body))
                     (Body.text (Body.account body)) amount (accounts st)
              else accounts st in
            ({| status := 201; text := "Income added successfully!";
                document := Some saved |},
             {| incomes := incomes st ++ [saved];
                expenses := expenses st;
                accounts := accounts' |})
        | None => (error 500 "Internal Server Error", st)
        end
    | _, _ => (error 500 "Internal Server Error", st)
    end.

(** [PUT /:id]. *)
Definition update (id : string) (updateData : Body.update) (now : Z) (st : Store)
  : Response * Store :=
  match Entry.findById id (incomes st) with
  | None => (error 404 "Income not found!", st)
  | Some income =>
      let twelveHoursAgo := now - twelveHours in
      if Entry.createdAt income <? twelveHoursAgo
      then (error 403 "Cannot edit income after 12 hours of creation!", st)
      else
        match Body.applyUpdate updateData now income with
        | Some updatedIncome =>
            ({| status := 200; text := "Income updated successfully!";
                document := Some updatedIncome |},
             {| incomes := Entry.replaceById id updatedIncome (incomes st);
                expenses := expenses st;
                accounts := accounts st |})
        | None => (error 500 "Internal Server Error", st)
        end
  end.

(** [DELETE /:id]. *)
Definition delete (id : string) (now : Z) (st : Store) : Response * Store :=
  match Entry.findById id (incomes st) with
  | None => (error 404 "Income not found!", st)
  | Some income =>
      let twelveHoursAgo := now - twelveHours in
      if Entry.createdAt income <? twelveHoursAgo
      then (error 403 "Cannot delete income after 12 hours of creation!", st)
      else
        let accounts' :=
          if JS.truthy (Entry.account income)
          then incBalance (Entry.email income) (Entry.account income)
                 (- Entry.amount income) (accounts st)
          else accounts st in
        ({| status := 200; text := "Income deleted successfully!";
            document := None |},
         {| incomes := Entry.deleteById id (incomes st);
            expenses := expenses st;
            accounts := accounts' |})
  end.

(** One turn of the [forEach] of [groupByPeriod]; [None] once a turn has
    thrown (reading [items] of an inherited member of [Object.prototype]
    gives [undefined], whose [push] throws). *)
Definition groupByPeriod_step (period : string)
  (acc : option (list (string * Group.t))) (income : Entry.t)
  : option (list (string * Group.t)) :=
  match acc with
  | None => None
  | Some grouped =>
      let key := periodKey period (Entry.date income) in
      let grouped1 :=
        match JSObject.get grouped key with
        | JSObject.Undefined => JSObject.set key (Group.init key) grouped
        | _ => grouped
        end in
      match JSObject.get grouped1 key with
      | JSObject.Own g => Some (JSObject.set key (Group.push income g) grouped1)
      | _ => None
      end
  end.

(** [groupByPeriod(incomes, period)]. *)
Definition groupByPeriod (incomes : list Entry.t) (period : string)
  : option (list Group.t) :=
  option_map JSObject.values
    (fold_left (groupByPeriod_step period) incomes (Some [])).

(** [getDateRange(period)]: the pair [(start, end)], with [now] the instant
    read by [new Date()] and the keyword [None] when it is [undefined]. *)
Definition getDateRange (period : option string) (now : Z) : Z * Z :=
  match period with
  | Some p =>
      if String.eqb p "weekly" then (setDate now (getDate now - 7), now)
      else if String.eqb p "monthly" then
        (new_Date (getFullYear now) (getMonth now) 1,
         new_Date (getFullYear now) (getMonth now + 1) 0)
      else if String.eqb p "yearly" then
        (new_Date (getFullYear now) 0 1, new_Date (getFullYear now) 11 31)
      else
        (new_Date (getFullYear now) (getMonth now) 1,
         new_Date (getFullYear now) (getMonth now + 1) 0)
  | None =>
      (new_Date (getFullYear now) (getMonth now) 1,
       new_Date (getFullYear now) (getMonth now + 1) 0)
  end.

(** The filter [{email, date: {$gte: start, $lte: end}}]. *)
Definition inRange (email : string) (start end_ : Z) (e : Entry.t) : bool :=
  String.eqb (Entry.email e) email
  && (start <=? Entry.date e) && (Entry.date e <=? end_).

(** [GET /period/:email]; [period] is the query parameter ([None] when it
    is absent) and [sortByDate] the order in which the engine returns the
    matching documents for [.sort({date: 1})]. *)
Definition periodRoute (sortByDate : list Entry.t -> list Entry.t)
  (email : string) (period : option string) (now : Z) (st : Store)
  : PeriodResult :=
  let period := default "monthly" period in
  if negb (JS.truthy email) then PeriodFailed 400 "Email is required!"
  else
    let dateRange := getDateRange (Some period) now in
    let incomes :=
      sortByDate
        (List.filter (inRange email (fst dateRange) (snd dateRange)) (incomes st)) in
    match groupByPeriod incomes period with
    | Some groupedData =>
        PeriodOk
          {| r_period := period;
             r_dateRange := dateRange;
             r_data := groupedData;
             r_total :=
               fold_left (fun sum item => sum + Group.totalAmount item) groupedData 0 |}
    | None => PeriodFailed 500 "Internal Server Error"
    end.

End Routes.
End Income.

(** ** The expense routes *)

Module Expense.
Section Routes.
Context {host : Host}.

(** [POST /minus]; [oid] is the identifier given to the new document. *)
Definition minus (body : Body.entry) (oid : string) (now : Z) (st : Store)
  : Response * Store :=
  if negb (JS.truthy_opt (Body.email body))
     || negb (JS.truthy_opt (Body.source body))
     || negb (Body.amount_truthy (Body.amount body))
     || negb (JS.truthy_opt (Body.date body))
     || negb (JS.truthy_opt (Body.time body))
     || negb (JS.truthy_opt (Body.paymentMethod body))
  then (error 400 "Required fields are missing!", st)
  else
    match Body.parseFloat (Body.amount body),
          Date_parse (Body.text (Body.date body)) with
    | Some amount, Some date =>
        let newExpense :=
          {| Entry._id := oid;
             Entry.email := Body.text (Body.email body);
             Entry.source := Body.text (Body.source body);
             Entry.amount := amount;
             Entry.paymentMethod := Body.text (Body.paymentMethod body);
             Entry.date := date;
             Entry.time := Body.text (Body.time body);
             Entry.notes := Body.notes body;
             Entry.division := JS.or_default (Body.division body) "Personal";
             Entry.category :=
               Some (JS.or_default (Body.category body) (Body.text (Body.source body)));
             Entry.account := JS.or_default (Body.account body) "Cash";
             Entry.isTransfer := false;
             Entry.transferCounterpart := None;
             Entry.createdAt := now;
             Entry.updatedAt := now |} in
        match Entry.save newExpense with
        | Some saved =>
            let accounts' :=
              if JS.truthy_opt (Body.account body)
              then incBalance (Body.text (Body.email body))
                     (Body.text (Body.account body)) (- amount) (accounts st)
              else accounts st in
            ({| status := 201; text := "Expense added successfully!";
                document := Some saved |},
             {| incomes := incomes st;
                expenses := expenses st ++ [saved];
                accounts := accounts' |})
        | None => (error 500 "Internal Server Error", st)
        end
    | _, _ => (error 500 "Internal Server Error", st)
    end.

(** [PUT /:id]. *)
Definition update (id : string) (updateData : Body.update) (now : Z) (st : Store)
  : Response * Store :=
  match Entry.findById id (expenses st) with
  | None => (error 404 "Expense not found!", st)
  | Some expense =>
      let twelveHoursAgo := now - twelveHours in
      if Entry.createdAt expense <? twelveHoursAgo
      then (error 403 "Cannot edit expense after 12 hours of creation!", st)
      else
        match Body.applyUpdate updateData now expense with
        | Some updatedExpense =>
            ({| status := 200; text := "Expense updated successfully!";
                document := Some updatedExpense |},
             {| incomes := incomes st;
                expenses := Entry.replaceById id updatedExpense (expenses st);
                accounts := accounts st |})
        | None => (error 500 "Internal Server Error", st)
        end
  end.

(** [DELETE /:id]. *)
Definition delete (id : string) (now : Z) (st : Store) : Response * Store :=
  match Entry.findById id (expenses st) with
  | None => (error 404 "Expense not found!", st)
  | Some expense =>
      let twelveHoursAgo := now - twelveHours in
      if Entry.createdAt expense <? twelveHoursAgo
      then (error 403 "Cannot delete expense after 12 hours of creation!", st)
      else
        let accounts' :=
          if JS.truthy (Entry.account expense)
          then incBalance (Entry.email expense) (Entry.account expense)
                 (Entry.amount expense) (accounts st)
          else accounts st in
        ({| status := 200; text := "Expense deleted successfully!";
            document := None |},
         {| incomes := incomes st;
            expenses := Entry.deleteById id (expenses st);
            accounts := accounts' |})
  end.

(** One turn of the [forEach] of [groupByPeriod]; [None] once a turn has
    thrown. *)
Definition groupByPeriod_step (period : string)
  (acc : option (list (string * Group.t))) (expense : Entry.t)
  : option (list (string * Group.t)) :=
  match acc with
  | None => None
  | Some grouped =>
      let key := periodKey period (Entry.date expense) in
      let grouped1 :=
        match JSObject.get grouped key with
        | JSObject.Undefined => JSObject.set key (Group.init key) grouped
        | _ => grouped
        end in
      match JSObject.get grouped1 key with
      | JSObject.Own g => Some (JSObject.set key (Group.push expense g) grouped1)
      | _ => None
      end
  end.

(** [groupByPeriod(expenses, period)]. *)
Definition groupByPeriod (expenses : list Entry.t) (period : string)
  : option (list Group.t) :=
  option_map JSObject.values
    (fold_left (groupByPeriod_step period) expenses (Some [])).

(** [POST /transfer]; [oid] is the identifier given to the new document. *)
Definition transfer (body : Body.transfer) (oid : string) (now : Z) (st : Store)
  : Response * Store :=
  if negb (JS.truthy_opt (Body.t_email body))
     || negb (JS.truthy_opt (Body.fromAccount body))
     || negb (JS.truthy_opt (Body.toAccount body))
     || negb (Body.amount_truthy (Body.t_amount body))
     || negb (JS.truthy_opt (Body.t_date body))
  then (error 400 "Required fields are missing!", st)
  else
    let email := Body.text (Body.t_email body) in
    let fromAccount := Body.text (Body.fromAccount body) in
    let toAccount := Body.text (Body.toAccount body) in
    match Body.parseFloat (Body.t_amount body),
          Date_parse (Body.text (Body.t_date body)) with
    | Some amount, Some date =>
        let transferExpense :=
          {| Entry._id := oid;
             Entry.email := email;
             Entry.source := "Transfer to " ++ toAccount;
             Entry.amount := amount;
             Entry.paymentMethod := "Transfer";
             Entry.date := date;
             Entry.time :=
               JS.or_default (Body.t_time body) (Date_toLocaleTimeString now);
             Entry.notes :=
               Some (JS.or_default (Body.t_notes body) ("Transfer to " ++ toAccount));
             Entry.division := "Personal";
             Entry.category := Some "Transfer";
             Entry.account := fromAccount;
             Entry.isTransfer := true;
             Entry.transferCounterpart := None;
             Entry.createdAt := now;
             Entry.updatedAt := now |} in
        match Entry.save transferExpense with
        | Some saved =>
            let accounts' :=
              if JS.truthy fromAccount && JS.truthy toAccount
              then incBalance email toAccount amount
                     (incBalance email fromAccount (- amount) (accounts st))
              else accounts st in
            ({| status := 201; text := "Transfer completed successfully!";
                document := Some saved |},
             {| incomes := incomes st;
                expenses := expenses st ++ [saved];
                accounts := accounts' |})
        | None => (error 500 "Internal Server Error", st)
        end
    | _, _ => (error 500 "Internal Server Error", st)
    end.

End Routes.
End Expense.

(** ** The combined transactions routes *)

(** A record of the merged feed: the stored document with the fields the
    listing adds to it. *)
Module Txn.
Inductive kind : Type := income | expense.

Record t : Type := {
  doc : Entry.t;
  type : kind;
  displayAmount : string;
  colorClass : string;
  icon : string;
  canEdit : bool
}.

Definition amount (x : t) : Z := Entry.amount (doc x).
Definition date (x : t) : Z := Entry.date (doc x).
Definition time (x : t) : string := Entry.time (doc x).
Definition category (x : t) : option string := Entry.category (doc x).
Definition division (x : t) : string := Entry.division (doc x).

Definition is_income (x : t) : bool :=
  match type x with income => true | expense => false end.
Definition is_expense (x : t) : bool :=
  match type x with income => false | expense => true end.
End Txn.

(** A bucket of [groupTransactionsByPeriod]. *)
Module Bucket.
Record t : Type := {
  period : string;
  income : Z;
  expense : Z;
  balance : Z;
  transactions : list Txn.t
}.

Definition init (key : string) : t :=
  {| period := key; income := 0; expense := 0; balance := 0; transactions := [] |}.

(** The three statements that follow the creation of the bucket: add the
    amount to [income] or to [expense], recompute [balance], push. *)
Definition add (x : Txn.t) (b : t) : t :=
  let income' :=
    match Txn.type x with Txn.income => income b + Txn.amount x | _ => income b end in
  let expense' :=
    match Txn.type x with Txn.income => expense b | _ => expense b + Txn.amount x end in
  {| period := period b;
     income := income';
     expense := expense';
     balance := income' - expense';
     transactions := transactions b ++ [x] |}.
End Bucket.

(** The value kept per category by [getCategorySummary], and a row of its
    result. *)
Module CategoryRow.
Record data : Type := { income : Z; expense : Z; total : Z }.
Record t : Type := { category : string; sums : data }.
Definition zero : data := {| income := 0; expense := 0; total := 0 |}.
Definition credit (a : Z) (d : data) : data :=
  {| income := income d + a; expense := expense d; total := total d + a |}.
Definition debit (a : Z) (d : data) : data :=
  {| income := income d; expense := expense d + a; total := total d - a |}.
End CategoryRow.

(** The value kept per division by [getDivisionSummary], and a row of its
    result. *)
Module DivisionRow.
Record data : Type := { income : Z; expense : Z; balance : Z }.
Record t : Type := { division : string; sums : data }.
Definition zero : data := {| income := 0; expense := 0; balance := 0 |}.
Definition credit (a : Z) (d : data) : data :=
  {| income := income d + a; expense := expense d; balance := balance d + a |}.
Definition debit (a : Z) (d : data) : data :=
  {| income := income d; expense := expense d + a; balance := balance d - a |}.
End DivisionRow.

(** The value kept per period by [calculatePeriodTotals], and a row of its
    result. *)
Module PeriodRow.
Record data : Type := { income : Z; expense : Z; balance : Z }.
Record t : Type := { period : string; sums : data }.
Definition zero : data := {| income := 0; expense := 0; balance := 0 |}.
End PeriodRow.

Module Transactions.

(** The query string of [GET /:email]. *)
Record Query : Type := {
  startDate : option string;
  endDate : option string;
  division : option string;
  category : option string;
  account : option string;
  type : option string;
  period : option string;
  limit : option string;
  sortBy : option string
}.

(** A Mongo filter built by the route: equality on the e-mail, an optional
    inclusive range on the date (each bound [None] when the text is not a
    date), optional equalities. *)
Record Filter : Type := {
  f_email : string;
  f_date : option (option Z * option Z);
  f_division : option string;
  f_category : option string;
  f_account : option string
}.

Definition eq_filter (want : option string) (have : option string) : bool :=
  match want with
  | None => true
  | Some w => match have with Some h => String.eqb h w | None => false end
  end.

(** The engine compares with the filter as the schema casts it: the values
    given for [category] and [account], whose paths have [trim: true], are
    trimmed; those given for [email] and [division] are taken as they
    are. *)
Definition matches (gte lte : option Z) (q : Filter) (e : Entry.t) : bool :=
  String.eqb (Entry.email e) (f_email q)
  && match gte with Some a => a <=? Entry.date e | None => true end
  && match lte with Some b => Entry.date e <=? b | None => true end
  && eq_filter (f_division q) (Some (Entry.division e))
  && eq_filter (option_map JSString.trim (f_category q)) (Entry.category e)
  && eq_filter (option_map JSString.trim (f_account q)) (Some (Entry.account e)).

(** [Model.find(query).lean()]: the matching documents in the order of the
    collection, or [None] when the query holds an invalid date and the
    cast throws. *)
Definition find (q : Filter) (c : list Entry.t) : option (list Entry.t) :=
  match f_date q with
  | None => Some (List.filter (matches None None q) c)
  | Some (Some a, Some b) => Some (List.filter (matches (Some a) (Some b) q) c)
  | Some _ => None
  end.

Record Totals : Type := { income : Z; expense : Z; balance : Z }.
Record Counts : Type := { n_income : Z; n_expense : Z; n_total : Z }.

(** The body of the 200 response of [GET /:email]. *)
Record Listing : Type := {
  transactions : list Txn.t;
  totals : Totals;
  counts : Counts;
  periodData : option (list Bucket.t);
  byCategory : list CategoryRow.t;
  byDivision : list DivisionRow.t
}.

Inductive Result : Type :=
| Ok (body : Listing)
| Failed (code : Z) (msg : string).




Section Routes.
Context {host : Host}.

(** [canEditTransaction(createdAt)]. *)
Definition canEditTransaction (now : Z) (createdAt : option Z) : bool :=
  match createdAt with
  | None => false
  | Some c =>
      let twelveHoursAgo := now - 12 * 60 * 60 * 1000 in
      twelveHoursAgo <? c
  end.

Definition formatIncome (now : Z) (income : Entry.t) : Txn.t :=
  {| Txn.doc := income;
     Txn.type := Txn.income;
     Txn.displayAmount := "+₹" ++ JS.Number_toString (Entry.amount income);
     Txn.colorClass := "text-green-600";
     Txn.icon := "💰";
     Txn.canEdit := canEditTransaction now (Some (Entry.createdAt income)) |}.

Definition formatExpense (now : Z) (expense : Entry.t) : Txn.t :=
  {| Txn.doc := expense;
     Txn.type := Txn.expense;
     Txn.displayAmount := "-₹" ++ JS.Number_toString (Entry.amount expense);
     Txn.colorClass := "text-red-600";
     Txn.icon := "💸";
     Txn.canEdit := canEditTransaction now (Some (Entry.createdAt expense)) |}.

(** [new Date(`${a.date}T${a.time}`)] as a number; [None] is [NaN]. *)
Definition dateTime (a : Txn.t) : option Z :=
  Date_parse (Date_toString (Txn.date a) ++ "T" ++ Txn.time a).

(** Subtraction of two numbers that may be [NaN]. *)
Definition minus (a b : option Z) : option Z :=
  match a, b with
  | Some x, Some y => Some (x - y)
  | _, _ => None
  end.

(** The comparator of [sortTransactions]. *)
Definition compareTransactions (sortBy : string) (a b : Txn.t) : option Z :=
  let dateTimeA := dateTime a in
  let dateTimeB := dateTime b in
  if String.eqb sortBy "date_asc" then minus dateTimeA dateTimeB
  else if String.eqb sortBy "date_desc" then minus dateTimeB dateTimeA
  else if String.eqb sortBy "amount_asc" then Some (Txn.amount a - Txn.amount b)
  else if String.eqb sortBy "amount_desc" then Some (Txn.amount b - Txn.amount a)
  else minus dateTimeB dateTimeA.

(** [sortTransactions(transactions, sortBy)]. *)
Definition sortTransactions (transactions : list Txn.t) (sortBy : string)
  : list Txn.t :=
  JS.sort (compareTransactions sortBy) transactions.

(** One turn of the [forEach] of [groupTransactionsByPeriod]; [None] once
    a turn has thrown. *)
Definition groupTransactionsByPeriod_step (period : string)
  (acc : option (list (string * Bucket.t))) (transaction : Txn.t)
  : option (list (string * Bucket.t)) :=
  match acc with
  | None => None
  | Some grouped =>
      let key := periodKey period (Txn.date transaction) in
      let grouped1 :=
        match JSObject.get grouped key with
        | JSObject.Undefined => JSObject.set key (Bucket.init key) grouped
        | _ => grouped
        end in
      match JSObject.get grouped1 key with
      | JSObject.Own b => Some (JSObject.set key (Bucket.add transaction b) grouped1)
      | _ => None
      end
  end.

(** [groupTransactionsByPeriod(transactions, period)]. *)
Definition groupTransactionsByPeriod (transactions : list Txn.t) (period : string)
  : option (list Bucket.t) :=
  option_map
    (fun grouped =>
       JS.sort (fun a b => Some (localeCompare (Bucket.period a) (Bucket.period b)))
         (JSObject.values grouped))
    (fold_left (groupTransactionsByPeriod_step period) transactions (Some [])).

(** [getDateRangeForPeriod(period)]: the pair [(start, end)], with [now]
    the instant read by [new Date()] and the keyword [None] when it is
    [undefined]. *)
Definition getDateRangeForPeriod (period : option string) (now : Z) : Z * Z :=
  match period with
  | Some p =>
      if String.eqb p "weekly" then (setDate now (getDate now - 7), now)
      else if String.eqb p "monthly" then
        (new_Date (getFullYear now) (getMonth now) 1,
         new_Date (getFullYear now) (getMonth now + 1) 0)
      else if String.eqb p "yearly" then
        (new_Date (getFullYear now) 0 1, new_Date (getFullYear now) 11 31)
      else
        (new_Date (getFullYear now) (getMonth now) 1,
         new_Date (getFullYear now) (getMonth now + 1) 0)
  | None =>
      (new_Date (getFullYear now) (getMonth now) 1,
       new_Date (getFullYear now) (getMonth now + 1) 0)
  end.




(** The two [forEach] bodies of [getCategorySummary].  When the category
    names a member of [Object.prototype] the test [!categoryMap[category]]
    is false and the sums are written to that member, not to the map. *)
Definition categoryCredit (categoryMap : list (string * CategoryRow.data))
  (item : Txn.t) : list (string * CategoryRow.data) :=
  let category := JS.or_default (Txn.category item) "Uncategorized" in
  let map1 :=
    match JSObject.get categoryMap category with
    | JSObject.Undefined => JSObject.set category CategoryRow.zero categoryMap
    | _ => categoryMap
    end in
  match JSObject.get map1 category with
  | JSObject.Own d => JSObject.set category (CategoryRow.credit (Txn.amount item) d) map1
  | _ => map1
  end.

Definition categoryDebit (categoryMap : list (string * CategoryRow.data))
  (item : Txn.t) : list (string * CategoryRow.data) :=
  let category := JS.or_default (Txn.category item) "Uncategorized" in
  let map1 :=
    match JSObject.get categoryMap category with
    | JSObject.Undefined => JSObject.set category CategoryRow.zero categoryMap
    | _ => categoryMap
    end in
  match JSObject.get map1 category with
  | JSObject.Own d => JSObject.set category (CategoryRow.debit (Txn.amount item) d) map1
  | _ => map1
  end.

(** The map built by the two loops of [getCategorySummary]. *)
Definition categoryMap (incomes expenses : list Txn.t)
  : list (string * CategoryRow.data) :=
  fold_left categoryDebit expenses (fold_left categoryCredit incomes []).

(** [getCategorySummary(incomes, expenses)]. *)
Definition getCategorySummary (incomes expenses : list Txn.t)
  : list CategoryRow.t :=
  JS.sort
    (fun a b => Some (JS.Math_abs (CategoryRow.total (CategoryRow.sums b))
                      - JS.Math_abs (CategoryRow.total (CategoryRow.sums a))))
    (List.map (fun p => {| CategoryRow.category := fst p; CategoryRow.sums := snd p |})
       (JSObject.entries (categoryMap incomes expenses))).

Definition divisionCredit (divisionMap : list (string * DivisionRow.data))
  (item : Txn.t) : list (string * DivisionRow.data) :=
  let division := JS.or_default (Some (Txn.division item)) "Personal" in
  let map1 :=
    match JSObject.get divisionMap division with
    | JSObject.Undefined => JSObject.set division DivisionRow.zero divisionMap
    | _ => divisionMap
    end in
  match JSObject.get map1 division with
  | JSObject.Own d => JSObject.set division (DivisionRow.credit (Txn.amount item) d) map1
  | _ => map1
  end.

Definition divisionDebit (divisionMap : list (string * DivisionRow.data))
  (item : Txn.t) : list (string * DivisionRow.data) :=
  let division := JS.or_default (Some (Txn.division item)) "Personal" in
  let map1 :=
    match JSObject.get divisionMap division with
    | JSObject.Undefined => JSObject.set division DivisionRow.zero divisionMap
    | _ => divisionMap
    end in
  match JSObject.get map1 division with
  | JSObject.Own d => JSObject.set division (DivisionRow.debit (Txn.amount item) d) map1
  | _ => map1
  end.

(** [getDivisionSummary(incomes, expenses)]. *)
Definition getDivisionSummary (incomes expenses : list Txn.t)
  : list DivisionRow.t :=
  List.map (fun p => {| DivisionRow.division := fst p; DivisionRow.sums := snd p |})
    (JSObject.entries
       (fold_left divisionDebit expenses (fold_left divisionCredit incomes []))).

(** [arr.reduce((sum, item) => sum + item.amount, 0)]. *)
Definition sumAmount (l : list Txn.t) : Z :=
  fold_left (fun sum item => sum + Txn.amount item) l 0.

(** The filter of the route for one collection. *)
Definition buildQuery (email : string) (q : Query) : Filter :=
  {| f_email := email;
     f_date :=
       if JS.truthy_opt (startDate q) && JS.truthy_opt (endDate q)
       then Some (Date_parse (Body.text (startDate q)),
                  Date_parse (Body.text (endDate q)))
       else None;
     f_division := if JS.truthy_opt (division q) then division q else None;
     f_category := if JS.truthy_opt (category q) then category q else None;
     f_account := if JS.truthy_opt (account q) then account q else None |}.

Definition wants (kind : string) (type : option string) : bool :=
  negb (JS.truthy_opt type)
  || String.eqb (Body.text type) "both"
  || String.eqb (Body.text type) kind.

(** The documents fetched from one collection: none when the [type]
    filter excludes the kind, [None] when the query throws. *)
Definition fetch (kind : string) (email : string) (q : Query) (c : list Entry.t)
  : option (list Entry.t) :=
  if wants kind (type q) then find (buildQuery email q) c else Some [].

(** [GET /:email]. *)
Definition list (email : string) (q : Query) (now : Z) (st : Store) : Result :=
  if negb (JS.truthy email) then Failed 400 "Email is required!"
  else
    match fetch "income" email q (incomes st),
          fetch "expense" email q (expenses st) with
    | Some incomeTransactions, Some expenseTransactions =>
        let formattedIncome := List.map (formatIncome now) incomeTransactions in
        let formattedExpense := List.map (formatExpense now) expenseTransactions in
        let merged := (formattedIncome ++ formattedExpense)%list in
        let sorted := sortTransactions merged (default "date_desc" (sortBy q)) in
        let allTransactions :=
          if JS.truthy_opt (limit q)
          then JS.slice0 sorted (JSString.parseInt (Body.text (limit q)))
          else sorted in
        let totalIncome := sumAmount formattedIncome in
        let totalExpense := sumAmount formattedExpense in
        let balance := totalIncome - totalExpense in
        let groupedData :=
          if JS.truthy_opt (period q)
          then option_map Some
                 (groupTransactionsByPeriod allTransactions (Body.text (period q)))
          else Some None in
        match groupedData with
        | Some periodData =>
            Ok {| transactions := allTransactions;
                  totals := {| income := totalIncome;
                               expense := totalExpense;
                               balance := balance |};
                  counts := {| n_income := Z.of_nat (length formattedIncome);
                               n_expense := Z.of_nat (length formattedExpense);
                               n_total := Z.of_nat (length allTransactions) |};
                  periodData := periodData;
                  byCategory := getCategorySummary formattedIncome formattedExpense;
                  byDivision := getDivisionSummary formattedIncome formattedExpense |}
        | None => Failed 500 "Internal Server Error"
        end
    | _, _ => Failed 500 "Internal Server Error"
    end.



End Routes.
End Transactions.

(** ** The dashboard trends *)

(** The rows of the three trends. *)
Module TrendRow.
Record monthly : Type := {
  m_period : string;
  month : Z;
  m_year : Z;
  m_income : Z;
  m_expense : Z;
  m_balance : Z
}.

Record weekly : Type := {
  w_period : string;
  weekStart : string;
  weekEnd : string;
  w_income : Z;
  w_expense : Z;
  w_balance : Z
}.

Record yearly : Type := {
  y_period : string;
  year : Z;
  y_income : Z;
  y_expense : Z;
  y_balance : Z
}.
End TrendRow.

Module Dashboard.

Inductive Trend : Type :=
| Monthly (rows : list TrendRow.monthly)
| Weekly (rows : list TrendRow.weekly)
| Yearly (rows : list TrendRow.yearly).

Inductive PeriodResult : Type :=
| PeriodOk (period : string) (data : Trend)
| PeriodFailed (code : Z) (msg : string).

(** The values taken by [i] in [for (let i = count - 1; i >= 0; i--)]. *)
Fixpoint downFrom (n : nat) : list Z :=
  match n with
  | O => []
  | S k => Z.of_nat k :: downFrom k
  end.

(** The same for a count that may be [NaN] ([None]): the test [i >= 0] is
    then false at once. *)
Definition loopIndices (count : option Z) : list Z :=
  match count with
  | Some n => downFrom (Z.to_nat n)
  | None => []
  end.

(** The pipeline [[{$match: {email, date: {$gte, $lte}}},
    {$group: {_id: null, total: {$sum: "$amount"}}}]]: no row when no
    document matches, else one row with the total. *)
Definition aggregateTotal (email : string) (gte lte : Z) (c : list Entry.t)
  : list Z :=
  match List.filter
          (fun e => String.eqb (Entry.email e) email
                    && (gte <=? Entry.date e) && (Entry.date e <=? lte)) c with
  | [] => []
  | docs => [fold_left (fun total e => total + Entry.amount e) docs 0]
  end.

(** [rows[0]?.total || 0]. *)
Definition firstTotal (rows : list Z) : Z :=
  match rows with
  | total :: _ => if total =? 0 then 0 else total
  | [] => 0
  end.

Section Routes.
Context {host : Host}.

(** [monthStart.toLocaleString('default', {month: 'short'})], which the
    host decides. *)
Variable monthShort : Z -> string.

(** [getMonthlyTrend(email, months)], with [now] the instant read by
    [new Date()]. *)
Definition getMonthlyTrend (email : string) (months : option Z) (now : Z)
  (st : Store) : list TrendRow.monthly :=
  List.map
    (fun i =>
       let monthStart := new_Date (getFullYear now) (getMonth now - i) 1 in
       let monthEnd := new_Date (getFullYear now) (getMonth now - i + 1) 0 in
       let monthName := monthShort monthStart in
       let year := getFullYear monthStart in
       let label := monthName ++ " " ++ JS.Number_toString year in
       let monthIncome := aggregateTotal email monthStart monthEnd (incomes st) in
       let monthExpense := aggregateTotal email monthStart monthEnd (expenses st) in
       {| TrendRow.m_period := label;
          TrendRow.month := getMonth monthStart + 1;
          TrendRow.m_year := year;
          TrendRow.m_income := firstTotal monthIncome;
          TrendRow.m_expense := firstTotal monthExpense;
          TrendRow.m_balance := firstTotal monthIncome - firstTotal monthExpense |})
    (loopIndices months).

(** [getWeeklyTrend(email, weeks)]. *)
Definition getWeeklyTrend (email : string) (weeks : option Z) (now : Z)
  (st : Store) : list TrendRow.weekly :=
  List.map
    (fun i =>
       let weekStart := setDate now (getDate now - i * 7) in
       let weekEnd := setDate weekStart (getDate weekStart + 6) in
       let label :=
         "Week " ++ JS.Number_toString (JS.Math_ceil_div (getDate weekStart) 7) in
       let weekIncome := aggregateTotal email weekStart weekEnd (incomes st) in
       let weekExpense := aggregateTotal email weekStart weekEnd (expenses st) in
       {| TrendRow.w_period := label;
          TrendRow.weekStart := JS.split_head "T" (toISOString weekStart);
          TrendRow.weekEnd := JS.split_head "T" (toISOString weekEnd);
          TrendRow.w_income := firstTotal weekIncome;
          TrendRow.w_expense := firstTotal weekExpense;
          TrendRow.w_balance := firstTotal weekIncome - firstTotal weekExpense |})
    (loopIndices weeks).

(** [getYearlyTrend(email, years)]. *)
Definition getYearlyTrend (email : string) (years : option Z) (now : Z)
  (st : Store) : list TrendRow.yearly :=
  let currentYear := getFullYear now in
  List.map
    (fun i =>
       let year := currentYear - i in
       let yearStart := new_Date year 0 1 in
       let yearEnd := new_Date year 11 31 in
       let yearIncome := aggregateTotal email yearStart yearEnd (incomes st) in
       let yearExpense := aggregateTotal email yearStart yearEnd (expenses st) in
       {| TrendRow.y_period := JS.Number_toString year;
          TrendRow.year := year;
          TrendRow.y_income := firstTotal yearIncome;
          TrendRow.y_expense := firstTotal yearExpense;
          TrendRow.y_balance := firstTotal yearIncome - firstTotal yearExpense |})
    (loopIndices years).

(** [GET /period/:email]; [period] and [months] are the query parameters,
    [None] when absent. *)
Definition periodRoute (email : string) (period months : option string)
  (now : Z) (st : Store) : PeriodResult :=
  let period := default "monthly" period in
  let months :=
    match months with
    | Some text => JSString.parseInt text
    | None => Some 12
    end in
  if negb (JS.truthy email) then PeriodFailed 400 "Email is required!"
  else if String.eqb period "monthly" then
    PeriodOk period (Monthly (getMonthlyTrend email months now st))
  else if String.eqb period "weekly" then
    PeriodOk period (Weekly (getWeeklyTrend email (Some 8) now st))
  else if String.eqb period "yearly" then
    PeriodOk period (Yearly (getYearlyTrend email (Some 5) now st))
  else
    PeriodOk period (Monthly (getMonthlyTrend email (Some 12) now st)).

End Routes.
End Dashboard.

(** ** The reset codes of the authentication routes *)

Module Auth.

(** A value of the object [resetCodes]. *)
Record ResetCode : Type := { code : string; expiresAt : Z }.

(** The body of [POST /verify-reset-code]; a field is [None] when it is
    absent. *)
Record Verify : Type := { email : option string; resetCode : option string }.

(** The property key made of a value that may be [undefined]. *)
Definition propertyKey (v : option string) : string := default "undefined" v.

(** The statement of [POST /forgot-password] that stores the code made for
    an account: [resetCodes[email] = {code, expiresAt: Date.now() + 10 * 60 * 1000}]. *)
Definition storeResetCode (email resetCode : string) (now : Z)
  (resetCodes : list (string * ResetCode)) : list (string * ResetCode) :=
  JSObject.set email {| code := resetCode; expiresAt := now + 10 * 60 * 1000 |}
    resetCodes.

(** [POST /verify-reset-code]: the status and the text of the answer.  A
    member of [Object.prototype] has neither [expiresAt] nor [code]:
    [undefined < Date.now()] is false, and [undefined !== resetCode] is
    false only when the body has no [resetCode]. *)
Definition verifyResetCode (body : Verify) (now : Z)
  (resetCodes : list (string * ResetCode)) : Z * string :=
  match JSObject.get resetCodes (propertyKey (email body)) with
  | JSObject.Undefined => (400, "Reset code expired. Request a new one.")
  | JSObject.Own entry =>
      if expiresAt entry <? now
      then (400, "Reset code expired. Request a new one.")
      else
        match resetCode body with
        | Some text =>
            if String.eqb (code entry) text
            then (200, "Code verified successfully!")
            else (400, "Invalid reset code.")
        | None => (400, "Invalid reset code.")
        end
  | JSObject.Inherited =>
      match resetCode body with
      | Some _ => (400, "Invalid reset code.")
      | None => (200, "Code verified successfully!")
      end
  end.

End Auth.

(** ** Two concrete hosts

    A host in a zone that is always five and a half hours ahead of UTC, and
    a host in a zone with daylight saving.  Both read the texts
    [YYYY-MM-DD] (UTC midnight) and [YYYY-MM-DDTHH:MM] (local time) and no
    other text, and collate texts character by character with [-] before
    [+].  They instantiate the statements below on concrete inputs. *)

Module SampleHost.

Definition two_digits (a b : ascii) : option Z :=
  match JSObject.digit_value a, JSObject.digit_value b with
  | Some x, Some y => Some (Z.of_N (x * 10 + y))
  | _, _ => None
  end.

Definition four_digits (a b c d : ascii) : option Z :=
  match two_digits a b, two_digits c d with
  | Some x, Some y => Some (x * 100 + y)
  | _, _ => None
  end.

Definition tz : Z := 19800000.

(** The reader of dates, for a host that reads the local time [t] as the
    instant [utc t]. *)
Definition parse_with (utc : Z -> Z) (s : string) : option Z :=
  match s with
  | String y1 (String y2 (String y3 (String y4 (String "-" (String m1 (String m2
      (String "-" (String d1 (String d2 rest))))))))) =>
      match four_digits y1 y2 y3 y4, two_digits m1 m2, two_digits d1 d2 with
      | Some y, Some m, Some d =>
          let day := days_from_civil y m d in
          match rest with
          | EmptyString => Some (MakeDate day 0)
          | String "T" (String h1 (String h2 (String ":" (String n1 (String n2
              EmptyString))))) =>
              match two_digits h1 h2, two_digits n1 n2 with
              | Some h, Some n =>
                  Some (utc (MakeDate day (h * msPerHour + n * msPerMinute)))
              | _, _ => None
              end
          | _ => None
          end
      | _, _, _ => None
      end
  | _ => None
  end.

Definition parse (s : string) : option Z := parse_with (fun t => t - tz) s.

(** The order of the characters in the collation: that of their codes,
    except that [-] comes before [+]. *)
Definition weight (c : ascii) : N :=
  let n := N_of_ascii c in
  if (n =? 45)%N then 43%N else if (n =? 43)%N then 45%N else n.

Fixpoint collate (a b : string) : Z :=
  match a, b with
  | EmptyString, EmptyString => 0
  | EmptyString, String _ _ => -1
  | String _ _, EmptyString => 1
  | String x a', String y b' =>
      match N.compare (weight x) (weight y) with
      | Lt => -1
      | Gt => 1
      | Eq => collate a' b'
      end
  end.

Definition host : Host :=
  {| LocalTZA := fun _ _ => tz;
     LocalTZA_range := fun _ _ => eq_refl;
     TimeZoneName := fun _ => " (India Standard Time)";
     Date_toLocaleTimeString :=
       fun t => pad 2 (HourFromTime (t + tz)) ++ ":" ++ pad 2 (MinFromTime (t + tz))
                ++ ":" ++ pad 2 (SecFromTime (t + tz));
     Date_parse := parse;
     localeCompare := collate |}.

(** A document with the given identifier, amount, date and category. *)
Definition entry (id : string) (amount : Z) (date : string) (time : string)
  (category : string) (account : string) (createdAt : Z) : Entry.t :=
  {| Entry._id := id;
     Entry.email := "user@example.com";
     Entry.source := category;
     Entry.amount := amount;
     Entry.paymentMethod := "UPI";
     Entry.date := default 0 (parse date);
     Entry.time := time;
     Entry.notes := None;
     Entry.division := "Personal";
     Entry.category := Some category;
     Entry.account := account;
     Entry.isTransfer := false;
     Entry.transferCounterpart := None;
     Entry.createdAt := createdAt;
     Entry.updatedAt := createdAt |}.

Definition account (balance : Z) : Account.t :=
  {| Account.accountType := "Savings";
     Account.balance := balance;
     Account.currency := "USD";
     Account.isActive := true |}.

(** 2024-03-15T12:00:00Z. *)
Definition noon : Z := 1710504000000.

Definition owner : string := "user@example.com".

(** Two incomes and an expense, created an hour before [noon]. *)
Definition salary : Entry.t :=
  entry "i1" 100 "2024-03-15" "10:00" "Salary" "Cash" (noon - 3600000).
Definition refund : Entry.t :=
  entry "i2" 50 "2024-01-05" "09:30" "Refund" "Cash" (noon - 3600000).
Definition groceries : Entry.t :=
  entry "e1" 75 "2024-03-12" "18:45" "Food" "Cash" (noon - 3600000).

(** An income and an expense created exactly twelve hours before [noon]. *)
Definition old_income : Entry.t :=
  entry "i3" 200 "2024-03-14" "23:00" "Bonus" "Cash" (noon - 43200000).
Definition old_expense : Entry.t :=
  entry "e2" 40 "2024-03-14" "23:30" "Taxi" "Cash" (noon - 43200000).

(** An income whose category is the name of a member of
    [Object.prototype]. *)
Definition odd_income : Entry.t :=
  entry "i4" 100 "2024-03-15" "11:00" "constructor" "Cash" (noon - 3600000).

Definition ledger : Accounts :=
  <[(owner, "Cash") := account 1000]> (<[(owner, "Bank") := account 500]> ∅).

Definition store : Store :=
  {| incomes := [salary; refund; old_income];
     expenses := [groceries; old_expense];
     accounts := ledger |}.

(** A creation request without [account]. *)
Definition body_no_account : Body.entry :=
  {| Body.email := Some owner;
     Body.source := Some "Salary";
     Body.amount := Body.AmountNumber 100;
     Body.date := Some "2024-03-15";
     Body.time := Some "10:00";
     Body.notes := None;
     Body.paymentMethod := Some "UPI";
     Body.division := None;
     Body.category := None;
     Body.account := None |}.

(** A transfer of 300 from Cash to Bank. *)
Definition body_transfer : Body.transfer :=
  {| Body.t_email := Some owner;
     Body.fromAccount := Some "Cash";
     Body.toAccount := Some "Bank";
     Body.t_amount := Body.AmountNumber 300;
     Body.t_date := Some "2024-03-15";
     Body.t_time := None;
     Body.t_notes := None |}.

(** An update of the amount. *)
Definition body_update : Body.update :=
  {| Body.u_email := None;
     Body.u_source := None;
     Body.u_amount := Some 250;
     Body.u_paymentMethod := None;
     Body.u_date := None;
     Body.u_time := None;
     Body.u_notes := None;
     Body.u_division := None;
     Body.u_category := None;
     Body.u_account := None;
     Body.u_isTransfer := None;
     Body.u_transferCounterpart := None;
     Body.u_operators := None |}.

(** A listing query sorted by ascending date with a limit of two. *)
Definition query : Transactions.Query :=
  {| Transactions.startDate := None;
     Transactions.endDate := None;
     Transactions.division := None;
     Transactions.category := None;
     Transactions.account := None;
     Transactions.type := None;
     Transactions.period := Some "monthly";
     Transactions.limit := Some "2";
     Transactions.sortBy := Some "date_asc" |}.

End SampleHost.

(** A host in a zone with daylight saving: one hour ahead of UTC, and two
    hours ahead from 2024-03-31T01:00:00Z to 2024-10-27T01:00:00Z.  The
    local times from 02:00 to 03:00 of the 31st of March are skipped and
    those of the 27th of October occur twice; both are read with the offset
    in force before the change. *)
Module SampleZone.

Definition spring : Z := 1711846800000.
Definition autumn : Z := 1729990800000.

Definition offset (t : Z) (isUTC : bool) : Z :=
  if isUTC
  then (if (spring <=? t) && (t <? autumn) then 2 * msPerHour else msPerHour)
  else (if (spring + 2 * msPerHour <=? t) && (t <? autumn + 2 * msPerHour)
        then 2 * msPerHour else msPerHour).

Definition host : Host :=
  {| LocalTZA := offset;
     LocalTZA_range :=
       fun t isUTC =>
         match isUTC as b
           return ((- msPerDay <? offset t b) && (offset t b <? msPerDay) = true)
         with
         | true =>
             match (spring <=? t) && (t <? autumn) as c
               return ((- msPerDay <? (if c then 2 * msPerHour else msPerHour))
                       && ((if c then 2 * msPerHour else msPerHour) <? msPerDay)
                       = true)
             with
             | true => eq_refl
             | false => eq_refl
             end
         | false =>
             match (spring + 2 * msPerHour <=? t) && (t <? autumn + 2 * msPerHour) as c
               return ((- msPerDay <? (if c then 2 * msPerHour else msPerHour))
                       && ((if c then 2 * msPerHour else msPerHour) <? msPerDay)
                       = true)
             with
             | true => eq_refl
             | false => eq_refl
             end
         end;
     TimeZoneName :=
       fun t => if (spring <=? t) && (t <? autumn)
                then " (Central European Summer Time)"
                else " (Central European Standard Time)";
     Date_toLocaleTimeString :=
       fun t => pad 2 (HourFromTime (t + offset t true)) ++ ":"
                ++ pad 2 (MinFromTime (t + offset t true)) ++ ":"
                ++ pad 2 (SecFromTime (t + offset t true));
     Date_parse := SampleHost.parse_with (fun t => t - offset t false);
     localeCompare := SampleHost.collate |}.

(** 2024-04-02T10:00:00Z, which is noon of the 2nd of April for the
    host. *)
Definition april_noon : Z := 1712052000000.

End SampleZone.

(** More sample data for the first host. *)
Module SampleData.

(** A creation request on the account [Cash]. *)
Definition body_cash : Body.entry :=
  {| Body.email := Some SampleHost.owner;
     Body.source := Some "Salary";
     Body.amount := Body.AmountNumber 100;
     Body.date := Some "2024-03-15";
     Body.time := Some "10:00";
     Body.notes := None;
     Body.paymentMethod := Some "UPI";
     Body.division := None;
     Body.category := None;
     Body.account := Some "Cash" |}.

(** The same request, the name of the account written with white space
    around it. *)
Definition body_spaced : Body.entry :=
  {| Body.email := Some SampleHost.owner;
     Body.source := Some "Salary";
     Body.amount := Body.AmountNumber 100;
     Body.date := Some "2024-03-15";
     Body.time := Some "10:00";
     Body.notes := None;
     Body.paymentMethod := Some "UPI";
     Body.division := None;
     Body.category := None;
     Body.account := Some " Cash  " |}.

(** A listing query that filters on a category and on an account, both
    written with white space around them. *)
Definition query_spaced : Transactions.Query :=
  {| Transactions.startDate := None;
     Transactions.endDate := None;
     Transactions.division := None;
     Transactions.category := Some " Salary ";
     Transactions.account := Some "Cash ";
     Transactions.type := None;
     Transactions.period := None;
     Transactions.limit := None;
     Transactions.sortBy := None |}.

(** An income of the 15th of June of the year 10000 and one of the 15th
    of June of the year -1. *)
Definition dated (id : string) (date : Z) : Entry.t :=
  {| Entry._id := id;
     Entry.email := SampleHost.owner;
     Entry.source := "Gift";
     Entry.amount := 10;
     Entry.paymentMethod := "UPI";
     Entry.date := date;
     Entry.time := "12:00";
     Entry.notes := None;
     Entry.division := "Personal";
     Entry.category := Some "Gift";
     Entry.account := "Cash";
     Entry.isTransfer := false;
     Entry.transferCounterpart := None;
     Entry.createdAt := SampleHost.noon;
     Entry.updatedAt := SampleHost.noon |}.
Definition far_future : Entry.t :=
  dated "f1" (MakeDate (days_from_civil 10000 6 15) (12 * msPerHour)).
Definition far_past : Entry.t :=
  dated "p1" (MakeDate (days_from_civil (-1) 6 15) (12 * msPerHour)).

(** Two documents whose time is not one the host reads. *)
Definition late_income : Entry.t :=
  SampleHost.entry "u1" 10 "2024-03-15" "late" "Misc" "Cash" SampleHost.noon.
Definition early_expense : Entry.t :=
  SampleHost.entry "u2" 20 "2024-03-16" "early" "Misc" "Cash" SampleHost.noon.

(** 2024-03-31T00:00:00Z, which is 05:30 on the 31st of March for the
    host. *)
Definition last_of_march : Z := 1711843200000.

(** 2024-12-31T12:00:00Z. *)
Definition last_of_december : Z := 1735646400000.

(** The short names of the months. *)
Definition monthShort (t : Z) : string :=
  nth (Z.to_nat (getMonth (host := SampleHost.host) t))
    ["Jan"; "Feb"; "Mar"; "Apr"; "May"; "Jun";
     "Jul"; "Aug"; "Sep"; "Oct"; "Nov"; "Dec"] "".

(** An engine that returns the documents by ascending date, documents of
    the same date in the order of the collection. *)
Definition sortByDate (l : list Entry.t) : list Entry.t :=
  JS.sort (fun a b => Some (Entry.date a - Entry.date b)) l.

(** The sample incomes and expenses as the listing types them. *)
Definition typed_incomes : list Txn.t :=
  List.map (Transactions.formatIncome SampleHost.noon)
    [SampleHost.salary; SampleHost.refund].
Definition typed_expenses : list Txn.t :=
  List.map (Transactions.formatExpense SampleHost.noon)
    [SampleHost.groceries].

(** A transfer of 300 from Cash to Bank, the two names written with
    white space around them. *)
Definition body_transfer_spaced : Body.transfer :=
  {| Body.t_email := Some SampleHost.owner;
     Body.fromAccount := Some " Cash";
     Body.toAccount := Some "Bank  ";
     Body.t_amount := Body.AmountNumber 300;
     Body.t_date := Some "2024-03-15";
     Body.t_time := None;
     Body.t_notes := None |}.

(** A transfer of 1500 from Cash, which holds 1000, to an account that the
    owner does not have. *)
Definition body_overdraw : Body.transfer :=
  {| Body.t_email := Some SampleHost.owner;
     Body.fromAccount := Some "Cash";
     Body.toAccount := Some "Savings";
     Body.t_amount := Body.AmountNumber 1500;
     Body.t_date := Some "2024-03-15";
     Body.t_time := Some "10:00";
     Body.t_notes := None |}.

End SampleData.

(** * Specification-side notions *)

(** The sum of the amounts of a list of records. *)
Definition sum_amounts (l : list Txn.t) : Z :=
  fold_right (fun x acc => Txn.amount x + acc) 0 l.

Definition sum_entries (l : list Entry.t) : Z :=
  fold_right (fun e acc => Entry.amount e + acc) 0 l.

(** The decimal digit of a number below ten, and the text of a number in
    exactly [width] decimal digits. *)
Definition digit (n : Z) : ascii := ascii_of_N (48 + Z.to_N n).

Fixpoint decimal (width : nat) (n : Z) : string :=
  match width with
  | O => EmptyString
  | S w => decimal w (n / 10) ++ String (digit (n mod 10)) EmptyString
  end.

(** The calendar date of an instant in local time: year, month (1 to 12)
    and day of the month; and the instants that are a local midnight. *)
Definition localDate {host : Host} (d : Z) : Z * Z * Z :=
  (getFullYear d, getMonth d + 1, getDate d).

Definition localMidnight {host : Host} (d : Z) : Prop :=
  TimeWithinDay (LocalTime d) = 0.

(** A host whose offset from UTC never changes: a zone without daylight
    saving and without a change of its standard time. *)
Definition steady {host : Host} : Prop :=
  forall t isUTC t' isUTC', LocalTZA t isUTC = LocalTZA t' isUTC'.

(** The instant that the host reads from 00:00 of the day of its calendar
    that has the day number [day]. *)
Definition midnight_of {host : Host} (day : Z) : Z := UTC (MakeDate day 0).

(** The local time [t] is one that the host shows for the instant it reads
    from it: it is not a time skipped by a change of the offset. *)
Definition read_back {host : Host} (t : Z) : Prop := LocalTime (UTC t) = t.

(** The keywords of the time-range resolver. *)
Definition named_period (p : string) : bool :=
  String.eqb p "weekly" || String.eqb p "monthly" || String.eqb p "yearly".

(** Bounded exhaustive checks: [P] holds on [fuel] consecutive integers
    from [lo]. *)
Fixpoint all_from (fuel : nat) (lo : Z) (P : Z -> bool) : bool :=
  match fuel with
  | O => true
  | S fuel' => P lo && all_from fuel' (lo + 1) P
  end.

(** The day number of the first day of the month after month [m] of year
    [y]. *)
Definition next_month_start (y m : Z) : Z :=
  if m =? 12 then days_from_civil (y + 1) 1 1 else days_from_civil y (m + 1) 1.

(** The first day of a month is the civil date it was built from, the day
    before the next month is in the month, and a month has 28 days or
    more. *)
Definition month_check (y m : Z) : bool :=
  let s := days_from_civil y m 1 in
  let e := next_month_start y m - 1 in
  (fst (fst (civil_from_days s)) =? y) && (snd (fst (civil_from_days s)) =? m)
  && (snd (civil_from_days s) =? 1)
  && (fst (fst (civil_from_days e)) =? y) && (snd (fst (civil_from_days e)) =? m)
  && (s + 27 <=? e).

(** ** Sorting, grouping and summaries *)

(** [l'] is [l] sorted by ascending [key], records of equal key keeping the
    order they have in [l]. *)
Definition stable_sort_by {A : Type} (key : A -> Z) (l l' : list A) : Prop :=
  Permutation l l'
  /\ StronglySorted (fun x y => key x <= key y) l'
  /\ forall k, List.filter (fun x => key x =? k) l'
               = List.filter (fun x => key x =? k) l.

(** The four sort keys of the listing. *)
Inductive SortKey : Type := DateAsc | DateDesc | AmountAsc | AmountDesc.

(** The key requested by the [sortBy] parameter: [date_desc] when it is
    absent or is none of the four names. *)
Definition requested (sortBy : option string) : SortKey :=
  match sortBy with
  | None => DateDesc
  | Some s =>
      if String.eqb s "date_asc" then DateAsc
      else if String.eqb s "amount_asc" then AmountAsc
      else if String.eqb s "amount_desc" then AmountDesc
      else DateDesc
  end.

Definition by_date (k : SortKey) : bool :=
  match k with
  | DateAsc | DateDesc => true
  | AmountAsc | AmountDesc => false
  end.

(** The timestamp that combines the date and the time of a record. *)
Definition timestamp {host : Host} (x : Txn.t) : Z := default 0 (Transactions.dateTime x).

(** The number by which a key orders the records, ascending. *)
Definition key_of {host : Host} (k : SortKey) (x : Txn.t) : Z :=
  match k with
  | DateAsc => timestamp x
  | DateDesc => - timestamp x
  | AmountAsc => Txn.amount x
  | AmountDesc => - Txn.amount x
  end.

(** The distinct texts of a list, in the order of their first occurrence. *)
Definition first_seen (keys : list string) : list string :=
  fold_left
    (fun seen k => if List.existsb (String.eqb k) seen then seen else (seen ++ [k])%list)
    keys [].

(** One turn of the loop of a grouper with key [K], whose groups start as
    [init key] and take a record by [push]. *)
Definition group_step {E B : Type} (K : E -> string) (init : string -> B)
  (push : E -> B -> B) (acc : option (list (string * B))) (x : E)
  : option (list (string * B)) :=
  match acc with
  | None => None
  | Some grouped =>
      let key := K x in
      let grouped1 :=
        match JSObject.get grouped key with
        | JSObject.Undefined => JSObject.set key (init key) grouped
        | _ => grouped
        end in
      match JSObject.get grouped1 key with
      | JSObject.Own b => Some (JSObject.set key (push x b) grouped1)
      | _ => None
      end
  end.

(** What holds of the object [g] after the records [done]: distinct keys,
    every group satisfying [P], a group for every record, and the keys in
    the order in which they were first seen. *)
Definition grouped_inv {E B : Type} (K : E -> string)
  (P : list E -> string -> B -> Prop) (done : list E) (g : list (string * B))
  : Prop :=
  List.NoDup (List.map fst g)
  /\ Forall (fun p => P done (fst p) (snd p)) g
  /\ (forall y, List.In y done -> List.In (K y) (List.map fst g))
  /\ List.map fst g = first_seen (List.map K done).

(** What a bucket holds, for the list [txs] that was grouped: its members
    are the records of [txs] whose key is its label, in their order; its
    income and its expense are the sums over its income-typed and over its
    expense-typed members; its balance is their difference. *)
Definition bucket_of {host : Host} (period : string) (txs : list Txn.t) (b : Bucket.t) : Prop :=
  Bucket.transactions b
  = List.filter (fun x => String.eqb (periodKey period (Txn.date x)) (Bucket.period b))
      txs
  /\ Bucket.income b = sum_amounts (List.filter Txn.is_income (Bucket.transactions b))
  /\ Bucket.expense b = sum_amounts (List.filter Txn.is_expense (Bucket.transactions b))
  /\ Bucket.balance b = Bucket.income b - Bucket.expense b.


(** The feed of the listing: the sorted concatenation, cut by the limit. *)
Definition feed {host : Host} (q : Transactions.Query) (now : Z) (incs exps : list Entry.t)
  : list Txn.t :=
  let sorted :=
    Transactions.sortTransactions
      (List.map (Transactions.formatIncome now) incs
       ++ List.map (Transactions.formatExpense now) exps)%list
      (default "date_desc" (Transactions.sortBy q)) in
  if JS.truthy_opt (Transactions.limit q)
  then JS.slice0 sorted (JSString.parseInt (Body.text (Transactions.limit q)))
  else sorted.

(** The sum of the nets of a category summary. *)
Definition sum_nets (rows : list CategoryRow.t) : Z :=
  fold_right (fun r acc => CategoryRow.total (CategoryRow.sums r) + acc) 0 rows.

(** The category a record is counted under. *)
Definition category_of (x : Txn.t) : string :=
  JS.or_default (Txn.category x) "Uncategorized".









(** ** Shapes of texts *)

(** Texts that do not hold the separator. *)
Fixpoint lacks (sep : ascii) (s : string) : bool :=
  match s with
  | EmptyString => true
  | String c rest => negb (Ascii.eqb c sep) && lacks sep rest
  end.

(** Texts made of digits, [-] and [W] only, as the period labels of the
    dates whose year needs no sign [+]. *)
Definition label_char (c : ascii) : bool :=
  let n := N_of_ascii c in
  (((48 <=? n) && (n <=? 57)) || (n =? 45) || (n =? 87))%N.

Fixpoint label_text (s : string) : bool :=
  match s with
  | EmptyString => true
  | String c rest => label_char c && label_text rest
  end.

(** A host whose collation orders the texts made of digits, [-] and [W]
    as the codes of their characters do, the shorter of two texts first
    when it begins the longer.  The root collation of CLDR, which ICU
    implements, is one. *)
Definition collates_labels {host : Host} : Prop :=
  forall a b, label_text a = true -> label_text b = true ->
    (localeCompare a b <= 0 <-> String.leb a b = true).

(** Texts that begin with a digit or a sign. *)
Definition numeric_head (s : string) : bool :=
  match s with
  | EmptyString => false
  | String c _ =>
      let n := N_of_ascii c in
      ((48 <=? n) && (n <=? 57) || (n =? 45) || (n =? 43))%N
  end.

(** The rest of a text after the white-space character it begins with. *)
Definition white_prefix (s : string) : option string :=
  match s with
  | EmptyString => None
  | String a r1 =>
      if JSString.is_space a then Some r1
      else
        match r1 with
        | EmptyString => None
        | String b r2 =>
            if JSString.is_space2 a b then Some r2
            else
              match r2 with
              | EmptyString => None
              | String c r3 => if JSString.is_space3 a b c then Some r3 else None
              end
        end
  end.

(** A byte that continues a character of several bytes. *)
Definition continuation (b : ascii) : bool :=
  ((128 <=? N_of_ascii b) && (N_of_ascii b <? 192))%N.

(** ** The ledger and the store *)

(** Two states of an account that differ at most in the balance. *)
Definition same_but_balance (a a' : Account.t) : Prop :=
  Account.accountType a' = Account.accountType a
  /\ Account.currency a' = Account.currency a
  /\ Account.isActive a' = Account.isActive a.

(** What a request of [owner] may do to the accounts: the same accounts
    exist before and after, each differs at most in its balance, and the
    accounts of the other owners are as they were. *)
Definition ledger_frame (owner : string) (m m' : Accounts) : Prop :=
  forall k,
    match m !! k, m' !! k with
    | Some a, Some a' => same_but_balance a a' /\ (fst k <> owner -> a' = a)
    | None, None => True
    | _, _ => False
    end.

(** Every stored income and expense satisfies the validators of the schema. *)
Definition schema_ok (st : Store) : Prop :=
  Forall (fun e => Entry.valid e = true) (incomes st)
  /\ Forall (fun e => Entry.valid e = true) (expenses st).

(** What the listing promises of a document [e] that it shows for the
    collection [c] of the kind [kind]: it is stored in [c], the [type]
    parameter asks for the kind, the owner is the one requested, and
    every filter of the query that is given holds of it, the category and
    the account being compared with the trimmed value of the parameter. *)
Definition selected {host : Host} (kind : string) (email : string)
  (q : Transactions.Query) (c : list Entry.t) (e : Entry.t) : Prop :=
  List.In e c
  /\ Transactions.wants kind (Transactions.type q) = true
  /\ Entry.email e = email
  /\ (forall d, JS.truthy d = true -> Transactions.division q = Some d ->
        Entry.division e = d)
  /\ (forall k, JS.truthy k = true -> Transactions.category q = Some k ->
        Entry.category e = Some (JSString.trim k))
  /\ (forall a, JS.truthy a = true -> Transactions.account q = Some a ->
        Entry.account e = JSString.trim a)
  /\ (JS.truthy_opt (Transactions.startDate q) = true ->
      JS.truthy_opt (Transactions.endDate q) = true ->
      exists a b,
        Date_parse (Body.text (Transactions.startDate q)) = Some a
        /\ Date_parse (Body.text (Transactions.endDate q)) = Some b
        /\ a <= Entry.date e <= b).

(** The store with other accounts. *)
Definition with_accounts (st : Store) (m : Accounts) : Store :=
  {| incomes := incomes st; expenses := expenses st; accounts := m |}.

(** The six fields that [POST /add] and [POST /minus] require. *)
Definition required_present (body : Body.entry) : bool :=
  JS.truthy_opt (Body.email body) && JS.truthy_opt (Body.source body)
  && Body.amount_truthy (Body.amount body) && JS.truthy_opt (Body.date body)
  && JS.truthy_opt (Body.time body) && JS.truthy_opt (Body.paymentMethod body).

(** What the schema asks of a creation request whose required fields are
    present: an amount that is a number and is not negative, a date that
    the host reads, a source, a payment method and a time that are not
    blank, a division that is absent, empty, [Office] or [Personal], and an
    account that is absent, empty or not blank. *)
Definition acceptable {host : Host} (body : Body.entry) : Prop :=
  (exists amount, Body.parseFloat (Body.amount body) = Some amount /\ 0 <= amount)
  /\ Date_parse (Body.text (Body.date body)) <> None
  /\ JS.truthy (JSString.trim (Body.text (Body.source body))) = true
  /\ JS.truthy (JSString.trim (Body.text (Body.paymentMethod body))) = true
  /\ JS.truthy (JSString.trim (Body.text (Body.time body))) = true
  /\ (JS.or_default (Body.division body) "Personal" = "Office"
      \/ JS.or_default (Body.division body) "Personal" = "Personal")
  /\ JS.truthy (JSString.trim (JS.or_default (Body.account body) "Cash")) = true.

(** ** Sums *)

(** The sum of [f] over a list. *)
Definition total_by {E : Type} (f : E -> Z) (l : list E) : Z :=
  fold_right (fun x acc => f x + acc) 0 l.


(** The sum of the amounts of the documents of an owner dated within
    [[lo, hi]]. *)
Definition total_between (email : string) (lo hi : Z) (c : list Entry.t) : Z :=
  sum_entries (List.filter (Income.inRange email lo hi) c).

(** ** The division summary *)






(** ** The period totals *)









(** ** The range listing *)


(** * Properties *)

Ltac zlia := Z.div_mod_to_equations; lia.

(** ** The calendar *)

Lemma all_from_spec fuel : forall lo P,
  all_from fuel lo P = true ->
  forall z, lo <= z < lo + Z.of_nat fuel -> P z = true.
Proof.
  induction fuel as [|fuel IH]; intros lo P Hall z Hz.
  - simpl in Hz. lia.
  - simpl in Hall. apply andb_prop in Hall as [Hlo Hrest].
    destruct (Z.eq_dec z lo) as [->|Hne]; [exact Hlo|].
    apply (IH (lo + 1) P Hrest). lia.
Qed.

(** The calendar repeats every 400 years, that is every 146097 days. *)
Lemma days_from_civil_period y m d k :
  days_from_civil (y + 400 * k) m d = days_from_civil y m d + 146097 * k.
Proof.
  unfold days_from_civil.
  destruct (m <=? 2).
  - replace (y + 400 * k - 1) with (y - 1 + k * 400) by lia.
    rewrite Z.div_add, Z.mod_add by lia. lia.
  - replace (y + 400 * k) with (y + k * 400) by lia.
    rewrite Z.div_add, Z.mod_add by lia. lia.
Qed.

Lemma civil_from_days_period z k :
  civil_from_days (z + 146097 * k) =
  (fst (fst (civil_from_days z)) + 400 * k, snd (fst (civil_from_days z)),
   snd (civil_from_days z)).
Proof.
  unfold civil_from_days.
  replace (z + 146097 * k + 719468) with (z + 719468 + k * 146097) by lia.
  rewrite Z.div_add, Z.mod_add by lia.
  cbv zeta.
  match goal with
  | |- context [if ?c then _ else _] => destruct c
  end; simpl; f_equal; f_equal; lia.
Qed.

(** The day number of the first of January is [DayFromYear] of
    ECMAScript. *)
Lemma days_from_civil_DayFromYear y :
  days_from_civil y 1 1
  = 365 * (y - 1970) + (y - 1969) / 4 - (y - 1901) / 100 + (y - 1601) / 400.
Proof. unfold days_from_civil. simpl. zlia. Qed.

Lemma days_from_civil_day y m d :
  days_from_civil y m d = days_from_civil y m 1 + d - 1.
Proof. unfold days_from_civil. lia. Qed.

(** Months run from 1 to 12 and days of the month from 1 to 31. *)
Lemma civil_fields_bounds z :
  1 <= snd (fst (civil_from_days z)) <= 12 /\ 1 <= snd (civil_from_days z) <= 31.
Proof.
  unfold civil_from_days. cbv zeta.
  set (doe := (z + 719468) mod 146097).
  assert (Hdoe : 0 <= doe <= 146096) by (subst doe; zlia).
  clearbody doe.
  set (yoe := (doe - doe / 1460 + doe / 36524 - doe / 146096) / 365).
  assert (Hyoe : 0 <= yoe <= 399) by (subst yoe; zlia).
  set (doy := doe - (365 * yoe + yoe / 4 - yoe / 100)).
  assert (Hdoy : 0 <= doy <= 365) by (subst doy yoe; zlia).
  clearbody doy.
  set (mp := (5 * doy + 2) / 153).
  assert (Hmp : 0 <= mp <= 11) by (subst mp; zlia).
  simpl.
  split.
  - destruct (mp <? 10) eqn:E; lia.
  - subst mp. zlia.
Qed.

(** The day number of the civil date of a day number is that day number. *)
Lemma days_from_civil_from_days z :
  days_from_civil (fst (fst (civil_from_days z))) (snd (fst (civil_from_days z)))
    (snd (civil_from_days z)) = z.
Proof.
  unfold civil_from_days. cbv zeta.
  set (era := (z + 719468) / 146097).
  set (doe := (z + 719468) mod 146097).
  assert (Hz : z = era * 146097 + doe - 719468) by (subst era doe; zlia).
  assert (Hdoe : 0 <= doe <= 146096) by (subst doe; zlia).
  clearbody doe era.
  set (yoe := (doe - doe / 1460 + doe / 36524 - doe / 146096) / 365).
  assert (Hyoe : 0 <= yoe <= 399) by (subst yoe; zlia).
  set (doy := doe - (365 * yoe + yoe / 4 - yoe / 100)).
  assert (Hdoy : 0 <= doy <= 365) by (subst doy yoe; zlia).
  assert (Edoe : doe = yoe * 365 + yoe / 4 - yoe / 100 + doy) by (subst doy; lia).
  clearbody doy. clearbody yoe.
  set (mp := (5 * doy + 2) / 153).
  assert (Hmp : 0 <= mp <= 11) by (subst mp; zlia).
  clearbody mp.
  simpl fst; simpl snd.
  unfold days_from_civil.
  destruct (mp <? 10) eqn:E.
  - apply Z.ltb_lt in E.
    replace (mp + 3 <=? 2) with false by (symmetry; apply Z.leb_gt; lia).
    replace (2 <? mp + 3) with true by (symmetry; apply Z.ltb_lt; lia).
    rewrite Z.div_add, Z.mod_add by lia.
    rewrite (Z.div_small yoe 400), (Z.mod_small yoe 400) by lia.
    replace (mp + 3 - 3) with mp by lia. lia.
  - apply Z.ltb_ge in E.
    replace (mp - 9 <=? 2) with true by (symmetry; apply Z.leb_le; lia).
    replace (2 <? mp - 9) with false by (symmetry; apply Z.ltb_ge; lia).
    replace (yoe + era * 400 + 1 - 1) with (yoe + era * 400) by lia.
    rewrite Z.div_add, Z.mod_add by lia.
    rewrite (Z.div_small yoe 400), (Z.mod_small yoe 400) by lia.
    replace (mp - 9 + 9) with mp by lia. lia.
Qed.

Lemma month_check_cycle :
  all_from 400 0 (fun y => all_from 12 1 (month_check y)) = true.
Proof. vm_compute. reflexivity. Qed.

Lemma next_month_start_period y m k :
  next_month_start (y + 400 * k) m = next_month_start y m + 146097 * k.
Proof.
  unfold next_month_start. destruct (m =? 12).
  - replace (y + 400 * k + 1) with (y + 1 + 400 * k) by lia.
    apply days_from_civil_period.
  - apply days_from_civil_period.
Qed.

Lemma month_check_all y m : 1 <= m <= 12 -> month_check y m = true.
Proof.
  intros Hm.
  assert (Hc : month_check (y mod 400) m = true).
  { apply (all_from_spec 12 1 (month_check (y mod 400))); [|lia].
    apply (all_from_spec 400 0 (fun y => all_from 12 1 (month_check y))
             month_check_cycle).
    zlia. }
  revert Hc. unfold month_check.
  assert (Ey : y = y mod 400 + 400 * (y / 400)) by zlia.
  set (y0 := y mod 400) in *. set (q := y / 400) in *. clearbody y0 q. subst y.
  rewrite next_month_start_period, days_from_civil_period.
  replace (next_month_start y0 m + 146097 * q - 1)
    with (next_month_start y0 m - 1 + 146097 * q) by lia.
  rewrite !civil_from_days_period. cbv zeta. simpl fst. simpl snd.
  intros Hc.
  repeat (apply andb_prop in Hc as [Hc ?]).
  repeat (apply andb_true_intro; split); lia.
Qed.

Lemma year_start_le_end y : days_from_civil y 1 1 + 364 <= days_from_civil y 12 31.
Proof. unfold days_from_civil. simpl. zlia. Qed.

(** What the check of a month says, as equations. *)
Lemma month_check_fields y m :
  1 <= m <= 12 ->
  civil_from_days (days_from_civil y m 1) = (y, m, 1)
  /\ fst (civil_from_days (next_month_start y m - 1)) = (y, m)
  /\ days_from_civil y m 1 + 27 <= next_month_start y m - 1.
Proof.
  intros Hm.
  pose proof (month_check_all y m Hm) as Hc.
  unfold month_check in Hc.
  repeat (apply andb_prop in Hc as [Hc ?]).
  destruct (civil_from_days (days_from_civil y m 1)) as [[a b] c].
  destruct (civil_from_days (next_month_start y m - 1)) as [[a' b'] c'].
  cbn [fst snd] in *.
  repeat apply conj; [f_equal; [f_equal|] | f_equal |]; lia.
Qed.

Lemma next_month_start_first y m :
  1 <= m <= 12 -> snd (civil_from_days (next_month_start y m)) = 1.
Proof.
  intros Hm. unfold next_month_start.
  destruct (m =? 12) eqn:E.
  - destruct (month_check_fields (y + 1) 1 ltac:(lia)) as [-> _]. reflexivity.
  - apply Z.eqb_neq in E.
    destruct (month_check_fields y (m + 1) ltac:(lia)) as [-> _]. reflexivity.
Qed.

Section DateFacts.
Context {host : Host}.

Lemma LocalTZA_bound t isUTC : - msPerDay < LocalTZA t isUTC < msPerDay.
Proof.
  pose proof (LocalTZA_range t isUTC) as H.
  apply andb_prop in H as [H1 H2]. apply Z.ltb_lt in H1, H2. lia.
Qed.

Lemma Day_MakeDate day time : 0 <= time < msPerDay -> Day (MakeDate day time) = day.
Proof. unfold Day, MakeDate, msPerDay. intros. zlia. Qed.

Lemma TimeWithinDay_MakeDate day time :
  0 <= time < msPerDay -> TimeWithinDay (MakeDate day time) = time.
Proof. unfold TimeWithinDay, MakeDate, msPerDay. intros. zlia. Qed.

Lemma getMonth_range d : 0 <= getMonth d <= 11.
Proof.
  unfold getMonth, MonthFromTime.
  pose proof (civil_fields_bounds (Day (LocalTime d))). lia.
Qed.

Lemma getDate_range d : 1 <= getDate d <= 31.
Proof.
  unfold getDate, DateFromTime.
  pose proof (civil_fields_bounds (Day (LocalTime d))). lia.
Qed.

Lemma MakeDay_month y m d :
  0 <= m <= 11 -> MakeDay y m d = days_from_civil y (m + 1) 1 + d - 1.
Proof.
  intros Hm. unfold MakeDay. cbv zeta.
  rewrite (Z.div_small m 12), (Z.mod_small m 12) by lia.
  now rewrite Z.add_0_r.
Qed.

Lemma MakeDay_next_month y m :
  0 <= m <= 11 -> MakeDay y (m + 1) 0 = next_month_start y (m + 1) - 1.
Proof.
  intros Hm. unfold MakeDay, next_month_start. cbv zeta.
  destruct (m + 1 =? 12) eqn:E.
  - apply Z.eqb_eq in E. replace (m + 1) with 12 by lia.
    change (12 / 12) with 1. change (12 mod 12 + 1) with 1. lia.
  - apply Z.eqb_neq in E.
    rewrite (Z.div_small (m + 1) 12), (Z.mod_small (m + 1) 12) by lia.
    rewrite !Z.add_0_r. reflexivity.
Qed.

(** The local time that [setDate] builds when the day of the month is
    moved by [k]: the local time of the instant, [k] days later. *)
Lemma setDate_MakeDate t k :
  MakeDate (MakeDay (YearFromTime t) (MonthFromTime t) (DateFromTime t + k))
    (TimeWithinDay t)
  = t + k * msPerDay.
Proof.
  pose proof (civil_fields_bounds (Day t)) as [Hm _].
  rewrite MakeDay_month by (unfold MonthFromTime; lia).
  unfold MonthFromTime, YearFromTime, DateFromTime.
  replace (snd (fst (civil_from_days (Day t))) - 1 + 1)
    with (snd (fst (civil_from_days (Day t)))) by lia.
  pose proof (days_from_civil_from_days (Day t)) as Hrt.
  rewrite days_from_civil_day in Hrt.
  unfold MakeDate, TimeWithinDay.
  unfold Day, msPerDay in *. zlia.
Qed.

(** [setDate] with the day of the month moved by [k] gives the instant
    that the host reads from the local time of [d] moved by [k] days. *)
Lemma setDate_local d k :
  setDate d (getDate d + k) = UTC (LocalTime d + k * msPerDay).
Proof.
  unfold setDate, getDate. cbv zeta. now rewrite setDate_MakeDate.
Qed.

(** The host reads a later instant from a local time that is two days
    later or more. *)
Lemma UTC_le a b : a + 2 * msPerDay <= b -> UTC a <= UTC b.
Proof.
  unfold UTC. intros H.
  pose proof (LocalTZA_bound a false). pose proof (LocalTZA_bound b false). lia.
Qed.

Lemma localDate_Day d :
  localDate d =
  (fst (fst (civil_from_days (Day (LocalTime d)))),
   snd (fst (civil_from_days (Day (LocalTime d)))),
   snd (civil_from_days (Day (LocalTime d)))).
Proof.
  unfold localDate, getFullYear, getMonth, getDate, YearFromTime, MonthFromTime,
    DateFromTime.
  f_equal. f_equal. lia.
Qed.

(** The local day and the local time of day of the midnight of a day that
    the host reads back. *)
Lemma midnight_of_Day day :
  read_back (MakeDate day 0) ->
  Day (LocalTime (midnight_of day)) = day
  /\ TimeWithinDay (LocalTime (midnight_of day)) = 0.
Proof.
  unfold read_back, midnight_of. intros ->.
  split; [apply Day_MakeDate | apply TimeWithinDay_MakeDate]; unfold msPerDay; lia.
Qed.

Lemma new_Date_midnight y m d :
  ~ 0 <= y <= 99 -> new_Date y m d = midnight_of (MakeDay y m d).
Proof.
  intros Hy. unfold new_Date, midnight_of.
  replace ((0 <=? y) && (y <=? 99)) with false
    by (symmetry; apply andb_false_iff; lia).
  reflexivity.
Qed.

Section Steady.
Hypothesis Hsteady : steady.

Lemma LocalTime_steady t : LocalTime t = t + LocalTZA 0 true.
Proof. unfold LocalTime. now rewrite (Hsteady t true 0 true). Qed.

Lemma UTC_steady t : UTC t = t - LocalTZA 0 true.
Proof. unfold UTC. now rewrite (Hsteady t false 0 true). Qed.

Lemma LocalTime_UTC x : LocalTime (UTC x) = x.
Proof. rewrite LocalTime_steady, UTC_steady. lia. Qed.

Lemma steady_read_back t : read_back t.
Proof. apply LocalTime_UTC. Qed.

(** The local day number of [new Date(year, month, date)] for a year
    outside 0..99. *)
Lemma Day_new_Date y m d :
  ~ 0 <= y <= 99 ->
  Day (LocalTime (new_Date y m d)) = MakeDay y m d
  /\ TimeWithinDay (LocalTime (new_Date y m d)) = 0.
Proof.
  intros Hy. rewrite new_Date_midnight by exact Hy.
  apply midnight_of_Day, steady_read_back.
Qed.

(** The first and the last day of a month, as built by the resolver. *)
Lemma new_Date_first y m :
  ~ 0 <= y <= 99 -> 0 <= m <= 11 ->
  localDate (new_Date y m 1) = (y, m + 1, 1) /\ localMidnight (new_Date y m 1).
Proof.
  intros Hy Hm.
  destruct (Day_new_Date y m 1 Hy) as [D T].
  split; [|exact T].
  rewrite localDate_Day, D, MakeDay_month by lia.
  replace (days_from_civil y (m + 1) 1 + 1 - 1) with (days_from_civil y (m + 1) 1)
    by lia.
  destruct (month_check_fields y (m + 1) ltac:(lia)) as [-> _]. reflexivity.
Qed.

Lemma new_Date_last y m :
  ~ 0 <= y <= 99 -> 0 <= m <= 11 ->
  fst (localDate (new_Date y (m + 1) 0)) = (y, m + 1)
  /\ localMidnight (new_Date y (m + 1) 0)
  /\ getDate (new_Date y (m + 1) 0 + msPerDay) = 1
  /\ new_Date y m 1 <= new_Date y (m + 1) 0.
Proof.
  intros Hy Hm.
  destruct (Day_new_Date y (m + 1) 0 Hy) as [D T].
  destruct (Day_new_Date y m 1 Hy) as [D1 T1].
  rewrite MakeDay_next_month in D by lia.
  rewrite MakeDay_month in D1 by lia.
  destruct (month_check_fields y (m + 1) ltac:(lia)) as (_ & Hlast & Hle).
  repeat apply conj.
  - rewrite localDate_Day, D. cbn [fst]. exact Hlast.
  - exact T.
  - unfold getDate, DateFromTime.
    replace (Day (LocalTime (new_Date y (m + 1) 0 + msPerDay)))
      with (next_month_start y (m + 1) - 1 + 1).
    + replace (next_month_start y (m + 1) - 1 + 1) with (next_month_start y (m + 1))
        by lia.
      apply next_month_start_first. lia.
    + rewrite <- D. rewrite !LocalTime_steady.
      generalize (new_Date y (m + 1) 0) (LocalTZA 0 true). intros t o.
      unfold Day, msPerDay. zlia.
  - revert D T D1 T1 Hle. rewrite !LocalTime_steady.
    generalize (next_month_start y (m + 1)) (days_from_civil y (m + 1) 1)
      (new_Date y (m + 1) 0) (new_Date y m 1) (LocalTZA 0 true).
    intros n s0 e b o. unfold Day, TimeWithinDay, msPerDay. zlia.
Qed.

End Steady.
End DateFacts.

(** ** The time-range resolver *)

Section Resolver.
Context {host : Host}.

Lemma getDateRange_weekly now :
  Income.getDateRange (Some "weekly") now
  = (UTC (LocalTime now - 7 * msPerDay), now).
Proof.
  unfold Income.getDateRange. cbn [String.eqb Ascii.eqb Bool.eqb].
  replace (getDate now - 7) with (getDate now + -7) by lia.
  rewrite setDate_local.
  replace (LocalTime now + -7 * msPerDay) with (LocalTime now - 7 * msPerDay) by lia.
  reflexivity.
Qed.

Lemma getDateRange_default period now :
  (forall p, period = Some p -> named_period p = false) ->
  Income.getDateRange period now = Income.getDateRange (Some "monthly") now.
Proof.
  intros Hp. unfold Income.getDateRange.
  destruct period as [p|]; [|reflexivity].
  specialize (Hp p eq_refl). unfold named_period in Hp.
  apply orb_false_iff in Hp as [Hp Hy]. apply orb_false_iff in Hp as [Hw Hm].
  rewrite Hw, Hm, Hy. reflexivity.
Qed.

Lemma new_Date_le y m d m' d' :
  MakeDay (if (0 <=? y) && (y <=? 99) then 1900 + y else y) m d + 2
  <= MakeDay (if (0 <=? y) && (y <=? 99) then 1900 + y else y) m' d' ->
  new_Date y m d <= new_Date y m' d'.
Proof.
  unfold new_Date. cbv zeta.
  generalize (if (0 <=? y) && (y <=? 99) then 1900 + y else y). intros yr Hle.
  apply UTC_le. unfold MakeDate, msPerDay. lia.
Qed.

Lemma getDateRange_ordered period now :
  fst (Income.getDateRange period now) <= snd (Income.getDateRange period now).
Proof.
  assert (Hmonth : new_Date (getFullYear now) (getMonth now) 1
                   <= new_Date (getFullYear now) (getMonth now + 1) 0).
  { pose proof (getMonth_range now) as Hm.
    apply new_Date_le.
    generalize (if (0 <=? getFullYear now) && (getFullYear now <=? 99)
                then 1900 + getFullYear now else getFullYear now).
    intros yr.
    rewrite MakeDay_month, MakeDay_next_month by lia.
    assert (Hm1 : 1 <= getMonth now + 1 <= 12) by lia.
    destruct (month_check_fields yr (getMonth now + 1) Hm1) as (_ & _ & Hle).
    lia. }
  unfold Income.getDateRange.
  destruct period as [p|]; [|exact Hmonth].
  destruct (String.eqb p "weekly") eqn:Ew.
  { cbn [fst snd].
    replace (getDate now - 7) with (getDate now + -7) by lia.
    rewrite setDate_local. unfold UTC, LocalTime.
    pose proof (LocalTZA_bound now true).
    pose proof (LocalTZA_bound (now + LocalTZA now true + -7 * msPerDay) false).
    unfold msPerDay in *. lia. }
  destruct (String.eqb p "monthly"); [exact Hmonth|].
  destruct (String.eqb p "yearly"); [|exact Hmonth].
  cbn [fst snd]. apply new_Date_le.
  generalize (if (0 <=? getFullYear now) && (getFullYear now <=? 99)
              then 1900 + getFullYear now else getFullYear now).
  intros yr.
  rewrite !MakeDay_month by lia.
  change (0 + 1) with 1. change (11 + 1) with 12.
  pose proof (year_start_le_end yr) as Hle.
  rewrite (days_from_civil_day yr 12 31) in Hle. lia.
Qed.

Lemma getDateRange_yearly_2024 now :
  getFullYear now = 2024 ->
  Income.getDateRange (Some "yearly") now
  = (midnight_of (days_from_civil 2024 1 1), midnight_of (days_from_civil 2024 12 31)).
Proof.
  intros Hy. unfold Income.getDateRange.
  cbn [String.eqb Ascii.eqb Bool.eqb]. rewrite Hy.
  rewrite !new_Date_midnight by lia. reflexivity.
Qed.

Lemma getDateRange_monthly now :
  ~ 0 <= getFullYear now <= 99 ->
  Income.getDateRange (Some "monthly") now
  = (midnight_of (days_from_civil (getFullYear now) (getMonth now + 1) 1),
     midnight_of (next_month_start (getFullYear now) (getMonth now + 1) - 1)).
Proof.
  intros Hy. pose proof (getMonth_range now) as Hm.
  unfold Income.getDateRange. cbn [String.eqb Ascii.eqb Bool.eqb].
  rewrite !new_Date_midnight by exact Hy.
  rewrite MakeDay_month, MakeDay_next_month by exact Hm.
  replace (days_from_civil (getFullYear now) (getMonth now + 1) 1 + 1 - 1)
    with (days_from_civil (getFullYear now) (getMonth now + 1) 1) by lia.
  reflexivity.
Qed.

Lemma midnight_of_fields day :
  read_back (MakeDate day 0) ->
  localDate (midnight_of day) = civil_from_days day
  /\ localMidnight (midnight_of day).
Proof.
  intros H. destruct (midnight_of_Day day H) as [D T].
  split; [|exact T]. rewrite localDate_Day, D.
  now destruct (civil_from_days day) as [[a b] c].
Qed.

(** C8, as the code has it.  The time-range resolver ([getDateRange] of
    the income routes and [getDateRangeForPeriod] of the transactions
    routes, which are the same function) returns a range for every keyword,
    present or not, and the range is valid: its start is not after its end.
    For [weekly] the range ends at the reference instant and starts at the
    instant whose local time is that of the reference instant seven days
    (of 24 hours of local time) earlier, which is seven days before the
    reference instant when the offset from UTC is the same at both.  For
    [yearly] and a reference instant in 2024 the range runs from the local
    midnight of 2024-01-01 to the local midnight of 2024-12-31.  A keyword
    that is absent or is none of the three gives the range of [monthly],
    which (for an instant outside the years 0 to 99, which the [Date]
    constructor reads as 1900 to 1999) runs from the local midnight of the
    first day of the current month to the local midnight of its last day,
    the day before a first of the month.  A local midnight is the instant
    that the host reads from 00:00 of the day; it shows that date and 00:00
    when the time is one that the host reads back. *)
Theorem getDateRange_total (period : option string) (now : Z) :
  let range := Income.getDateRange period now in
  let y := getFullYear now in
  let m := getMonth now + 1 in
  Transactions.getDateRangeForPeriod period now = range
  /\ fst range <= snd range
  /\ (period = Some "weekly" ->
      range = (UTC (LocalTime now - 7 * msPerDay), now)
      /\ (LocalTZA (LocalTime now - 7 * msPerDay) false = LocalTZA now true ->
          range = (now - 7 * msPerDay, now)))
  /\ (period = Some "yearly" -> y = 2024 ->
      range = (midnight_of (days_from_civil 2024 1 1),
               midnight_of (days_from_civil 2024 12 31))
      /\ (read_back (MakeDate (days_from_civil 2024 1 1) 0) ->
          localDate (fst range) = (2024, 1, 1) /\ localMidnight (fst range))
      /\ (read_back (MakeDate (days_from_civil 2024 12 31) 0) ->
          localDate (snd range) = (2024, 12, 31) /\ localMidnight (snd range)))
  /\ ((forall p, period = Some p -> named_period p = false) ->
      range = Income.getDateRange (Some "monthly") now)
  /\ (~ 0 <= y <= 99 ->
      Income.getDateRange (Some "monthly") now
      = (midnight_of (days_from_civil y m 1), midnight_of (next_month_start y m - 1))
      /\ civil_from_days (days_from_civil y m 1) = (y, m, 1)
      /\ fst (civil_from_days (next_month_start y m - 1)) = (y, m)
      /\ snd (civil_from_days (next_month_start y m)) = 1
      /\ (read_back (MakeDate (days_from_civil y m 1) 0) ->
          localDate (midnight_of (days_from_civil y m 1)) = (y, m, 1)
          /\ localMidnight (midnight_of (days_from_civil y m 1)))
      /\ (read_back (MakeDate (next_month_start y m - 1) 0) ->
          fst (localDate (midnight_of (next_month_start y m - 1))) = (y, m)
          /\ localMidnight (midnight_of (next_month_start y m - 1)))).
Proof.
  cbv zeta. pose proof (getMonth_range now) as Hm.
  split; [reflexivity|]. split; [apply getDateRange_ordered|].
  split; [|split; [|split; [apply getDateRange_default|]]].
  - intros ->. split; [apply getDateRange_weekly|].
    intros Ho. rewrite getDateRange_weekly. unfold UTC. rewrite Ho.
    unfold LocalTime. f_equal. lia.
  - intros -> Hy. rewrite (getDateRange_yearly_2024 now Hy).
    split; [reflexivity|]. cbn [fst snd]. split.
    + intros H. destruct (midnight_of_fields _ H) as [F T].
      split; [|exact T]. rewrite F. reflexivity.
    + intros H. destruct (midnight_of_fields _ H) as [F T].
      split; [|exact T]. rewrite F. reflexivity.
  - intros Hy.
    assert (Hm1 : 1 <= getMonth now + 1 <= 12) by lia.
    destruct (month_check_fields (getFullYear now) (getMonth now + 1) Hm1)
      as (Hfirst & Hlast & _).
    split; [exact (getDateRange_monthly now Hy)|].
    split; [exact Hfirst|]. split; [exact Hlast|].
    split; [exact (next_month_start_first _ _ Hm1)|]. split.
    + intros H. destruct (midnight_of_fields _ H) as [F T].
      split; [|exact T]. rewrite F. exact Hfirst.
    + intros H. destruct (midnight_of_fields _ H) as [F T].
      split; [|exact T]. rewrite F. exact Hlast.
Qed.

End Resolver.

(** ** Period keys *)

Lemma append_nil_r (s : string) : s ++ "" = s.
Proof.
  induction s as [|c s IH]; [reflexivity|].
  change (String c (s ++ "") = String c s). now rewrite IH.
Qed.

Lemma lacks_app sep a b : lacks sep (a ++ b) = lacks sep a && lacks sep b.
Proof.
  induction a as [|x a IH]; [reflexivity|].
  change (negb (Ascii.eqb x sep) && lacks sep (a ++ b)
          = negb (Ascii.eqb x sep) && lacks sep a && lacks sep b).
  rewrite IH. now rewrite andb_assoc.
Qed.

Lemma split_head_app sep a b :
  lacks sep a = true -> JS.split_head sep (a ++ b) = a ++ JS.split_head sep b.
Proof.
  induction a as [|x a IH]; intros Ha; [reflexivity|].
  change (negb (Ascii.eqb x sep) && lacks sep a = true) in Ha.
  apply andb_prop in Ha as [Hx Ha].
  apply negb_true_iff in Hx.
  change ((if Ascii.eqb x sep then "" else String x (JS.split_head sep (a ++ b)))
          = String x (a ++ JS.split_head sep b)).
  rewrite Hx. now rewrite IH.
Qed.

Lemma digit_not_T n : Ascii.eqb (digit (n mod 10)) "T" = false.
Proof.
  apply negb_true_iff.
  apply (all_from_spec 10 0 (fun r => negb (Ascii.eqb (digit r) "T")));
    [vm_compute; reflexivity | zlia].
Qed.

Lemma decimal_lacks_T w : forall n, lacks "T" (decimal w n) = true.
Proof.
  induction w as [|w IH]; intros n; [reflexivity|].
  change (lacks "T" (decimal w (n / 10) ++ String (digit (n mod 10)) "") = true).
  rewrite lacks_app, IH.
  change (negb (Ascii.eqb (digit (n mod 10)) "T") && true = true).
  now rewrite digit_not_T.
Qed.

Lemma padStart_two n :
  0 <= n <= 99 -> JS.padStart (JS.Number_toString n) 2 "0" = decimal 2 n.
Proof.
  intros Hn. apply String.eqb_eq.
  apply (all_from_spec 100 0
           (fun n => String.eqb (JS.padStart (JS.Number_toString n) 2 "0")
                       (decimal 2 n)));
    [vm_compute; reflexivity | lia].
Qed.

Lemma Number_toString_four n :
  1000 <= n <= 9999 -> JS.Number_toString n = decimal 4 n.
Proof.
  intros Hn. apply String.eqb_eq.
  apply (all_from_spec (Z.to_nat 9000) 1000
           (fun n => String.eqb (JS.Number_toString n) (decimal 4 n)));
    [vm_compute; reflexivity | lia].
Qed.

Lemma pad_four n : 0 <= n <= 9999 -> pad 4 n = decimal 4 n.
Proof.
  intros Hn. apply String.eqb_eq.
  apply (all_from_spec (Z.to_nat 10000) 0 (fun n => String.eqb (pad 4 n) (decimal 4 n)));
    [vm_compute; reflexivity | lia].
Qed.

(** [Math.ceil(d / 7)] is the least [w] with [d <= 7 * w]. *)
Lemma Math_ceil_div_seven d :
  7 * (JS.Math_ceil_div d 7 - 1) < d <= 7 * JS.Math_ceil_div d 7.
Proof. unfold JS.Math_ceil_div. zlia. Qed.

(** The date part of [toISOString] for a year of four digits. *)
Lemma toISOString_date d :
  0 <= YearFromTime d <= 9999 ->
  JS.split_head "T" (toISOString d) =
  decimal 4 (YearFromTime d) ++ "-" ++ decimal 2 (MonthFromTime d + 1) ++ "-"
  ++ decimal 2 (DateFromTime d).
Proof.
  intros Hy. unfold toISOString. cbv zeta.
  replace ((0 <=? YearFromTime d) && (YearFromTime d <=? 9999)) with true
    by (symmetry; apply andb_true_intro; split; lia).
  pose proof (civil_fields_bounds (Day d)) as [Hm Hd].
  unfold pad at 2 3.
  rewrite pad_four by exact Hy.
  rewrite !padStart_two by (unfold MonthFromTime, DateFromTime; lia).
  rewrite split_head_app by apply decimal_lacks_T.
  change (JS.split_head "T" ("-" ++ ?s)) with ("-" ++ JS.split_head "T" s).
  rewrite split_head_app by apply decimal_lacks_T.
  change (JS.split_head "T" ("-" ++ ?s)) with ("-" ++ JS.split_head "T" s).
  rewrite split_head_app by apply decimal_lacks_T.
  change (JS.split_head "T" ("T" ++ ?s)) with "".
  now rewrite append_nil_r.
Qed.

Section PeriodKeys.
Context {host : Host}.

(** C5.  For a record whose year has four digits (in local time, and in
    UTC for the ISO date), the key is: for [monthly] the year, a dash and
    the month in two digits; for [weekly] the year, [-W] and in two digits
    the week [w] of the month, the least [w] with [day <= 7 * w]; for
    [yearly] the year; for any other keyword the UTC date as
    [YYYY-MM-DD].  A date that is 2024-03-15 on the local calendar has the
    monthly key [2024-03] and the weekly key [2024-W03]. *)
Theorem periodKey_format (period : string) (date : Z) :
  1000 <= getFullYear date <= 9999 ->
  0 <= YearFromTime date <= 9999 ->
  (period = "monthly" ->
     periodKey period date =
     decimal 4 (getFullYear date) ++ "-" ++ decimal 2 (getMonth date + 1))
  /\ (period = "weekly" ->
      exists w, 7 * (w - 1) < getDate date <= 7 * w
        /\ periodKey period date =
           decimal 4 (getFullYear date) ++ "-W" ++ decimal 2 w)
  /\ (period = "yearly" -> periodKey period date = decimal 4 (getFullYear date))
  /\ (period <> "monthly" -> period <> "weekly" -> period <> "yearly" ->
      periodKey period date =
      decimal 4 (YearFromTime date) ++ "-" ++ decimal 2 (MonthFromTime date + 1)
      ++ "-" ++ decimal 2 (DateFromTime date))
  /\ (localDate date = (2024, 3, 15) ->
      periodKey "monthly" date = "2024-03" /\ periodKey "weekly" date = "2024-W03").
Proof.
  intros Hy Hu.
  pose proof (getMonth_range date) as Hm.
  pose proof (getDate_range date) as Hd.
  pose proof (Math_ceil_div_seven (getDate date)) as Hw.
  assert (Emonthly : periodKey "monthly" date =
            decimal 4 (getFullYear date) ++ "-" ++ decimal 2 (getMonth date + 1)).
  { unfold periodKey. cbn [String.eqb Ascii.eqb Bool.eqb].
    rewrite Number_toString_four by exact Hy.
    rewrite padStart_two by lia. reflexivity. }
  assert (Eweekly : periodKey "weekly" date =
            decimal 4 (getFullYear date) ++ "-W"
            ++ decimal 2 (JS.Math_ceil_div (getDate date) 7)).
  { unfold periodKey. cbn [String.eqb Ascii.eqb Bool.eqb]. cbv zeta.
    rewrite Number_toString_four by exact Hy.
    rewrite padStart_two by lia. reflexivity. }
  repeat apply conj.
  - intros ->. exact Emonthly.
  - intros ->. exists (JS.Math_ceil_div (getDate date) 7). split; [exact Hw | exact Eweekly].
  - intros ->. unfold periodKey. cbn [String.eqb Ascii.eqb Bool.eqb].
    apply Number_toString_four, Hy.
  - intros Nm Nw Ny. unfold periodKey.
    apply String.eqb_neq in Nm, Nw, Ny. rewrite Nm, Nw, Ny.
    apply toISOString_date, Hu.
  - intros Hdate. unfold localDate in Hdate.
    injection Hdate as Ey Em Ed.
    rewrite Emonthly, Eweekly, Ey, Em, Ed. split; reflexivity.
Qed.

End PeriodKeys.

(** ** The sort *)

Section SortFacts.
Context {A : Type}.
Variable comparefn : A -> A -> option Z.

Lemma insert_Permutation x l : Permutation (x :: l) (JS.insert comparefn x l).
Proof.
  induction l as [|y l IH]; simpl; [apply Permutation_refl|].
  destruct (JS.SortCompare comparefn x y <=? 0); [apply Permutation_refl|].
  eapply Permutation_trans; [apply perm_swap|]. now apply perm_skip.
Qed.

Lemma sort_Permutation l : Permutation l (JS.sort comparefn l).
Proof.
  induction l as [|x l IH]; simpl; [apply perm_nil|].
  eapply Permutation_trans; [apply perm_skip, IH | apply insert_Permutation].
Qed.

Lemma sort_Forall (Q : A -> Prop) l : Forall Q l -> Forall Q (JS.sort comparefn l).
Proof.
  intros H. eapply Permutation_Forall; [apply sort_Permutation | exact H].
Qed.

Section Ordered.
Variable R : A -> A -> Prop.
Variable Q : A -> Prop.
Hypothesis R_le : forall x y, Q x -> Q y -> JS.SortCompare comparefn x y <= 0 -> R x y.
Hypothesis R_gt : forall x y, Q x -> Q y -> 0 < JS.SortCompare comparefn x y -> R y x.

Lemma insert_HdRel a x l :
  Q a -> Q x -> Forall Q l -> R a x -> HdRel R a l -> HdRel R a (JS.insert comparefn x l).
Proof.
  intros Qa Qx Ql Rax Hhd.
  destruct l as [|y l]; simpl; [now constructor|].
  destruct (JS.SortCompare comparefn x y <=? 0); constructor; [exact Rax|].
  now inversion Hhd.
Qed.

Lemma insert_Sorted x l :
  Q x -> Forall Q l -> Sorted R l -> Sorted R (JS.insert comparefn x l).
Proof.
  intros Qx Ql Hs. induction Hs as [|y l Hs IH Hhd]; simpl.
  - repeat constructor.
  - inversion Ql as [|? ? Qy Ql']; subst.
    destruct (JS.SortCompare comparefn x y <=? 0) eqn:E.
    + apply Z.leb_le in E. constructor; [now constructor|].
      constructor. now apply R_le.
    + apply Z.leb_gt in E. constructor; [now apply IH|].
      apply insert_HdRel; auto.
Qed.

Lemma sort_Sorted l : Forall Q l -> Sorted R (JS.sort comparefn l).
Proof.
  induction l as [|x l IH]; intros Ql; simpl; [constructor|].
  inversion Ql; subst.
  apply insert_Sorted; auto using sort_Forall.
Qed.
End Ordered.

Section Stable.
Variable p : A -> bool.
Variable Q : A -> Prop.
Hypothesis p_le :
  forall x y, Q x -> Q y -> p x = true -> p y = true ->
              JS.SortCompare comparefn x y <= 0.

Lemma insert_filter x l :
  Q x -> Forall Q l ->
  List.filter p (JS.insert comparefn x l) = List.filter p (x :: l).
Proof.
  intros Qx Ql. induction l as [|y l IH]; [reflexivity|].
  inversion Ql as [|? ? Qy Ql']; subst.
  simpl. destruct (JS.SortCompare comparefn x y <=? 0) eqn:E; [reflexivity|].
  apply Z.leb_gt in E.
  simpl. rewrite (IH Ql'). simpl.
  destruct (p x) eqn:Px, (p y) eqn:Py; try reflexivity.
  pose proof (p_le x y Qx Qy Px Py). lia.
Qed.

Lemma sort_filter l :
  Forall Q l -> List.filter p (JS.sort comparefn l) = List.filter p l.
Proof.
  induction l as [|x l IH]; intros Ql; [reflexivity|].
  inversion Ql; subst. simpl JS.sort.
  rewrite insert_filter by auto using sort_Forall.
  simpl. now rewrite IH.
Qed.
End Stable.


(** A comparator that orders as a key does, on the records satisfying [Q],
    sorts stably by that key. *)
Lemma sort_stable_by_key (key : A -> Z) (Q : A -> Prop) l :
  (forall x y, Q x -> Q y ->
     (JS.SortCompare comparefn x y <= 0 <-> key x <= key y)) ->
  Forall Q l ->
  stable_sort_by key l (JS.sort comparefn l).
Proof.
  intros Hkey Ql. repeat apply conj.
  - apply sort_Permutation.
  - apply Sorted_StronglySorted.
    + intros x y z Hxy Hyz. lia.
    + apply (sort_Sorted (fun x y => key x <= key y) Q); auto.
      * intros x y Qx Qy Hle. now apply Hkey.
      * intros x y Qx Qy Hgt.
        destruct (Z.le_gt_cases (key x) (key y)) as [Hle|Hlt]; [|lia].
        apply Hkey in Hle; auto. lia.
  - intros k. apply (sort_filter _ Q); auto.
    intros x y Qx Qy Px Py. apply Hkey; auto.
    apply Z.eqb_eq in Px, Py. lia.
Qed.

End SortFacts.

(** ** The merged feed *)

Section Feed.
Context {host : Host}.

Lemma compareTransactions_requested sortBy a b :
  Transactions.compareTransactions (default "date_desc" sortBy) a b =
  match requested sortBy with
  | DateAsc => Transactions.minus (Transactions.dateTime a) (Transactions.dateTime b)
  | DateDesc => Transactions.minus (Transactions.dateTime b) (Transactions.dateTime a)
  | AmountAsc => Some (Txn.amount a - Txn.amount b)
  | AmountDesc => Some (Txn.amount b - Txn.amount a)
  end.
Proof.
  unfold Transactions.compareTransactions, requested.
  destruct sortBy as [s|]; [|reflexivity].
  change (default "date_desc" (Some s)) with s. cbv zeta.
  destruct (String.eqb s "date_asc") eqn:E1; [reflexivity|].
  destruct (String.eqb s "date_desc") eqn:E2.
  { apply String.eqb_eq in E2. subst s. reflexivity. }
  destruct (String.eqb s "amount_asc") eqn:E3; [reflexivity|].
  destruct (String.eqb s "amount_desc") eqn:E4; reflexivity.
Qed.

Lemma compare_orders_as_key sortBy a b :
  (by_date (requested sortBy) = true ->
   Transactions.dateTime a <> None /\ Transactions.dateTime b <> None) ->
  JS.SortCompare (Transactions.compareTransactions (default "date_desc" sortBy)) a b
    <= 0
  <-> key_of (requested sortBy) a <= key_of (requested sortBy) b.
Proof.
  intros Hv. unfold JS.SortCompare. rewrite compareTransactions_requested.
  unfold key_of, timestamp.
  destruct (requested sortBy); cbn [by_date] in Hv;
    try (destruct (Hv eq_refl) as [Ha Hb];
         destruct (Transactions.dateTime a) as [ta|]; [|congruence];
         destruct (Transactions.dateTime b) as [tb|]; [|congruence]);
    unfold Transactions.minus; simpl; lia.
Qed.

(** X11.  When the host reads no date from any of the combined texts of
    date and time, the comparator of the two date keys is [NaN] on every
    pair and [sortTransactions] leaves the list as it is: with [date_asc],
    with [date_desc], and with an absent or unknown [sortBy]. *)
Lemma sort_invalid_dates sortBy l :
  by_date (requested sortBy) = true ->
  Forall (fun x => Transactions.dateTime x = None) l ->
  Transactions.sortTransactions l (default "date_desc" sortBy) = l.
Proof.
  intros Hdate Hl. unfold Transactions.sortTransactions.
  induction Hl as [|x l Hx Hl IH]; [reflexivity|].
  cbn [JS.sort]. rewrite IH.
  destruct l as [|y l']; [reflexivity|].
  cbn [JS.insert]. unfold JS.SortCompare.
  rewrite compareTransactions_requested.
  inversion Hl as [|? ? Hy _]; subst.
  destruct (requested sortBy); try discriminate Hdate;
    rewrite Hx, Hy; reflexivity.
Qed.

(** C6, on the code.  For the two amount keys the feed is the concatenation
    of the formatted incomes and the formatted expenses sorted stably by the
    key: a permutation of the concatenation, ascending in the key, records
    of equal key keeping the order of the concatenation; with [amount_desc],
    incomes of 100 and 50 and an expense of 75 come out as 100, 75, 50.  For
    the two date keys, and so for an absent or unrecognised [sortBy], the
    comparator reads a date from the text of the stored date followed by
    [T] and the time.  The stored date is a [Date], whose text is the one
    of [toString]: on the sample incomes of 2024-03-15 and 2024-01-05 and
    the sample expense of 2024-03-12 the host reads no date from any of the
    three texts, and the feed comes back as the concatenation, which is
    neither ascending nor descending in the date. *)
Theorem merged_feed_order :
  (forall (sortBy : option string) (now : Z) (incomes expenses : list Entry.t),
     let merged :=
       (List.map (Transactions.formatIncome now) incomes
        ++ List.map (Transactions.formatExpense now) expenses)%list in
     by_date (requested sortBy) = false ->
     stable_sort_by (key_of (requested sortBy)) merged
       (Transactions.sortTransactions merged (default "date_desc" sortBy)))
  /\ (forall now i1 i2 e1,
        Entry.amount i1 = 100 -> Entry.amount i2 = 50 -> Entry.amount e1 = 75 ->
        List.map Txn.amount
          (Transactions.sortTransactions
             (List.map (Transactions.formatIncome now) [i1; i2]
              ++ List.map (Transactions.formatExpense now) [e1])%list
             "amount_desc")
        = [100; 75; 50])
  /\ (let merged :=
        (List.map (Transactions.formatIncome SampleHost.noon)
           [SampleHost.salary; SampleHost.refund]
         ++ List.map (Transactions.formatExpense SampleHost.noon)
              [SampleHost.groceries])%list in
      Date_toString (host := SampleHost.host) (Entry.date SampleHost.salary)
        ++ "T" ++ Entry.time SampleHost.salary
      = "Fri Mar 15 2024 05:30:00 GMT+0530 (India Standard Time)T10:00"
      /\ List.map (Transactions.dateTime (host := SampleHost.host)) merged
         = [None; None; None]
      /\ Transactions.sortTransactions (host := SampleHost.host) merged "date_asc"
         = merged
      /\ Transactions.sortTransactions (host := SampleHost.host) merged "date_desc"
         = merged
      /\ Transactions.sortTransactions (host := SampleHost.host) merged
           (default "date_desc" None)
         = merged
      /\ Entry.date SampleHost.refund < Entry.date SampleHost.groceries
         < Entry.date SampleHost.salary).
Proof.
  split; [|split].
  - intros sortBy now incomes expenses merged Hkey.
    unfold Transactions.sortTransactions.
    apply (sort_stable_by_key _ _ (fun _ => True)).
    + intros x y _ _. apply compare_orders_as_key. intros H. congruence.
    + apply List.Forall_forall. auto.
  - intros now i1 i2 e1 H1 H2 H3.
    destruct i1, i2, e1. cbn [Entry.amount] in H1, H2, H3. subst.
    vm_compute. reflexivity.
  - cbv zeta. repeat apply conj; vm_compute; try reflexivity; discriminate.
Qed.

End Feed.

(** ** Objects used as dictionaries *)

Section ObjectFacts.
Context {V : Type}.
Implicit Types (o : list (string * V)) (k : string) (v : V).

Lemma own_None_keys k o :
  JSObject.own k o = None <-> ~ List.In k (List.map fst o).
Proof.
  induction o as [|[k' v'] o IH]; simpl; [tauto|].
  destruct (String.eqb k k') eqn:E.
  - apply String.eqb_eq in E. subst. split; [discriminate|tauto].
  - apply String.eqb_neq in E. rewrite IH. split; [|tauto].
    intros H [H'|H']; [congruence|tauto].
Qed.

Lemma own_In k v o : JSObject.own k o = Some v -> List.In (k, v) o.
Proof.
  induction o as [|[k' v'] o IH]; simpl; [discriminate|].
  destruct (String.eqb k k') eqn:E.
  - apply String.eqb_eq in E. subst. intros [= ->]. now left.
  - intros H. right. now apply IH.
Qed.

Lemma set_absent k v o :
  JSObject.own k o = None -> JSObject.set k v o = (o ++ [(k, v)])%list.
Proof.
  induction o as [|[k' v'] o IH]; simpl; [reflexivity|].
  destruct (String.eqb k k'); [discriminate|].
  intros H. now rewrite IH.
Qed.

Lemma set_last k v v' o :
  JSObject.own k o = None ->
  JSObject.set k v' (o ++ [(k, v)])%list = (o ++ [(k, v')])%list.
Proof.
  induction o as [|[k0 v0] o IH]; simpl.
  - now rewrite String.eqb_refl.
  - destruct (String.eqb k k0); [discriminate|].
    intros H. now rewrite IH.
Qed.

Lemma own_last k v o :
  JSObject.own k o = None -> JSObject.own k (o ++ [(k, v)])%list = Some v.
Proof.
  induction o as [|[k0 v0] o IH]; simpl.
  - now rewrite String.eqb_refl.
  - destruct (String.eqb k k0); [discriminate|]. exact IH.
Qed.

Lemma set_keys_present k v v0 o :
  JSObject.own k o = Some v0 ->
  List.map fst (JSObject.set k v o) = List.map fst o.
Proof.
  induction o as [|[k' v'] o IH]; simpl; [discriminate|].
  destruct (String.eqb k k') eqn:E.
  - apply String.eqb_eq in E. now subst.
  - intros H. simpl. now rewrite IH.
Qed.

(** Replacing the value of a key keeps a property of the properties when
    the keys are distinct, the new value has it, and it carries over on the
    other keys. *)
Lemma set_Forall (P P' : string * V -> Prop) k v o :
  List.NoDup (List.map fst o) ->
  List.In k (List.map fst o) ->
  Forall P o ->
  (forall p, P p -> fst p <> k -> P' p) ->
  P' (k, v) ->
  Forall P' (JSObject.set k v o).
Proof.
  intros Hnd Hin HP Hother Hnew.
  induction o as [|[k' v'] o IH]; simpl in *; [tauto|].
  inversion Hnd as [|? ? Hk' Hnd']; subst.
  inversion HP as [|? ? Hp HP']; subst.
  destruct (String.eqb k k') eqn:E.
  - apply String.eqb_eq in E. subst k'.
    constructor; [exact Hnew|].
    rewrite List.Forall_forall in *. intros p Hp'.
    apply Hother; [now apply HP'|].
    intros Heq. apply Hk'. rewrite <- Heq. now apply List.in_map.
  - apply String.eqb_neq in E.
    constructor.
    + apply Hother; [exact Hp|]. simpl. congruence.
    + apply IH; auto. destruct Hin; [congruence|assumption].
Qed.

Lemma entries_Permutation o : Permutation o (JSObject.entries o).
Proof.
  unfold JSObject.entries.
  eapply Permutation_trans;
    [|apply Permutation_app_tail, Permutation_map, sort_Permutation].
  unfold JSObject.index_props, JSObject.named_props.
  induction o as [|p o IH]; simpl; [constructor|].
  destruct (JSObject.array_index (fst p)); simpl.
  - now constructor.
  - now apply Permutation_cons_app.
Qed.

Lemma values_Permutation o : Permutation (List.map snd o) (JSObject.values o).
Proof. apply Permutation_map, entries_Permutation. Qed.

(** An object without array-index keys lists its properties in creation
    order. *)
Lemma entries_named o :
  Forall (fun p => JSObject.array_index (fst p) = None) o ->
  JSObject.entries o = o.
Proof.
  intros H. unfold JSObject.entries, JSObject.index_props, JSObject.named_props.
  induction H as [|p o Hp H IH]; [reflexivity|].
  simpl. rewrite Hp. simpl in *.
  destruct (flat_map _ o) eqn:E; simpl in *; [now f_equal|].
  exfalso. clear - H E.
  induction H as [|q o Hq H IH]; simpl in E; [discriminate|].
  rewrite Hq in E. simpl in E. auto.
Qed.

End ObjectFacts.

(** ** The grouping loop

    The three groupers run the same loop over an object keyed by the period
    label: create the group of the key when the key reads as [undefined],
    then update the group read back under the key. *)

Section Grouping.
Context {E B : Type}.
Variable K : E -> string.
Variable init : string -> B.
Variable push : E -> B -> B.
Variable P : list E -> string -> B -> Prop.
Hypothesis P_new :
  forall done x, (forall y, List.In y done -> K y <> K x) ->
                 P (done ++ [x]) (K x) (push x (init (K x))).
Hypothesis P_push :
  forall done x b, P done (K x) b -> P (done ++ [x]) (K x) (push x b).
Hypothesis P_other :
  forall done x k b, P done k b -> k <> K x -> P (done ++ [x]) k b.

Lemma existsb_eqb_In k (seen : list string) :
  List.existsb (String.eqb k) seen = true <-> List.In k seen.
Proof.
  rewrite List.existsb_exists. split.
  - intros (y & Hy & Heq). apply String.eqb_eq in Heq. now subst.
  - intros H. exists k. split; [exact H | apply String.eqb_refl].
Qed.

Lemma first_seen_snoc (keys : list string) k :
  first_seen (keys ++ [k]) =
  if List.existsb (String.eqb k) (first_seen keys) then first_seen keys
  else (first_seen keys ++ [k])%list.
Proof. unfold first_seen. now rewrite List.fold_left_app. Qed.

Lemma group_step_inv done g x :
  JSObject.inherited (K x) = false ->
  grouped_inv K P done g ->
  exists g', group_step K init push (Some g) x = Some g' /\ grouped_inv K P (done ++ [x]) g'.
Proof.
  intros K_own (Hnd & HP & Hin & Hkeys).
  unfold group_step, JSObject.get. cbv zeta. rewrite K_own.
  destruct (JSObject.own (K x) g) as [b|] eqn:Eown.
  - (* the group exists *)
    rewrite Eown. eexists. split; [reflexivity|].
    pose proof (own_In _ _ _ Eown) as Hb.
    assert (Hk : List.In (K x) (List.map fst g)).
    { change (K x) with (fst (K x, b)). now apply List.in_map. }
    repeat apply conj.
    + now rewrite (set_keys_present _ _ b).
    + apply (set_Forall (fun p => P done (fst p) (snd p)));
        [exact Hnd | exact Hk | exact HP | | ].
      * intros p Hp Hne. now apply P_other.
      * apply P_push. rewrite List.Forall_forall in HP. apply (HP (K x, b) Hb).
    + rewrite (set_keys_present _ _ b) by exact Eown.
      intros y Hy. apply List.in_app_or in Hy as [Hy|[<-|[]]]; auto.
    + rewrite (set_keys_present _ _ b) by exact Eown.
      rewrite List.map_app. change (List.map K [x]) with [K x].
      rewrite first_seen_snoc, <- Hkeys.
      apply existsb_eqb_In in Hk. now rewrite Hk.
  - (* the group is created *)
    rewrite (set_absent _ _ _ Eown), (own_last _ _ _ Eown), (set_last _ _ _ _ Eown).
    eexists. split; [reflexivity|].
    pose proof (proj1 (own_None_keys _ _) Eown) as Hk.
    repeat apply conj.
    + rewrite List.map_app. simpl.
      apply List.NoDup_app; repeat apply conj; auto.
      * constructor; [intros []|constructor].
      * intros k Hk1 [<-|[]]. contradiction.
    + apply Forall_app. split.
      * apply List.Forall_forall. intros p Hp.
        rewrite List.Forall_forall in HP.
        apply P_other; [now apply HP|].
        intros Heq. apply Hk. rewrite <- Heq. now apply List.in_map.
      * constructor; [|constructor]. simpl. apply P_new.
        intros y Hy Heq. apply Hk. rewrite <- Heq. now apply Hin.
    + intros y Hy. rewrite List.map_app. apply List.in_or_app.
      apply List.in_app_or in Hy as [Hy|[<-|[]]]; [left; auto | right; now left].
    + rewrite !List.map_app.
      change (List.map K [x]) with [K x].
      change (List.map fst [(K x, push x (init (K x)))]) with [K x].
      rewrite first_seen_snoc, <- Hkeys.
      destruct (List.existsb (String.eqb (K x)) (List.map fst g)) eqn:Ex;
        [|reflexivity].
      apply existsb_eqb_In in Ex. contradiction.
Qed.

Lemma group_fold_inv xs : forall done g,
  Forall (fun x => JSObject.inherited (K x) = false) xs ->
  grouped_inv K P done g ->
  exists g', fold_left (group_step K init push) xs (Some g) = Some g'
             /\ grouped_inv K P (done ++ xs) g'.
Proof.
  induction xs as [|x xs IH]; intros done g Hown Hg.
  - exists g. rewrite List.app_nil_r. now split.
  - inversion Hown as [|? ? Hx Hxs]; subst.
    destruct (group_step_inv done g x Hx Hg) as (g1 & E1 & H1).
    destruct (IH (done ++ [x])%list g1 Hxs H1) as (g' & E' & H').
    exists g'. split.
    + change (fold_left (group_step K init push) xs (group_step K init push (Some g) x) = Some g').
      rewrite E1. exact E'.
    + now rewrite <- List.app_assoc in H'.
Qed.

(** When no key is the name of an inherited property the loop never
    throws, and it leaves one group per distinct key, in the order in which
    the keys are first seen, each satisfying [P]. *)
Lemma group_fold xs :
  Forall (fun x => JSObject.inherited (K x) = false) xs ->
  exists g', fold_left (group_step K init push) xs (Some []) = Some g' /\ grouped_inv K P xs g'.
Proof.
  intros Hown. apply (group_fold_inv xs [] [] Hown).
  repeat apply conj; simpl; try constructor. intros y [].
Qed.

End Grouping.

(** ** Period labels are never inherited property names *)

Lemma numeric_head_not_inherited s :
  numeric_head s = true -> JSObject.inherited s = false.
Proof.
  destruct s as [|c s]; [discriminate|].
  destruct c as [[] [] [] [] [] [] [] []]; intros H; try discriminate H;
    reflexivity.
Qed.

Lemma numeric_head_app a b : numeric_head a = true -> numeric_head (a ++ b) = true.
Proof. destruct a as [|c a]; [discriminate|]. intros H. exact H. Qed.

Lemma numeric_head_split a :
  numeric_head a = true -> numeric_head (JS.split_head "T" a) = true.
Proof.
  destruct a as [|c a]; [discriminate|].
  destruct c as [[] [] [] [] [] [] [] []]; intros H; try discriminate H;
    exact H.
Qed.

Lemma Number_toString_numeric z : numeric_head (JS.Number_toString z) = true.
Proof.
  unfold JS.Number_toString.
  destruct z as [|p|p]; [reflexivity| |reflexivity].
  cbn [Z.to_int NilZero.string_of_int].
  unfold NilZero.string_of_uint.
  destruct (Pos.to_uint p); reflexivity.
Qed.

Lemma pad_numeric n z : numeric_head (pad n z) = true.
Proof.
  unfold pad, JS.padStart.
  destruct (n <=? String.length (JS.Number_toString z))%nat eqn:E.
  - apply Number_toString_numeric.
  - apply Nat.leb_gt in E.
    destruct (n - String.length (JS.Number_toString z))%nat eqn:D; [lia|].
    reflexivity.
Qed.

Lemma toISOString_numeric d : numeric_head (JS.split_head "T" (toISOString d)) = true.
Proof.
  apply numeric_head_split. unfold toISOString. cbv zeta.
  destruct ((0 <=? YearFromTime d) && (YearFromTime d <=? 9999)).
  - apply numeric_head_app, pad_numeric.
  - destruct (YearFromTime d <? 0); reflexivity.
Qed.

Lemma periodKey_numeric {host : Host} period date :
  numeric_head (periodKey period date) = true.
Proof.
  unfold periodKey.
  destruct (String.eqb period "monthly");
    [apply numeric_head_app, Number_toString_numeric|].
  destruct (String.eqb period "weekly");
    [apply numeric_head_app, Number_toString_numeric|].
  destruct (String.eqb period "yearly"); [apply Number_toString_numeric|].
  apply toISOString_numeric.
Qed.

Lemma periodKey_not_inherited {host : Host} period date :
  JSObject.inherited (periodKey period date) = false.
Proof. apply numeric_head_not_inherited, periodKey_numeric. Qed.

(** ** The period bucketer *)

Lemma sum_amounts_app l x : sum_amounts (l ++ [x]) = sum_amounts l + Txn.amount x.
Proof.
  unfold sum_amounts.
  induction l as [|y l IH]; cbn [app fold_right]; [lia|]. rewrite IH. lia.
Qed.

Lemma filter_snoc {A : Type} (f : A -> bool) l x :
  List.filter f (l ++ [x]) = (List.filter f l ++ if f x then [x] else [])%list.
Proof. rewrite List.filter_app. simpl. now destruct (f x). Qed.

Lemma filter_none {A : Type} (f : A -> bool) l :
  (forall y, List.In y l -> f y = false) -> List.filter f l = [].
Proof.
  induction l as [|y l IH]; intros H; [reflexivity|]. simpl.
  rewrite (H y) by now left. apply IH. intros z Hz. apply H. now right.
Qed.

Lemma append_assoc (a b c : string) : (a ++ b) ++ c = a ++ b ++ c.
Proof.
  induction a as [|x a IH]; [reflexivity|].
  change (String x ((a ++ b) ++ c) = String x (a ++ b ++ c)). now rewrite IH.
Qed.

Lemma leb_total a b : String.leb a b = false -> String.leb b a = true.
Proof.
  unfold String.leb. rewrite (String.compare_antisym b a).
  destruct (String.compare a b); simpl; intros H; try reflexivity; discriminate.
Qed.

Lemma label_text_app a b :
  label_text (a ++ b) = label_text a && label_text b.
Proof.
  induction a as [|c a IH]; [reflexivity|].
  change (label_char c && label_text (a ++ b)
          = label_char c && label_text a && label_text b).
  rewrite IH. now rewrite andb_assoc.
Qed.

Lemma label_text_lacks_T a : label_text a = true -> lacks "T" a = true.
Proof.
  induction a as [|c a IH]; [reflexivity|].
  cbn [label_text lacks]. intros H. apply andb_prop in H as [Hc Ha].
  rewrite (IH Ha), andb_true_r.
  destruct c as [[] [] [] [] [] [] [] []]; try discriminate Hc; reflexivity.
Qed.

Lemma string_of_uint_label d : label_text (NilEmpty.string_of_uint d) = true.
Proof. induction d; cbn [NilEmpty.string_of_uint label_text]; auto. Qed.

Lemma Number_toString_label z : label_text (JS.Number_toString z) = true.
Proof.
  unfold JS.Number_toString.
  destruct (Z.to_int z) as [d|d]; cbn [NilZero.string_of_int].
  - unfold NilZero.string_of_uint. destruct d; try reflexivity;
      apply (string_of_uint_label (_ d)).
  - change (label_text (String "-" (NilZero.string_of_uint d)) = true).
    cbn [label_text]. unfold NilZero.string_of_uint. destruct d; try reflexivity;
      apply (string_of_uint_label (_ d)).
Qed.

Lemma fill_string_label pad k : forall cur,
  label_text pad = true -> label_text cur = true ->
  label_text (JS.fill_string pad cur k) = true.
Proof.
  induction k as [|k IH]; intros cur Hp Hc; [reflexivity|].
  cbn [JS.fill_string]. destruct cur as [|c rest].
  - destruct pad as [|c rest]; [reflexivity|].
    cbn [label_text] in *. apply andb_prop in Hp as [H1 H2].
    rewrite H1. cbn [andb]. apply IH; [|exact H2].
    cbn [label_text]. now rewrite H1, H2.
  - cbn [label_text] in *. apply andb_prop in Hc as [H1 H2].
    rewrite H1. cbn [andb]. now apply IH.
Qed.

Lemma padStart_label s n : label_text s = true -> label_text (JS.padStart s n "0") = true.
Proof.
  intros Hs. unfold JS.padStart.
  destruct (n <=? String.length s)%nat; [exact Hs|].
  rewrite label_text_app, Hs, andb_true_r.
  now apply fill_string_label.
Qed.

Lemma pad_label n z : label_text (pad n z) = true.
Proof. apply padStart_label, Number_toString_label. Qed.

Lemma toISOString_label d :
  YearFromTime d <= 9999 -> label_text (JS.split_head "T" (toISOString d)) = true.
Proof.
  intros Hy. unfold toISOString. cbv zeta.
  set (year := if (0 <=? YearFromTime d) && (YearFromTime d <=? 9999)
               then pad 4 (YearFromTime d)
               else (if YearFromTime d <? 0 then "-" else "+")
                    ++ pad 6 (Z.abs (YearFromTime d))).
  assert (Hyear : label_text year = true).
  { subst year. destruct ((0 <=? YearFromTime d) && (YearFromTime d <=? 9999)) eqn:E;
      [apply pad_label|].
    apply andb_false_iff in E.
    replace (YearFromTime d <? 0) with true
      by (symmetry; apply Z.ltb_lt;
          destruct E as [E|E]; [apply Z.leb_gt in E | apply Z.leb_gt in E]; lia).
    change (label_text (String "-" (pad 6 (Z.abs (YearFromTime d)))) = true).
    cbn [label_text]. apply pad_label. }
  set (date := year ++ "-" ++ pad 2 (MonthFromTime d + 1) ++ "-"
               ++ pad 2 (DateFromTime d)).
  assert (Hdate : label_text date = true).
  { subst date. rewrite !label_text_app, Hyear, !pad_label. reflexivity. }
  replace (year ++ "-" ++ pad 2 (MonthFromTime d + 1) ++ "-" ++ pad 2 (DateFromTime d)
           ++ "T" ++ pad 2 (HourFromTime d) ++ ":" ++ pad 2 (MinFromTime d) ++ ":"
           ++ pad 2 (SecFromTime d) ++ "." ++ pad 3 (msFromTime d) ++ "Z")
    with (date ++ "T" ++ pad 2 (HourFromTime d) ++ ":" ++ pad 2 (MinFromTime d) ++ ":"
          ++ pad 2 (SecFromTime d) ++ "." ++ pad 3 (msFromTime d) ++ "Z").
  - rewrite split_head_app by (apply label_text_lacks_T, Hdate).
    change (JS.split_head "T" ("T" ++ ?r)) with "".
    now rewrite append_nil_r.
  - subst date. rewrite !append_assoc. reflexivity.
Qed.

(** The period label of a date whose UTC year is at most 9999 is made of
    digits, [-] and [W]. *)
Lemma periodKey_label {host : Host} period date :
  YearFromTime date <= 9999 -> label_text (periodKey period date) = true.
Proof.
  intros Hy. unfold periodKey.
  destruct (String.eqb period "monthly").
  { rewrite !label_text_app, Number_toString_label.
    rewrite padStart_label by apply Number_toString_label. reflexivity. }
  destruct (String.eqb period "weekly").
  { cbv zeta. rewrite !label_text_app, Number_toString_label.
    rewrite padStart_label by apply Number_toString_label. reflexivity. }
  destruct (String.eqb period "yearly"); [apply Number_toString_label|].
  now apply toISOString_label.
Qed.

Section Buckets.
Context {host : Host}.

Lemma bucket_add_sums x b :
  Bucket.income b = sum_amounts (List.filter Txn.is_income (Bucket.transactions b)) ->
  Bucket.expense b = sum_amounts (List.filter Txn.is_expense (Bucket.transactions b)) ->
  Bucket.income (Bucket.add x b)
  = sum_amounts (List.filter Txn.is_income (Bucket.transactions (Bucket.add x b)))
  /\ Bucket.expense (Bucket.add x b)
     = sum_amounts (List.filter Txn.is_expense (Bucket.transactions (Bucket.add x b)))
  /\ Bucket.balance (Bucket.add x b)
     = Bucket.income (Bucket.add x b) - Bucket.expense (Bucket.add x b).
Proof.
  intros Hi He. unfold Bucket.add. cbn [Bucket.income Bucket.expense
    Bucket.balance Bucket.transactions].
  rewrite !filter_snoc. unfold Txn.is_income, Txn.is_expense in *.
  destruct (Txn.type x); rewrite ?sum_amounts_app, ?List.app_nil_r;
    repeat apply conj; lia.
Qed.

Lemma groupTransactionsByPeriod_step_loop period :
  Transactions.groupTransactionsByPeriod_step period
  = group_step (fun x => periodKey period (Txn.date x)) Bucket.init Bucket.add.
Proof. reflexivity. Qed.

Lemma buckets_grouped (transactions : list Txn.t) (period : string) :
  exists g,
    fold_left (Transactions.groupTransactionsByPeriod_step period) transactions
      (Some []) = Some g
    /\ grouped_inv (fun x => periodKey period (Txn.date x))
         (fun done k b => Bucket.period b = k /\ bucket_of period done b)
         transactions g.
Proof.
  rewrite groupTransactionsByPeriod_step_loop.
  set (K := fun x => periodKey period (Txn.date x)).
  set (P := fun (done : list Txn.t) (k : string) (b : Bucket.t) =>
              Bucket.period b = k /\ bucket_of period done b).
  assert (Hown : Forall (fun x => JSObject.inherited (K x) = false) transactions).
  { apply List.Forall_forall. intros x _.
    exact (periodKey_not_inherited period (Txn.date x)). }
  assert (Hnew : forall done x, (forall y, List.In y done -> K y <> K x) ->
                   P (done ++ [x])%list (K x) (Bucket.add x (Bucket.init (K x)))).
  { intros done x Hnew. split; [reflexivity|].
    destruct (bucket_add_sums x (Bucket.init (K x)))
      as (Hi & He & Hb); [reflexivity | reflexivity |].
    unfold bucket_of. repeat apply conj; auto.
    cbn [Bucket.add Bucket.init Bucket.transactions Bucket.period app].
    rewrite filter_snoc. fold (K x). rewrite String.eqb_refl, filter_none;
      [reflexivity|].
    intros y Hy. apply String.eqb_neq. now apply Hnew. }
  assert (Hpush : forall done x b, P done (K x) b ->
                    P (done ++ [x])%list (K x) (Bucket.add x b)).
  { intros done x b (Hp & Ht & Hi & He & Hb). split; [exact Hp|].
    destruct (bucket_add_sums x b Hi He) as (Hi' & He' & Hb').
    unfold bucket_of. repeat apply conj; auto.
    cbn [Bucket.add Bucket.transactions Bucket.period].
    rewrite filter_snoc, Hp. fold (K x). rewrite String.eqb_refl, Ht, Hp.
    reflexivity. }
  assert (Hother : forall done x k b, P done k b -> k <> K x ->
                     P (done ++ [x])%list k b).
  { intros done x k b (Hp & Ht & Hi & He & Hb) Hne. split; [exact Hp|].
    unfold bucket_of. repeat apply conj; auto.
    rewrite filter_snoc, Ht, Hp. fold (K x).
    replace (String.eqb (K x) k) with false
      by (symmetry; apply String.eqb_neq; congruence).
    now rewrite List.app_nil_r. }
  exact (group_fold K Bucket.init Bucket.add P Hnew Hpush Hother transactions Hown).
Qed.

(** The buckets returned are the groups of the loop, sorted by the
    collation of the host. *)
Lemma groupTransactionsByPeriod_buckets (transactions : list Txn.t) (period : string) :
  exists g buckets,
    Transactions.groupTransactionsByPeriod transactions period = Some buckets
    /\ Permutation (List.map snd g) buckets
    /\ grouped_inv (fun x => periodKey period (Txn.date x))
         (fun done k b => Bucket.period b = k /\ bucket_of period done b)
         transactions g
    /\ buckets
       = JS.sort
           (fun a b => Some (localeCompare (Bucket.period a) (Bucket.period b)))
           (JSObject.values g).
Proof.
  destruct (buckets_grouped transactions period) as (g & Eg & Hg).
  exists g. eexists. unfold Transactions.groupTransactionsByPeriod.
  rewrite Eg. cbn [option_map]. split; [reflexivity|].
  split; [|split; [exact Hg | reflexivity]].
  eapply Permutation_trans; [apply values_Permutation | apply sort_Permutation].
Qed.


End Buckets.

(** ** The order of the buckets *)


Lemma first_seen_incl keys k : List.In k (first_seen keys) -> List.In k keys.
Proof.
  unfold first_seen.
  assert (H : forall seen,
            List.In k (fold_left
              (fun seen k => if List.existsb (String.eqb k) seen then seen
                             else (seen ++ [k])%list) keys seen) ->
            List.In k seen \/ List.In k keys).
  { induction keys as [|k0 keys IH]; intros seen Hk; [now left|].
    cbn [fold_left] in Hk. apply IH in Hk as [Hk|Hk]; [|right; now right].
    destruct (List.existsb (String.eqb k0) seen); [now left|].
    apply List.in_app_or in Hk as [Hk|[<-|[]]]; [now left | right; now left]. }
  intros Hk. apply H in Hk as [[]|Hk]. exact Hk.
Qed.


Lemma digits_value_dash a b : forall acc,
  JSObject.digits_value (a ++ String "-" b) acc = None.
Proof.
  induction a as [|c a IH]; intros acc; [reflexivity|].
  change (match JSObject.digit_value c with
          | Some d => JSObject.digits_value (a ++ String "-" b) (acc * 10 + d)%N
          | None => None
          end = None).
  destruct (JSObject.digit_value c); [apply IH | reflexivity].
Qed.

Lemma array_index_dash a b : JSObject.array_index (a ++ String "-" b) = None.
Proof.
  unfold JSObject.array_index. rewrite digits_value_dash.
  now destruct (a ++ String "-" b).
Qed.

Lemma periodKey_named {host : Host} period date :
  period = "monthly" \/ period = "weekly" ->
  JSObject.array_index (periodKey period date) = None.
Proof.
  intros [-> | ->]; unfold periodKey; cbn [String.eqb Ascii.eqb Bool.eqb];
    cbv zeta; apply array_index_dash.
Qed.

Section PerKind.
Context {host : Host}.

Lemma groups_grouped (entries : list Entry.t) (period : string) :
  exists g,
    fold_left (group_step (fun e => periodKey period (Entry.date e)) Group.init
                 Group.push) entries (Some []) = Some g
    /\ grouped_inv (fun e => periodKey period (Entry.date e))
         (fun _ k grp => Group.period grp = k) entries g.
Proof.
  apply (group_fold (fun e => periodKey period (Entry.date e)) Group.init Group.push
           (fun _ k grp => Group.period grp = k)).
  - reflexivity.
  - intros done e grp Hp. exact Hp.
  - intros done e k grp Hp _. exact Hp.
  - apply List.Forall_forall. intros e _.
    exact (periodKey_not_inherited period (Entry.date e)).
Qed.

Lemma labels_of_groups (g : list (string * Group.t)) :
  Forall (fun p => Group.period (snd p) = fst p) g ->
  List.map Group.period (List.map snd g) = List.map fst g.
Proof.
  induction 1 as [|p g Hp _ IH]; [reflexivity|].
  simpl. now rewrite Hp, IH.
Qed.

(** The groups of a per-kind grouper for the monthly and weekly keywords:
    one per label, in the order in which the labels are first seen. *)
Lemma per_kind_groups (entries : list Entry.t) (period : string) :
  period = "monthly" \/ period = "weekly" ->
  exists groups,
    option_map JSObject.values
      (fold_left (group_step (fun e => periodKey period (Entry.date e)) Group.init
                    Group.push) entries (Some [])) = Some groups
    /\ List.map Group.period groups
       = first_seen (List.map (fun e => periodKey period (Entry.date e)) entries).
Proof.
  intros Hp.
  destruct (groups_grouped entries period) as (g & Eg & Hnd & HP & Hin & Hkeys).
  rewrite Eg. eexists. split; [reflexivity|].
  unfold JSObject.values. rewrite entries_named.
  - rewrite <- Hkeys. now apply labels_of_groups.
  - apply List.Forall_forall. intros [k grp] Hk.
    assert (Hk' : List.In k (first_seen
               (List.map (fun e => periodKey period (Entry.date e)) entries))).
    { rewrite <- Hkeys. change k with (fst (k, grp)). now apply List.in_map. }
    clear - Hk' Hp. cbn [fst].
    assert (Hall : forall keys seen,
               Forall (fun k => JSObject.array_index k = None) keys ->
               Forall (fun k => JSObject.array_index k = None) seen ->
               Forall (fun k => JSObject.array_index k = None)
                 (fold_left
                    (fun seen k =>
                       if List.existsb (String.eqb k) seen then seen
                       else (seen ++ [k])%list) keys seen)).
    { induction keys as [|k0 keys IH]; intros seen Hkeys Hseen; [exact Hseen|].
      inversion Hkeys; subst. simpl.
      apply IH; [assumption|].
      destruct (List.existsb (String.eqb k0) seen); [assumption|].
      apply Forall_app. split; [assumption|]. now constructor. }
    assert (Hf : Forall (fun k => JSObject.array_index k = None)
                   (first_seen
                      (List.map (fun e => periodKey period (Entry.date e)) entries))).
    { apply Hall; [|constructor].
      apply List.Forall_forall. intros k' Hk''.
      apply List.in_map_iff in Hk'' as (e & <- & _).
      now apply periodKey_named. }
    rewrite List.Forall_forall in Hf. now apply Hf.
Qed.

(** C7, as the code has it.  The buckets returned by
    [groupTransactionsByPeriod] have distinct labels and are in the order
    of the host's collation; they are in ascending order of their labels
    when the records are dated in years up to 9999, whose labels are made
    of digits, [-] and [W], on a host that collates such texts as the codes
    of their characters do.  The per-kind groupers of the income and of the
    expense routes do not sort: for the monthly and weekly keywords they
    return one group per label in the order in which the labels are first
    seen in the input. *)
Theorem period_buckets_sorted (transactions : list Txn.t) (period : string) :
  (exists buckets,
     Transactions.groupTransactionsByPeriod transactions period = Some buckets
     /\ List.NoDup (List.map Bucket.period buckets)
     /\ (collates_labels ->
         Forall (fun x => YearFromTime (Txn.date x) <= 9999) transactions ->
         Sorted (fun a b => String.leb (Bucket.period a) (Bucket.period b) = true)
           buckets))
  /\ (forall entries, period = "monthly" \/ period = "weekly" ->
      exists groups,
        Income.groupByPeriod entries period = Some groups
        /\ List.map Group.period groups
           = first_seen (List.map (fun e => periodKey period (Entry.date e)) entries))
  /\ (forall entries, period = "monthly" \/ period = "weekly" ->
      exists groups,
        Expense.groupByPeriod entries period = Some groups
        /\ List.map Group.period groups
           = first_seen (List.map (fun e => periodKey period (Entry.date e)) entries)).
Proof.
  split; [|split].
  - destruct (groupTransactionsByPeriod_buckets transactions period)
      as (g & buckets & E & Hperm & (Hnd & HP & _ & Hkeys) & Hsort).
    exists buckets. split; [exact E|].
    assert (Hlab : List.map Bucket.period (List.map snd g) = List.map fst g).
    { clear - HP. induction HP as [|p g [Hp _] _ IH]; [reflexivity|].
      simpl. now rewrite Hp, IH. }
    split.
    { eapply Permutation_NoDup; [apply Permutation_map, Hperm|].
      rewrite Hlab. exact Hnd. }
    intros Hcollate Hyears. rewrite Hsort.
    apply (sort_Sorted _ _ (fun b => label_text (Bucket.period b) = true)).
    + intros x y Hx Hy Hle. unfold JS.SortCompare in Hle. now apply Hcollate.
    + intros x y Hx Hy Hgt. unfold JS.SortCompare in Hgt.
      destruct (String.leb (Bucket.period x) (Bucket.period y)) eqn:El.
      * apply (Hcollate _ _ Hx Hy) in El. lia.
      * now apply leb_total.
    + eapply Permutation_Forall; [apply values_Permutation|].
      apply List.Forall_forall. intros b Hb.
      assert (Hin : List.In (Bucket.period b) (List.map fst g)).
      { rewrite <- Hlab. now apply List.in_map. }
      rewrite Hkeys in Hin. apply first_seen_incl in Hin.
      apply List.in_map_iff in Hin as (x & <- & Hx).
      rewrite List.Forall_forall in Hyears.
      apply periodKey_label. now apply Hyears.
  - intros entries Hp. exact (per_kind_groups entries period Hp).
  - intros entries Hp. exact (per_kind_groups entries period Hp).
Qed.

End PerKind.

(** ** The listing and its totals *)



Section Listing.
Context {host : Host}.





End Listing.

(** ** Creation, deletion and the ledger *)

Lemma or_default_falsy a b : JS.truthy_opt a = false -> JS.or_default a b = b.
Proof.
  unfold JS.truthy_opt, JS.or_default. destruct a as [v|]; [|reflexivity].
  now intros ->.
Qed.

Lemma save_Some e e' :
  Entry.save e = Some e' -> e' = Entry.cast e /\ Entry.valid e' = true.
Proof.
  unfold Entry.save. cbv zeta.
  destruct (Entry.valid (Entry.cast e)) eqn:E; [|discriminate].
  intros [= <-]. now split.
Qed.

Lemma valid_account e : Entry.valid e = true -> JS.truthy (Entry.account e) = true.
Proof. unfold Entry.valid. intros H. now apply andb_prop in H as [_ H]. Qed.

Lemma trimStart_unfold s :
  JSString.trimStart s = match white_prefix s with Some r => JSString.trimStart r | None => s end.
Proof.
  destruct s as [|a [|b [|c r3]]]; cbn [JSString.trimStart white_prefix]; try reflexivity.
  - destruct (JSString.is_space a); reflexivity.
  - destruct (JSString.is_space a); [reflexivity|]. destruct (JSString.is_space2 a b); reflexivity.
  - destruct (JSString.is_space a); [reflexivity|]. destruct (JSString.is_space2 a b); [reflexivity|].
    destruct (JSString.is_space3 a b c); reflexivity.
Qed.

Lemma white_prefix_length s r :
  white_prefix s = Some r -> (String.length r < String.length s)%nat.
Proof.
  destruct s as [|a [|b [|c r3]]]; cbn [white_prefix]; try discriminate.
  - destruct (JSString.is_space a); [|discriminate]. intros [= <-]. simpl. lia.
  - destruct (JSString.is_space a); [intros [= <-]; simpl; lia|].
    destruct (JSString.is_space2 a b); [|discriminate]. intros [= <-]. simpl. lia.
  - destruct (JSString.is_space a); [intros [= <-]; simpl; lia|].
    destruct (JSString.is_space2 a b); [intros [= <-]; simpl; lia|].
    destruct (JSString.is_space3 a b c); [|discriminate]. intros [= <-]. simpl. lia.
Qed.

Lemma string_length_ind (P : string -> Prop) :
  (forall s, (forall r, (String.length r < String.length s)%nat -> P r) -> P s) ->
  forall s, P s.
Proof.
  intros H s. remember (String.length s) as n eqn:Hn. revert s Hn.
  induction n as [n IH] using lt_wf_ind. intros s ->.
  apply H. intros r Hr. exact (IH _ Hr r eq_refl).
Qed.

Lemma trimStart_headed s : white_prefix (JSString.trimStart s) = None.
Proof.
  induction s as [s IH] using string_length_ind.
  rewrite trimStart_unfold.
  destruct (white_prefix s) as [r|] eqn:E; [|exact E].
  apply IH. now apply white_prefix_length.
Qed.

Lemma trimStart_None s : white_prefix s = None -> JSString.trimStart s = s.
Proof. intros H. now rewrite trimStart_unfold, H. Qed.

Lemma trimStart_fixed s : JSString.trimStart (JSString.trimStart s) = JSString.trimStart s.
Proof. apply trimStart_None, trimStart_headed. Qed.

Lemma continuation_head b r : continuation b = true -> white_prefix (String b r) = None.
Proof.
  unfold continuation. intros H.
  apply andb_prop in H as [H1 H2]. apply N.leb_le in H1. apply N.ltb_lt in H2.
  assert (Ea : JSString.is_space b = false).
  { unfold JSString.is_space. cbv zeta.
    rewrite (proj2 (N.eqb_neq _ _)) by lia.
    rewrite (proj2 (N.leb_gt (N_of_ascii b) 13)) by lia. now rewrite andb_false_r. }
  assert (E2 : forall c, JSString.is_space2 b c = false).
  { intros c. unfold JSString.is_space2. now rewrite (proj2 (N.eqb_neq _ _)) by lia. }
  assert (E3 : forall c d, JSString.is_space3 b c d = false).
  { intros c d. unfold JSString.is_space3. cbv zeta.
    rewrite !(proj2 (N.eqb_neq (N_of_ascii b) _)) by lia. reflexivity. }
  cbn [white_prefix]. rewrite Ea.
  destruct r as [|c [|d r]]; rewrite ?E2, ?E3; reflexivity.
Qed.

Lemma is_space2_continuation a b : JSString.is_space2 a b = true -> continuation b = true.
Proof.
  unfold JSString.is_space2, continuation. intros H. apply andb_prop in H as [_ H].
  apply N.eqb_eq in H. rewrite H. reflexivity.
Qed.

Lemma is_space3_continuation a b c :
  JSString.is_space3 a b c = true -> continuation b = true /\ continuation c = true.
Proof.
  unfold JSString.is_space3, continuation. cbv zeta. intros H.
  repeat match goal with
         | E : _ || _ = true |- _ => apply orb_prop in E as [E|E]
         | E : _ && _ = true |- _ => apply andb_prop in E as [? ?]
         | E : (_ =? _)%N = true |- _ => apply N.eqb_eq in E
         | E : (_ <=? _)%N = true |- _ => apply N.leb_le in E
         end;
    (split; (apply andb_true_intro; split; [apply N.leb_le | apply N.ltb_lt]; lia)).
Qed.

Lemma blank_unfold s :
  JSString.blank s = match white_prefix s with
            | Some r => JSString.blank r
            | None => match s with EmptyString => true | _ => false end
            end.
Proof.
  unfold JSString.blank. rewrite trimStart_unfold. now destruct (white_prefix s).
Qed.

Lemma trimEnd_blank s : JSString.blank s = true -> JSString.trimEnd s = "".
Proof. destruct s as [|c s]; [reflexivity|]. cbn [JSString.trimEnd]. now intros ->. Qed.

Lemma trimEnd_cons c s :
  JSString.blank (String c s) = false ->
  JSString.trimEnd (String c s) = String c (JSString.trimEnd s).
Proof. cbn [JSString.trimEnd]. now intros ->. Qed.

Lemma continuation_not_blank b r :
  continuation b = true -> JSString.blank (String b r) = false.
Proof. intros H. now rewrite blank_unfold, continuation_head. Qed.

(** Cutting the white space at the end changes neither the white-space
    character a text begins with nor whether the text is blank. *)
Lemma trimEnd_keeps s :
  JSString.blank s = false ->
  JSString.blank (JSString.trimEnd s) = false
  /\ match white_prefix s with
     | Some r => white_prefix (JSString.trimEnd s) = Some (JSString.trimEnd r)
     | None => white_prefix (JSString.trimEnd s) = None
     end.
Proof.
  induction s as [s IH] using string_length_ind. intros Hs.
  assert (Hsecond :
    match white_prefix s with
    | Some r => white_prefix (JSString.trimEnd s) = Some (JSString.trimEnd r)
    | None => white_prefix (JSString.trimEnd s) = None
    end).
  { destruct s as [|a r1]; [discriminate Hs|].
    rewrite trimEnd_cons by exact Hs.
    cbn [white_prefix].
    destruct (JSString.is_space a) eqn:Ea; [reflexivity|].
    destruct r1 as [|b r2]; [reflexivity|].
    destruct (JSString.blank (String b r2)) eqn:B1.
    { (* the rest is blank *)
      rewrite trimEnd_blank by exact B1.
      destruct (JSString.is_space2 a b) eqn:Eb.
      - apply is_space2_continuation in Eb.
        now rewrite continuation_not_blank in B1.
      - destruct r2 as [|c r3]; [reflexivity|].
        destruct (JSString.is_space3 a b c) eqn:Ec; [|reflexivity].
        apply is_space3_continuation in Ec as [Hb _].
        now rewrite continuation_not_blank in B1. }
    rewrite trimEnd_cons by exact B1.
    destruct (JSString.is_space2 a b) eqn:Eb; [reflexivity|].
    destruct r2 as [|c r3]; [reflexivity|].
    destruct (JSString.blank (String c r3)) eqn:B2.
    { rewrite trimEnd_blank by exact B2.
      destruct (JSString.is_space3 a b c) eqn:Ec; [|reflexivity].
      apply is_space3_continuation in Ec as [_ Hc].
      now rewrite continuation_not_blank in B2. }
    rewrite trimEnd_cons by exact B2.
    destruct (JSString.is_space3 a b c); reflexivity. }
  split; [|exact Hsecond].
  rewrite blank_unfold in Hs. rewrite blank_unfold.
  destruct (white_prefix s) as [r|] eqn:E.
  - rewrite Hsecond. apply IH; [now apply white_prefix_length | exact Hs].
  - rewrite Hsecond. destruct s as [|a r1]; [discriminate|].
    destruct (JSString.trimEnd (String a r1)) eqn:Et; [|reflexivity].
    cbn [JSString.trimEnd] in Et. unfold JSString.blank in Et at 1.
    rewrite trimStart_None in Et by exact E. discriminate.
Qed.

Lemma trimEnd_fixed s : JSString.trimEnd (JSString.trimEnd s) = JSString.trimEnd s.
Proof.
  induction s as [|c s IH]; [reflexivity|].
  destruct (JSString.blank (String c s)) eqn:B.
  - rewrite (trimEnd_blank (String c s) B). reflexivity.
  - destruct (trimEnd_keeps (String c s) B) as [B' _].
    rewrite trimEnd_cons in B' |- * by exact B.
    rewrite trimEnd_cons by exact B'. now rewrite IH.
Qed.

Lemma trimStart_trimEnd s :
  white_prefix s = None ->
  JSString.trimStart (JSString.trimEnd s) = JSString.trimEnd s.
Proof.
  intros H. apply trimStart_None.
  destruct (JSString.blank s) eqn:B.
  - now rewrite trimEnd_blank.
  - destruct (trimEnd_keeps s B) as [_ K]. now rewrite H in K.
Qed.

(** [trim] does nothing to a text that it has trimmed. *)
Lemma trim_fixed s : JSString.trim (JSString.trim s) = JSString.trim s.
Proof.
  unfold JSString.trim.
  rewrite (trimStart_trimEnd (JSString.trimStart s)) by apply trimStart_headed.
  apply trimEnd_fixed.
Qed.

Lemma plain_head c s :
  JSString.is_space c = false -> (N_of_ascii c <? 128)%N = true ->
  white_prefix (String c s) = None.
Proof.
  intros Hc Hn. apply N.ltb_lt in Hn.
  assert (E2 : forall b, JSString.is_space2 c b = false).
  { intros b. unfold JSString.is_space2.
    now rewrite (proj2 (N.eqb_neq (N_of_ascii c) 194)) by lia. }
  assert (E3 : forall b d, JSString.is_space3 c b d = false).
  { intros b d. unfold JSString.is_space3. cbv zeta.
    rewrite !(proj2 (N.eqb_neq (N_of_ascii c) _)) by lia. reflexivity. }
  cbn [white_prefix]. rewrite Hc.
  destruct s as [|b [|d r]]; rewrite ?E2, ?E3; reflexivity.
Qed.

(** A text that begins with a character of one byte that is not white
    space is not trimmed to nothing. *)
Lemma trim_head c s :
  JSString.is_space c = false -> (N_of_ascii c <? 128)%N = true ->
  JS.truthy (JSString.trim (String c s)) = true.
Proof.
  intros Hc Hn. pose proof (plain_head c s Hc Hn) as H.
  unfold JSString.trim. rewrite (trimStart_None _ H).
  cbn [JSString.trimEnd]. unfold JSString.blank.
  rewrite (trimStart_None _ H). reflexivity.
Qed.

Lemma trim_truthy s : JS.truthy (JSString.trim s) = true -> JS.truthy s = true.
Proof. destruct s; [discriminate | reflexivity]. Qed.

Lemma amount_truthy_parsed a z :
  Body.parseFloat a = Some z -> z <> 0 -> Body.amount_truthy a = true.
Proof.
  destruct a as [|n|p]; simpl; [discriminate | | reflexivity].
  intros [= ->] Hz. apply negb_true_iff. now apply Z.eqb_neq.
Qed.

(** Case analysis on the test for the required fields of a request. *)
Ltac required_fields :=
  match goal with
  | |- context [if ?c then (error 400 _, _) else _] => destruct c
  end.

Lemma required_fields_test (body : Body.entry) :
  negb (JS.truthy_opt (Body.email body))
  || negb (JS.truthy_opt (Body.source body))
  || negb (Body.amount_truthy (Body.amount body))
  || negb (JS.truthy_opt (Body.date body))
  || negb (JS.truthy_opt (Body.time body))
  || negb (JS.truthy_opt (Body.paymentMethod body))
  = negb (required_present body).
Proof.
  unfold required_present.
  destruct (JS.truthy_opt (Body.email body)), (JS.truthy_opt (Body.source body)),
    (Body.amount_truthy (Body.amount body)), (JS.truthy_opt (Body.date body)),
    (JS.truthy_opt (Body.time body)), (JS.truthy_opt (Body.paymentMethod body));
    reflexivity.
Qed.

(** The validators on the document that a creation request builds. *)
Lemma new_entry_valid (body : Body.entry) oid amount date now :
  JS.truthy_opt (Body.email body) = true ->
  Entry.valid
    (Entry.cast
       {| Entry._id := oid;
          Entry.email := Body.text (Body.email body);
          Entry.source := Body.text (Body.source body);
          Entry.amount := amount;
          Entry.paymentMethod := Body.text (Body.paymentMethod body);
          Entry.date := date;
          Entry.time := Body.text (Body.time body);
          Entry.notes := Body.notes body;
          Entry.division := JS.or_default (Body.division body) "Personal";
          Entry.category :=
            Some (JS.or_default (Body.category body) (Body.text (Body.source body)));
          Entry.account := JS.or_default (Body.account body) "Cash";
          Entry.isTransfer := false;
          Entry.transferCounterpart := None;
          Entry.createdAt := now;
          Entry.updatedAt := now |}) = true
  <-> (0 <= amount
       /\ JS.truthy (JSString.trim (Body.text (Body.source body))) = true
       /\ JS.truthy (JSString.trim (Body.text (Body.paymentMethod body))) = true
       /\ JS.truthy (JSString.trim (Body.text (Body.time body))) = true
       /\ (JS.or_default (Body.division body) "Personal" = "Office"
           \/ JS.or_default (Body.division body) "Personal" = "Personal")
       /\ JS.truthy (JSString.trim (JS.or_default (Body.account body) "Cash")) = true).
Proof.
  intros Hemail. unfold Entry.valid, Entry.cast.
  cbn [Entry.email Entry.source Entry.amount Entry.paymentMethod Entry.time
       Entry.division Entry.account].
  assert (He : JS.truthy (Body.text (Body.email body)) = true).
  { destruct (Body.email body); [exact Hemail | discriminate]. }
  rewrite He. cbn [andb].
  rewrite !andb_true_iff, orb_true_iff, !String.eqb_eq, Z.leb_le. tauto.
Qed.

(** A creation request with its required fields that is acceptable to the
    schema is saved, by both routes. *)
Lemma creation_accepted {host : Host} body oid now st :
  required_present body = true -> acceptable body ->
  (exists saved, document (fst (Income.add body oid now st)) = Some saved)
  /\ (exists saved, document (fst (Expense.minus body oid now st)) = Some saved).
Proof.
  intros Hreq ((amount & Ha & H0) & Hd & H1 & H2 & H3 & H4 & H5).
  assert (Hemail : JS.truthy_opt (Body.email body) = true).
  { unfold required_present in Hreq.
    destruct (JS.truthy_opt (Body.email body)); [reflexivity | discriminate]. }
  destruct (Date_parse (Body.text (Body.date body))) as [date|] eqn:Ed;
    [|now contradiction Hd].
  pose proof (proj2 (new_entry_valid body oid amount date now Hemail)
                (conj H0 (conj H1 (conj H2 (conj H3 (conj H4 H5)))))) as Hv.
  split.
  - unfold Income.add. rewrite required_fields_test, Hreq, Ha, Ed. cbn [negb].
    unfold Entry.save. cbv zeta. rewrite Hv. eexists. reflexivity.
  - unfold Expense.minus. rewrite required_fields_test, Hreq, Ha, Ed. cbn [negb].
    unfold Entry.save. cbv zeta. rewrite Hv. eexists. reflexivity.
Qed.

Section Ledger.
Context {host : Host}.

(** C10.  A creation request whose body has no (truthy) [account] leaves
    every account as it was, for [POST /add] and for [POST /minus]; when the
    entry is saved (status 201) it is stored with the account [Cash]; and
    the entry is saved, by both routes, when the six required fields are
    present and the request is acceptable to the schema.  Deleting an entry that satisfies the schema, and so names an account,
    within the edit window applies the reverse adjustment to the account
    stored in the entry: minus the amount for an income, plus the amount
    for an expense (a no-op when no such account exists). *)
Theorem creation_without_account (body : Body.entry) (oid : string) (now : Z)
  (st : Store) :
  JS.truthy_opt (Body.account body) = false ->
  (accounts (snd (Income.add body oid now st)) = accounts st
   /\ forall saved,
        document (fst (Income.add body oid now st)) = Some saved ->
        status (fst (Income.add body oid now st)) = 201
        /\ Entry.account saved = "Cash"
        /\ incomes (snd (Income.add body oid now st)) = (incomes st ++ [saved])%list)
  /\ (accounts (snd (Expense.minus body oid now st)) = accounts st
      /\ forall saved,
           document (fst (Expense.minus body oid now st)) = Some saved ->
           status (fst (Expense.minus body oid now st)) = 201
           /\ Entry.account saved = "Cash"
           /\ expenses (snd (Expense.minus body oid now st))
              = (expenses st ++ [saved])%list)
  /\ (required_present body = true -> acceptable body ->
      (exists saved, document (fst (Income.add body oid now st)) = Some saved)
      /\ (exists saved, document (fst (Expense.minus body oid now st)) = Some saved))
  /\ (forall id e,
        Entry.findById id (incomes st) = Some e ->
        Entry.valid e = true ->
        now - twelveHours <= Entry.createdAt e ->
        accounts (snd (Income.delete id now st))
        = incBalance (Entry.email e) (Entry.account e) (- Entry.amount e)
            (accounts st))
  /\ (forall id e,
        Entry.findById id (expenses st) = Some e ->
        Entry.valid e = true ->
        now - twelveHours <= Entry.createdAt e ->
        accounts (snd (Expense.delete id now st))
        = incBalance (Entry.email e) (Entry.account e) (Entry.amount e)
            (accounts st)).
Proof.
  intros Hacc.
  split; [split|split; [split|split; [|split]]].
  - unfold Income.add.
    required_fields; [reflexivity|].
    destruct (Body.parseFloat (Body.amount body)),
      (Date_parse (Body.text (Body.date body))); try reflexivity.
    destruct (Entry.save _); [|reflexivity].
    rewrite Hacc. reflexivity.
  - intros saved. unfold Income.add.
    required_fields; [discriminate|].
    destruct (Body.parseFloat (Body.amount body)),
      (Date_parse (Body.text (Body.date body))); try discriminate.
    destruct (Entry.save _) as [e'|] eqn:Es; [|discriminate].
    cbn [fst snd document status incomes]. intros [= ->].
    apply save_Some in Es as [-> _].
    rewrite (or_default_falsy _ _ Hacc). repeat apply conj; reflexivity.
  - unfold Expense.minus.
    required_fields; [reflexivity|].
    destruct (Body.parseFloat (Body.amount body)),
      (Date_parse (Body.text (Body.date body))); try reflexivity.
    destruct (Entry.save _); [|reflexivity].
    rewrite Hacc. reflexivity.
  - intros saved. unfold Expense.minus.
    required_fields; [discriminate|].
    destruct (Body.parseFloat (Body.amount body)),
      (Date_parse (Body.text (Body.date body))); try discriminate.
    destruct (Entry.save _) as [e'|] eqn:Es; [|discriminate].
    cbn [fst snd document status expenses]. intros [= ->].
    apply save_Some in Es as [-> _].
    rewrite (or_default_falsy _ _ Hacc). repeat apply conj; reflexivity.
  - intros Hreq Hok. exact (creation_accepted body oid now st Hreq Hok).
  - intros id e Hfind Hvalid Hwin. unfold Income.delete. rewrite Hfind. cbv zeta.
    replace (Entry.createdAt e <? now - twelveHours) with false
      by (symmetry; apply Z.ltb_ge; lia).
    rewrite (valid_account e Hvalid). reflexivity.
  - intros id e Hfind Hvalid Hwin. unfold Expense.delete. rewrite Hfind. cbv zeta.
    replace (Entry.createdAt e <? now - twelveHours) with false
      by (symmetry; apply Z.ltb_ge; lia).
    rewrite (valid_account e Hvalid). reflexivity.
Qed.

(** C4.  A well-formed transfer request (owner, source account [X],
    destination account [Y], a positive amount [A], a date the host can
    read and a non-blank time) is answered 201.  It appends exactly one
    document to the expenses, with [isTransfer = true], the account [X]
    (trimmed), the amount [A] and the owner; it creates no income; and the
    accounts are those obtained by adding [-A] to the balance of [X] and then
    [A] to the balance of [Y], each account being the one of the trimmed
    name.  So when [X] and [Y] name distinct accounts of the owner, [X] goes
    down by [A], [Y] goes up by [A], and every other account is as it
    was. *)
Theorem transfer_moves_funds (body : Body.transfer) (oid : string) (now : Z)
  (st : Store) (email X Y dtext : string) (A date : Z) :
  Body.t_email body = Some email -> JS.truthy email = true ->
  Body.fromAccount body = Some X -> JS.truthy (JSString.trim X) = true ->
  Body.toAccount body = Some Y -> JS.truthy Y = true ->
  Body.parseFloat (Body.t_amount body) = Some A -> 0 < A ->
  Body.t_date body = Some dtext -> JS.truthy dtext = true ->
  Date_parse dtext = Some date ->
  JS.truthy (JSString.trim
               (JS.or_default (Body.t_time body) (Date_toLocaleTimeString now)))
  = true ->
  let after := accounts (snd (Expense.transfer body oid now st)) in
  status (fst (Expense.transfer body oid now st)) = 201
  /\ (exists e,
        expenses (snd (Expense.transfer body oid now st)) = (expenses st ++ [e])%list
        /\ document (fst (Expense.transfer body oid now st)) = Some e
        /\ Entry.isTransfer e = true
        /\ Entry.account e = JSString.trim X
        /\ Entry.amount e = A
        /\ Entry.email e = email)
  /\ incomes (snd (Expense.transfer body oid now st)) = incomes st
  /\ after = incBalance email Y A (incBalance email X (- A) (accounts st))
  /\ (forall ax ay,
        JSString.trim X <> JSString.trim Y ->
        accounts st !! (email, JSString.trim X) = Some ax ->
        accounts st !! (email, JSString.trim Y) = Some ay ->
        balanceOf email (JSString.trim X) after = Some (Account.balance ax - A)
        /\ balanceOf email (JSString.trim Y) after = Some (Account.balance ay + A))
  /\ (forall k,
        k <> (email, JSString.trim X) -> k <> (email, JSString.trim Y) ->
        after !! k = accounts st !! k).
Proof.
  intros He Hte Hx Htx Hy Hty Ha HA Hd Htd Hp Htime after.
  assert (Hacc : after
                 = incBalance email Y A (incBalance email X (- A) (accounts st))
                 /\ status (fst (Expense.transfer body oid now st)) = 201
                 /\ (exists e,
                       expenses (snd (Expense.transfer body oid now st))
                       = (expenses st ++ [e])%list
                       /\ document (fst (Expense.transfer body oid now st)) = Some e
                       /\ Entry.isTransfer e = true
                       /\ Entry.account e = JSString.trim X
                       /\ Entry.amount e = A
                       /\ Entry.email e = email)
                 /\ incomes (snd (Expense.transfer body oid now st)) = incomes st).
  { subst after. unfold Expense.transfer. rewrite He, Hx, Hy, Hd, Ha.
    cbn [JS.truthy_opt Body.text default from_option id]. rewrite Hte, Hty, Htd.
    rewrite (trim_truthy X Htx).
    rewrite (amount_truthy_parsed _ A Ha) by lia.
    cbn [negb orb andb]. cbv zeta. rewrite Hp.
    unfold Entry.save. cbv zeta.
    replace (Entry.valid (Entry.cast _)) with true.
    - cbn [fst snd status document expenses incomes accounts].
      split; [reflexivity|]. split; [reflexivity|]. split; [|reflexivity].
      eexists. split; [reflexivity|]. repeat apply conj; reflexivity.
    - symmetry. unfold Entry.valid, Entry.cast.
      cbn [Entry.email Entry.source Entry.amount Entry.paymentMethod Entry.time
           Entry.division Entry.account].
      rewrite Hte, Htime, Htx.
      change ("Transfer to " ++ Y) with (String "T" ("ransfer to " ++ Y)).
      rewrite trim_head by reflexivity.
      replace (0 <=? A) with true by (symmetry; apply Z.leb_le; lia).
      reflexivity. }
  destruct Hacc as (Hacc & Hst & Hex & Hinc).
  split; [exact Hst|]. split; [exact Hex|]. split; [exact Hinc|].
  split; [exact Hacc|]. split.
  - intros ax ay Hne Hax Hay. rewrite Hacc. unfold balanceOf, incBalance.
    assert (Hk : (email, JSString.trim X) <> (email, JSString.trim Y)) by congruence.
    split.
    + rewrite lookup_alter_ne by congruence.
      rewrite lookup_alter_eq, Hax. cbn. f_equal; lia.
    + rewrite lookup_alter_eq, lookup_alter_ne by exact Hk.
      rewrite Hay. reflexivity.
  - intros k Hkx Hky. rewrite Hacc. unfold incBalance.
    rewrite !lookup_alter_ne by congruence. reflexivity.
Qed.

End Ledger.

(** ** The edit window *)

Section EditWindow.
Context {host : Host}.

(** The schema method and the helper of the listing agree: an entry is
    editable exactly when it was created strictly less than twelve hours
    ago. *)
Lemma canEdit_iff now e :
  Entry.canEdit now e = true <-> now - twelveHours < Entry.createdAt e.
Proof. unfold Entry.canEdit, twelveHours. cbv zeta. apply Z.ltb_lt. Qed.

Lemma canEditTransaction_canEdit now e :
  Transactions.canEditTransaction now (Some (Entry.createdAt e)) = Entry.canEdit now e.
Proof. reflexivity. Qed.

(** An unknown identifier is answered 404 and nothing changes. *)
Lemma mutation_not_found id u now st :
  (Entry.findById id (incomes st) = None ->
   Income.update id u now st = (error 404 "Income not found!", st)
   /\ Income.delete id now st = (error 404 "Income not found!", st))
  /\ (Entry.findById id (expenses st) = None ->
      Expense.update id u now st = (error 404 "Expense not found!", st)
      /\ Expense.delete id now st = (error 404 "Expense not found!", st)).
Proof.
  split; intros Hnone.
  - unfold Income.update, Income.delete. now rewrite Hnone.
  - unfold Expense.update, Expense.delete. now rewrite Hnone.
Qed.

(** An entry created more than twelve hours ago is answered 403 and
    nothing changes: no entry, no balance. *)
Lemma mutation_forbidden id u now st e :
  Entry.createdAt e < now - twelveHours ->
  (Entry.findById id (incomes st) = Some e ->
   status (fst (Income.update id u now st)) = 403
   /\ snd (Income.update id u now st) = st
   /\ status (fst (Income.delete id now st)) = 403
   /\ snd (Income.delete id now st) = st)
  /\ (Entry.findById id (expenses st) = Some e ->
      status (fst (Expense.update id u now st)) = 403
      /\ snd (Expense.update id u now st) = st
      /\ status (fst (Expense.delete id now st)) = 403
      /\ snd (Expense.delete id now st) = st).
Proof.
  intros Hold. apply Z.ltb_lt in Hold.
  split; intros Hfind.
  - unfold Income.update, Income.delete. rewrite Hfind. cbv zeta. rewrite Hold.
    repeat apply conj; reflexivity.
  - unfold Expense.update, Expense.delete. rewrite Hfind. cbv zeta. rewrite Hold.
    repeat apply conj; reflexivity.
Qed.

(** An entry created at most twelve hours ago is deleted with status 200,
    and updated with status 200 when the update passes the validators. *)
Lemma mutation_allowed id u now st e :
  now - twelveHours <= Entry.createdAt e ->
  (Entry.findById id (incomes st) = Some e ->
   status (fst (Income.delete id now st)) = 200
   /\ incomes (snd (Income.delete id now st)) = Entry.deleteById id (incomes st)
   /\ forall e', Body.applyUpdate u now e = Some e' ->
        status (fst (Income.update id u now st)) = 200
        /\ incomes (snd (Income.update id u now st))
           = Entry.replaceById id e' (incomes st))
  /\ (Entry.findById id (expenses st) = Some e ->
      status (fst (Expense.delete id now st)) = 200
      /\ expenses (snd (Expense.delete id now st)) = Entry.deleteById id (expenses st)
      /\ forall e', Body.applyUpdate u now e = Some e' ->
           status (fst (Expense.update id u now st)) = 200
           /\ expenses (snd (Expense.update id u now st))
              = Entry.replaceById id e' (expenses st)).
Proof.
  intros Hwin. apply Z.ltb_ge in Hwin.
  split; intros Hfind.
  - unfold Income.update, Income.delete. rewrite Hfind. cbv zeta. rewrite Hwin.
    split; [reflexivity|]. split; [reflexivity|].
    intros e' ->. split; reflexivity.
  - unfold Expense.update, Expense.delete. rewrite Hfind. cbv zeta. rewrite Hwin.
    split; [reflexivity|]. split; [reflexivity|].
    intros e' ->. split; reflexivity.
Qed.

End EditWindow.

(** ** The category summary *)















(** A record counted under the name of an inherited property leaves the
    map as it is. *)
Lemma category_inherited m x :
  JSObject.inherited (category_of x) = true ->
  JSObject.own (category_of x) m = None ->
  Transactions.categoryCredit m x = m /\ Transactions.categoryDebit m x = m.
Proof.
  intros Hk Hown.
  unfold Transactions.categoryCredit, Transactions.categoryDebit, JSObject.get.
  cbv zeta. fold (category_of x). now rewrite Hown, Hk, Hown.
Qed.



(** * The statements on concrete inputs *)

(** C1.  The guard of the four mutation handlers is not the [canEdit] of
    the models.  For the sample income and the sample expense created
    exactly twelve hours before the request, [canEdit] (and the [canEdit]
    flag of the listing) is false, yet [DELETE /:id] answers 200, removes
    the entry and adjusts the balance of its account, and [PUT /:id]
    answers 200 and stores the update. *)
Theorem edit_window_boundary :
  Entry.createdAt SampleHost.old_income = SampleHost.noon - twelveHours
  /\ Entry.canEdit SampleHost.noon SampleHost.old_income = false
  /\ Transactions.canEditTransaction SampleHost.noon
       (Some (Entry.createdAt SampleHost.old_income)) = false
  /\ status (fst (Income.delete "i3" SampleHost.noon SampleHost.store)) = 200
  /\ Entry.findById "i3"
       (incomes (snd (Income.delete "i3" SampleHost.noon SampleHost.store))) = None
  /\ balanceOf SampleHost.owner "Cash"
       (accounts (snd (Income.delete "i3" SampleHost.noon SampleHost.store)))
     = Some 800
  /\ status (fst (Income.update "i3" SampleHost.body_update SampleHost.noon
                    SampleHost.store)) = 200
  /\ List.map Entry.amount
       (incomes (snd (Income.update "i3" SampleHost.body_update SampleHost.noon
                        SampleHost.store))) = [100; 50; 250]
  /\ Entry.canEdit SampleHost.noon SampleHost.old_expense = false
  /\ status (fst (Expense.delete "e2" SampleHost.noon SampleHost.store)) = 200
  /\ Entry.findById "e2"
       (expenses (snd (Expense.delete "e2" SampleHost.noon SampleHost.store))) = None
  /\ balanceOf SampleHost.owner "Cash"
       (accounts (snd (Expense.delete "e2" SampleHost.noon SampleHost.store)))
     = Some 1040
  /\ status (fst (Expense.update "e2" SampleHost.body_update SampleHost.noon
                    SampleHost.store)) = 200.
Proof. vm_compute. repeat split. Qed.

(** C9.  A category named as a member of [Object.prototype] is lost: for
    the single income of 100 in the category [constructor] and no expense,
    the overall balance is 100, but the category summary is empty, so the
    sum of its nets is 0 and the category has no net. *)
Theorem category_summary_drops_inherited :
  Txn.category (Transactions.formatIncome SampleHost.noon SampleHost.odd_income)
  = Some "constructor"
  /\ Transactions.sumAmount
       [Transactions.formatIncome SampleHost.noon SampleHost.odd_income]
     - Transactions.sumAmount [] = 100
  /\ Transactions.getCategorySummary
       [Transactions.formatIncome SampleHost.noon SampleHost.odd_income] [] = []
  /\ sum_nets
       (Transactions.getCategorySummary
          [Transactions.formatIncome SampleHost.noon SampleHost.odd_income] []) = 0.
Proof. vm_compute. repeat split. Qed.

(** The per-kind grouper of the income routes, on an income of March
    followed by one of January (the order of the listing it is called
    from), returns the groups in that order: they are not sorted.  And the
    combined bucketer, with the keyword [daily], on an income of the year
    10000 and one of the year -1, returns the buckets in the order of the
    collation, in which [-] comes before [+]: they are not in ascending
    order of the codes of the characters of their labels. *)
Lemma groupByPeriod_unsorted :
  (exists groups,
     Income.groupByPeriod (host := SampleHost.host)
       [SampleHost.salary; SampleHost.refund] "monthly" = Some groups
     /\ List.map Group.period groups = ["2024-03"; "2024-01"]
     /\ ~ Sorted (fun a b => String.leb (Group.period a) (Group.period b) = true)
            groups)
  /\ (exists buckets,
        Transactions.groupTransactionsByPeriod (host := SampleHost.host)
          [Transactions.formatIncome SampleHost.noon SampleData.far_future;
           Transactions.formatIncome SampleHost.noon SampleData.far_past] "daily"
        = Some buckets
        /\ List.map Bucket.period buckets = ["-000001-06-15"; "+010000-06-15"]
        /\ ~ Sorted (fun a b => String.leb (Bucket.period a) (Bucket.period b) = true)
               buckets).
Proof.
  split.
  - eexists. split; [vm_compute; reflexivity|]. split; [reflexivity|].
    intros H. inversion H as [|? ? _ Hhd]. inversion Hhd as [|? ? Hle].
    vm_compute in Hle. discriminate Hle.
  - eexists. split; [vm_compute; reflexivity|]. split; [reflexivity|].
    intros H. inversion H as [|? ? _ Hhd]. inversion Hhd as [|? ? Hle].
    vm_compute in Hle. discriminate Hle.
Qed.

(** The resolver at noon of 2024-03-15 on the first sample host: the
    weekly range, the yearly range and the fallback to the monthly range. *)
Lemma getDateRange_total_witness :
  Income.getDateRange (host := SampleHost.host) (Some "weekly") SampleHost.noon
  = (SampleHost.noon - 7 * msPerDay, SampleHost.noon)
  /\ localDate (host := SampleHost.host)
       (fst (Income.getDateRange (host := SampleHost.host) (Some "yearly")
               SampleHost.noon)) = (2024, 1, 1)
  /\ localDate (host := SampleHost.host)
       (snd (Income.getDateRange (host := SampleHost.host) (Some "yearly")
               SampleHost.noon)) = (2024, 12, 31)
  /\ Income.getDateRange (host := SampleHost.host) None SampleHost.noon
     = Income.getDateRange (host := SampleHost.host) (Some "monthly") SampleHost.noon.
Proof.
  destruct (getDateRange_total (host := SampleHost.host) (Some "weekly")
              SampleHost.noon) as (_ & _ & Hweek & _).
  destruct (Hweek eq_refl) as [_ Hsame].
  destruct (getDateRange_total (host := SampleHost.host) (Some "yearly")
              SampleHost.noon) as (_ & _ & _ & Hyear & _).
  destruct (Hyear eq_refl) as (_ & Hs & He); [vm_compute; reflexivity|].
  destruct (getDateRange_total (host := SampleHost.host) None SampleHost.noon)
    as (_ & _ & _ & _ & Hdefault & _).
  split; [apply Hsame; reflexivity|].
  split; [apply Hs; vm_compute; reflexivity|].
  split; [apply He; vm_compute; reflexivity|].
  apply Hdefault. intros p Hp. discriminate Hp.
Defined.

(** On the host with daylight saving, at noon of the 2nd of April 2024, two
    days after the clocks went forward, the weekly range does not start seven
    days before the reference instant: it starts an hour later, at noon of
    the 26th of March. *)
Lemma getDateRange_weekly_dst :
  Income.getDateRange (host := SampleZone.host) (Some "weekly") SampleZone.april_noon
  = (SampleZone.april_noon - 7 * msPerDay + msPerHour, SampleZone.april_noon)
  /\ Income.getDateRange (host := SampleZone.host) (Some "weekly")
       SampleZone.april_noon
     <> (SampleZone.april_noon - 7 * msPerDay, SampleZone.april_noon).
Proof.
  split; [vm_compute; reflexivity|].
  vm_compute. intros H. discriminate H.
Qed.

(** The keys of the sample income dated 2024-03-15. *)
Lemma periodKey_format_witness :
  periodKey (host := SampleHost.host) "monthly" (Entry.date SampleHost.salary)
  = "2024-03"
  /\ periodKey (host := SampleHost.host) "weekly" (Entry.date SampleHost.salary)
     = "2024-W03".
Proof.
  destruct (periodKey_format (host := SampleHost.host) "monthly"
              (Entry.date SampleHost.salary)) as (_ & _ & _ & _ & Hexample).
  - vm_compute. split; discriminate.
  - vm_compute. split; discriminate.
  - apply Hexample. vm_compute. reflexivity.
Defined.

(** The first sample host has an offset that never changes, and its
    collation orders the texts of digits, [-] and [W] as the codes of their
    characters do. *)
Lemma sample_steady : steady (host := SampleHost.host).
Proof. intros t isUTC t' isUTC'. reflexivity. Qed.

Lemma weight_compare x y :
  label_char x = true -> label_char y = true ->
  N.compare (SampleHost.weight x) (SampleHost.weight y)
  = N.compare (N_of_ascii x) (N_of_ascii y).
Proof.
  unfold label_char, SampleHost.weight. cbv zeta.
  generalize (N_of_ascii x) (N_of_ascii y). intros n m Hn Hm.
  assert (Hn' : (n = 45 \/ 48 <= n)%N).
  { apply orb_prop in Hn as [Hn|Hn]; [apply orb_prop in Hn as [Hn|Hn]|].
    - apply andb_prop in Hn as [Hn _]. apply N.leb_le in Hn. now right.
    - apply N.eqb_eq in Hn. now left.
    - apply N.eqb_eq in Hn. right. lia. }
  assert (Hm' : (m = 45 \/ 48 <= m)%N).
  { apply orb_prop in Hm as [Hm|Hm]; [apply orb_prop in Hm as [Hm|Hm]|].
    - apply andb_prop in Hm as [Hm _]. apply N.leb_le in Hm. now right.
    - apply N.eqb_eq in Hm. now left.
    - apply N.eqb_eq in Hm. right. lia. }
  clear Hn Hm.
  destruct Hn' as [->|Hn], Hm' as [->|Hm]; cbn [N.eqb Pos.eqb].
  - reflexivity.
  - rewrite (proj2 (N.eqb_neq m 45)), (proj2 (N.eqb_neq m 43)) by lia.
    rewrite (proj2 (N.compare_lt_iff 43 m)), (proj2 (N.compare_lt_iff 45 m)) by lia.
    reflexivity.
  - rewrite (proj2 (N.eqb_neq n 45)), (proj2 (N.eqb_neq n 43)) by lia.
    rewrite (proj2 (N.compare_gt_iff n 43)), (proj2 (N.compare_gt_iff n 45)) by lia.
    reflexivity.
  - rewrite (proj2 (N.eqb_neq n 45)), (proj2 (N.eqb_neq n 43)) by lia.
    rewrite (proj2 (N.eqb_neq m 45)), (proj2 (N.eqb_neq m 43)) by lia.
    reflexivity.
Qed.

Lemma sample_collates : collates_labels (host := SampleHost.host).
Proof.
  unfold collates_labels. cbn [localeCompare SampleHost.host].
  unfold String.leb.
  induction a as [|x a IH]; intros [|y b] Ha Hb;
    cbn [SampleHost.collate String.compare].
  - split; [reflexivity | lia].
  - split; [reflexivity | lia].
  - split; [lia | discriminate].
  - cbn [label_text] in Ha, Hb.
    apply andb_prop in Ha as [Hx Ha]. apply andb_prop in Hb as [Hy Hb].
    rewrite (weight_compare x y Hx Hy).
    unfold Ascii.compare.
    destruct (N.compare (N_of_ascii x) (N_of_ascii y)) eqn:E.
    + apply IH; assumption.
    + split; [reflexivity | lia].
    + split; [lia | discriminate].
Qed.

(** The monthly buckets of the sample records come in ascending order of
    their labels, and the monthly groups of the two sample incomes in the
    order of first appearance. *)
Lemma period_buckets_sorted_witness :
  (exists buckets,
     Transactions.groupTransactionsByPeriod (host := SampleHost.host)
       (SampleData.typed_incomes ++ SampleData.typed_expenses) "monthly"
     = Some buckets
     /\ Sorted (fun a b => String.leb (Bucket.period a) (Bucket.period b) = true)
          buckets)
  /\ exists groups,
       Income.groupByPeriod (host := SampleHost.host)
         [SampleHost.salary; SampleHost.refund] "monthly" = Some groups
       /\ List.map Group.period groups
          = first_seen
              (List.map (fun e => periodKey (host := SampleHost.host) "monthly"
                                    (Entry.date e))
                 [SampleHost.salary; SampleHost.refund]).
Proof.
  destruct (period_buckets_sorted (host := SampleHost.host)
              (SampleData.typed_incomes ++ SampleData.typed_expenses) "monthly")
    as ((buckets & E & _ & Hsorted) & Hincome & _).
  split.
  - exists buckets. split; [exact E|].
    apply Hsorted; [exact sample_collates|].
    repeat (constructor; [vm_compute; intros H; discriminate H|]). constructor.
  - apply Hincome. left. reflexivity.
Defined.


(** A transfer of 300 from Cash (1000) to Bank (500), the names written
    with white space around them. *)
Lemma transfer_moves_funds_witness :
  let after :=
    accounts (snd (Expense.transfer (host := SampleHost.host)
                     SampleData.body_transfer_spaced "t1" SampleHost.noon
                     SampleHost.store)) in
  status (fst (Expense.transfer (host := SampleHost.host)
                 SampleData.body_transfer_spaced "t1" SampleHost.noon
                 SampleHost.store)) = 201
  /\ balanceOf SampleHost.owner "Cash" after = Some (1000 - 300)
  /\ balanceOf SampleHost.owner "Bank" after = Some (500 + 300).
Proof.
  intros after.
  destruct (transfer_moves_funds (host := SampleHost.host)
              SampleData.body_transfer_spaced
              "t1" SampleHost.noon SampleHost.store SampleHost.owner " Cash" "Bank  "
              "2024-03-15" 300 1710460800000)
    as (Hstatus & _ & _ & _ & Hbalances & _);
    try reflexivity; try lia.
  destruct (Hbalances (SampleHost.account 1000) (SampleHost.account 500))
    as [Hx Hy]; [discriminate | vm_compute; reflexivity | vm_compute; reflexivity |].
  split; [exact Hstatus|]. split; [exact Hx | exact Hy].
Defined.

(** The sample creation request without account, on the sample store: both
    routes save it under [Cash] and change no account. *)
Lemma creation_without_account_witness :
  accounts (snd (Income.add (host := SampleHost.host) SampleHost.body_no_account
                   "n1" SampleHost.noon SampleHost.store))
  = accounts SampleHost.store
  /\ accounts (snd (Expense.minus (host := SampleHost.host)
                      SampleHost.body_no_account "n1" SampleHost.noon
                      SampleHost.store))
     = accounts SampleHost.store
  /\ (exists saved,
        document (fst (Income.add (host := SampleHost.host)
                         SampleHost.body_no_account "n1" SampleHost.noon
                         SampleHost.store)) = Some saved
        /\ status (fst (Income.add (host := SampleHost.host)
                          SampleHost.body_no_account "n1" SampleHost.noon
                          SampleHost.store)) = 201
        /\ Entry.account saved = "Cash")
  /\ (exists saved,
        document (fst (Expense.minus (host := SampleHost.host)
                         SampleHost.body_no_account "n1" SampleHost.noon
                         SampleHost.store)) = Some saved
        /\ status (fst (Expense.minus (host := SampleHost.host)
                          SampleHost.body_no_account "n1" SampleHost.noon
                          SampleHost.store)) = 201
        /\ Entry.account saved = "Cash"
        /\ expenses (snd (Expense.minus (host := SampleHost.host)
                            SampleHost.body_no_account "n1" SampleHost.noon
                            SampleHost.store))
           = (expenses SampleHost.store ++ [saved])%list).
Proof.
  destruct (creation_without_account (host := SampleHost.host)
              SampleHost.body_no_account "n1" SampleHost.noon SampleHost.store)
    as ((Hadd & Hsaved) & (Hminus & Hsaved') & Hsave & _); [reflexivity|].
  assert (Hacc : acceptable (host := SampleHost.host) SampleHost.body_no_account).
  { split; [exists 100; split; [reflexivity | lia]|].
    split; [vm_compute; discriminate|].
    split; [reflexivity|]. split; [reflexivity|]. split; [reflexivity|].
    split; [right; reflexivity | reflexivity]. }
  destruct (Hsave eq_refl Hacc) as [[saved Ei] [saved' Ee]].
  split; [exact Hadd|]. split; [exact Hminus|]. split.
  - exists saved. split; [exact Ei|].
    destruct (Hsaved saved Ei) as (Hst & Hcash & _). split; [exact Hst | exact Hcash].
  - exists saved'. split; [exact Ee|].
    destruct (Hsaved' saved' Ee) as (Hst & Hcash & Hexp).
    split; [exact Hst|]. split; [exact Hcash | exact Hexp].
Defined.

(** * Further properties of the handlers *)

(** ** Lookups, deletions and balances *)

Lemma findById_snoc id c e :
  Entry.findById id c = None -> Entry._id e = id ->
  Entry.findById id (c ++ [e]) = Some e.
Proof.
  unfold Entry.findById. intros Hnone Hid.
  induction c as [|x c IH]; cbn [app List.find] in *.
  - rewrite Hid, String.eqb_refl. reflexivity.
  - destruct (String.eqb (Entry._id x) id); [discriminate|]. now apply IH.
Qed.

Lemma deleteById_snoc id c e :
  Entry.findById id c = None -> Entry._id e = id ->
  Entry.deleteById id (c ++ [e]) = c.
Proof.
  unfold Entry.findById. intros Hnone Hid.
  induction c as [|x c IH]; cbn [app List.find Entry.deleteById] in *.
  - now rewrite Hid, String.eqb_refl.
  - destruct (String.eqb (Entry._id x) id); [discriminate|]. f_equal. now apply IH.
Qed.

Lemma findById_deleteById_ne id id' c :
  id' <> id -> Entry.findById id' (Entry.deleteById id c) = Entry.findById id' c.
Proof.
  intros Hne. unfold Entry.findById.
  induction c as [|x c IH]; cbn [Entry.deleteById List.find]; [reflexivity|].
  destruct (String.eqb (Entry._id x) id) eqn:E.
  - apply String.eqb_eq in E.
    destruct (String.eqb (Entry._id x) id') eqn:E'; [|reflexivity].
    apply String.eqb_eq in E'. congruence.
  - cbn [List.find]. now rewrite IH.
Qed.

Lemma findById_None_iff id c :
  Entry.findById id c = None <-> ~ List.In id (List.map Entry._id c).
Proof.
  unfold Entry.findById.
  induction c as [|x c IH]; cbn [List.find List.map List.In]; [tauto|].
  destruct (String.eqb (Entry._id x) id) eqn:E.
  - apply String.eqb_eq in E. split; [discriminate|]. tauto.
  - apply String.eqb_neq in E. tauto.
Qed.

Lemma findById_deleteById_eq id c :
  List.NoDup (List.map Entry._id c) ->
  Entry.findById id (Entry.deleteById id c) = None.
Proof.
  intros Hnd.
  induction c as [|x c IH]; cbn [Entry.deleteById]; [reflexivity|].
  cbn [List.map] in Hnd. inversion Hnd as [|? ? Hx Hc]; subst.
  destruct (String.eqb (Entry._id x) id) eqn:E.
  - apply String.eqb_eq in E. subst id. now apply findById_None_iff.
  - unfold Entry.findById. cbn [List.find]. rewrite E. now apply IH.
Qed.

Lemma findById_replaceById id e e' c :
  Entry.findById id c = Some e -> Entry._id e' = id ->
  Entry.findById id (Entry.replaceById id e' c) = Some e'.
Proof.
  unfold Entry.findById. intros Hf Hid.
  induction c as [|x c IH]; cbn [Entry.replaceById List.find] in *; [discriminate|].
  destruct (String.eqb (Entry._id x) id) eqn:E.
  - cbn [List.find]. rewrite Hid, String.eqb_refl. reflexivity.
  - cbn [List.find]. rewrite E. now apply IH.
Qed.

Lemma deleteById_replaceById id e' c :
  Entry._id e' = id ->
  Entry.deleteById id (Entry.replaceById id e' c) = Entry.deleteById id c.
Proof.
  intros Hid.
  induction c as [|x c IH]; cbn [Entry.replaceById Entry.deleteById]; [reflexivity|].
  destruct (String.eqb (Entry._id x) id) eqn:E.
  - cbn [Entry.deleteById]. now rewrite Hid, String.eqb_refl.
  - cbn [Entry.deleteById]. rewrite E. now rewrite IH.
Qed.

Lemma Forall_deleteById (P : Entry.t -> Prop) id c :
  Forall P c -> Forall P (Entry.deleteById id c).
Proof.
  induction 1 as [|x c Hx Hc IH]; cbn [Entry.deleteById]; [constructor|].
  destruct (String.eqb (Entry._id x) id); [exact Hc|]. now constructor.
Qed.

Lemma Forall_replaceById (P : Entry.t -> Prop) id e' c :
  P e' -> Forall P c -> Forall P (Entry.replaceById id e' c).
Proof.
  intros He'. induction 1 as [|x c Hx Hc IH]; cbn [Entry.replaceById]; [constructor|].
  destruct (String.eqb (Entry._id x) id); now constructor.
Qed.

Lemma required_text_trim v old :
  Body.required_text (option_map JSString.trim v) = true ->
  JS.truthy old = true ->
  JS.truthy (default old (option_map JSString.trim v)) = true.
Proof. destruct v as [x|]; cbn; auto. Qed.

(** What an accepted update keeps, and what it sets when the body has no
    operator. *)
Lemma applyUpdate_Some u now e e' :
  Body.applyUpdate u now e = Some e' ->
  Entry._id e' = Entry._id e /\ Entry.createdAt e' = Entry.createdAt e
  /\ (Body.u_operators u = None ->
      (Entry.valid e = true -> Entry.valid e' = true)
      /\ Entry.email e' = default (Entry.email e) (Body.u_email u)
      /\ Entry.amount e' = default (Entry.amount e) (Body.u_amount u)
      /\ Entry.account e'
         = default (Entry.account e) (option_map JSString.trim (Body.u_account u))).
Proof.
  unfold Body.applyUpdate. cbv zeta.
  destruct (Body.validators u) eqn:E; [|discriminate].
  intros [= <-]. split; [reflexivity|]. split; [reflexivity|].
  intros ->. split; [|repeat apply conj; reflexivity].
  unfold Entry.valid, Body.validators in *.
  cbn [Entry.email Entry.source Entry.amount Entry.paymentMethod Entry.time
       Entry.division Entry.account].
  rewrite !andb_true_iff in *.
  intros ((((((V1 & V2) & V3) & V4) & V5) & V6) & V7).
  destruct E as ((((((E1 & E2) & E3) & E4) & E5) & E6) & E7).
  repeat apply conj.
  - destruct (Body.u_email u); assumption.
  - now apply required_text_trim.
  - destruct (Body.u_amount u); assumption.
  - now apply required_text_trim.
  - now apply required_text_trim.
  - destruct (Body.u_division u); assumption.
  - now apply required_text_trim.
Qed.

(** The accounts changed through a name and through the trimmed name are
    the same. *)
Lemma incBalance_trim email name delta m :
  incBalance email (JSString.trim name) delta m = incBalance email name delta m.
Proof. unfold incBalance. now rewrite trim_fixed. Qed.

Lemma ledger_frame_refl owner m : ledger_frame owner m m.
Proof.
  intros k. destruct (m !! k); [|exact I].
  split; [repeat apply conj; reflexivity | reflexivity].
Qed.

Lemma ledger_frame_trans owner m1 m2 m3 :
  ledger_frame owner m1 m2 -> ledger_frame owner m2 m3 -> ledger_frame owner m1 m3.
Proof.
  intros H12 H23 k. specialize (H12 k). specialize (H23 k).
  destruct (m1 !! k) as [a1|], (m2 !! k) as [a2|], (m3 !! k) as [a3|];
    try contradiction; try exact I.
  destruct H12 as [(T1 & C1 & A1) E1], H23 as [(T2 & C2 & A2) E2].
  split; [repeat apply conj; congruence|].
  intros Hk. rewrite (E2 Hk). exact (E1 Hk).
Qed.

Lemma ledger_frame_inc owner name d m :
  ledger_frame owner m (incBalance owner name d m).
Proof.
  intros k. unfold incBalance. generalize (JSString.trim name). clear name.
  intros name.
  destruct (decide ((owner, name) = k)) as [<-|Hne].
  - rewrite lookup_alter_eq. destruct (m !! (owner, name)) as [a|]; cbn; [|exact I].
    split; [repeat apply conj; reflexivity|]. intros H. now contradiction H.
  - rewrite lookup_alter_ne by exact Hne.
    destruct (m !! k); [|exact I].
    split; [repeat apply conj; reflexivity | reflexivity].
Qed.

(** ** Requests one after the other *)

Section Requests.
Context {host : Host}.

(** The outcome of a creation request that is answered 201. *)
Lemma add_created body oid now st :
  status (fst (Income.add body oid now st)) = 201 ->
  exists amount date saved,
    Body.parseFloat (Body.amount body) = Some amount
    /\ Date_parse (Body.text (Body.date body)) = Some date
    /\ Entry.valid saved = true
    /\ Entry._id saved = oid
    /\ Entry.email saved = Body.text (Body.email body)
    /\ Entry.amount saved = amount
    /\ Entry.account saved = JSString.trim (JS.or_default (Body.account body) "Cash")
    /\ Entry.createdAt saved = now
    /\ Income.add body oid now st
       = ({| status := 201; text := "Income added successfully!";
             document := Some saved |},
          {| incomes := incomes st ++ [saved];
             expenses := expenses st;
             accounts :=
               if JS.truthy_opt (Body.account body)
               then incBalance (Body.text (Body.email body))
                      (Body.text (Body.account body)) amount (accounts st)
               else accounts st |}).
Proof.
  unfold Income.add.
  required_fields; [discriminate|].
  destruct (Body.parseFloat (Body.amount body)) as [amount|]; [|discriminate].
  destruct (Date_parse (Body.text (Body.date body))) as [date|]; [|discriminate].
  destruct (Entry.save _) as [saved|] eqn:Es; [|discriminate].
  intros _. apply save_Some in Es as [Ec Hv].
  exists amount, date, saved.
  split; [reflexivity|]. split; [reflexivity|]. split; [exact Hv|].
  rewrite Ec. repeat apply conj; reflexivity.
Qed.

Lemma minus_created body oid now st :
  status (fst (Expense.minus body oid now st)) = 201 ->
  exists amount date saved,
    Body.parseFloat (Body.amount body) = Some amount
    /\ Date_parse (Body.text (Body.date body)) = Some date
    /\ Entry.valid saved = true
    /\ Entry._id saved = oid
    /\ Entry.email saved = Body.text (Body.email body)
    /\ Entry.amount saved = amount
    /\ Entry.account saved = JSString.trim (JS.or_default (Body.account body) "Cash")
    /\ Entry.createdAt saved = now
    /\ Expense.minus body oid now st
       = ({| status := 201; text := "Expense added successfully!";
             document := Some saved |},
          {| incomes := incomes st;
             expenses := expenses st ++ [saved];
             accounts :=
               if JS.truthy_opt (Body.account body)
               then incBalance (Body.text (Body.email body))
                      (Body.text (Body.account body)) (- amount) (accounts st)
               else accounts st |}).
Proof.
  unfold Expense.minus.
  required_fields; [discriminate|].
  destruct (Body.parseFloat (Body.amount body)) as [amount|]; [|discriminate].
  destruct (Date_parse (Body.text (Body.date body))) as [date|]; [|discriminate].
  destruct (Entry.save _) as [saved|] eqn:Es; [|discriminate].
  intros _. apply save_Some in Es as [Ec Hv].
  exists amount, date, saved.
  split; [reflexivity|]. split; [reflexivity|]. split; [exact Hv|].
  rewrite Ec. repeat apply conj; reflexivity.
Qed.

Lemma transfer_created body oid now st :
  status (fst (Expense.transfer body oid now st)) = 201 ->
  exists amount date saved,
    Body.parseFloat (Body.t_amount body) = Some amount
    /\ Date_parse (Body.text (Body.t_date body)) = Some date
    /\ Entry.valid saved = true
    /\ Entry._id saved = oid
    /\ Entry.email saved = Body.text (Body.t_email body)
    /\ Entry.amount saved = amount
    /\ Entry.account saved = JSString.trim (Body.text (Body.fromAccount body))
    /\ Entry.createdAt saved = now
    /\ Entry.isTransfer saved = true
    /\ Expense.transfer body oid now st
       = ({| status := 201; text := "Transfer completed successfully!";
             document := Some saved |},
          {| incomes := incomes st;
             expenses := expenses st ++ [saved];
             accounts :=
               incBalance (Body.text (Body.t_email body))
                 (Body.text (Body.toAccount body)) amount
                 (incBalance (Body.text (Body.t_email body))
                    (Body.text (Body.fromAccount body)) (- amount) (accounts st)) |}).
Proof.
  unfold Expense.transfer.
  destruct (JS.truthy_opt (Body.t_email body)); [|discriminate].
  destruct (JS.truthy_opt (Body.fromAccount body)) eqn:Hx; [|discriminate].
  destruct (JS.truthy_opt (Body.toAccount body)) eqn:Hy; [|discriminate].
  destruct (Body.amount_truthy (Body.t_amount body)); [|discriminate].
  destruct (JS.truthy_opt (Body.t_date body)); [|discriminate].
  cbn [negb orb]. cbv zeta.
  destruct (Body.parseFloat (Body.t_amount body)) as [amount|]; [|discriminate].
  destruct (Date_parse (Body.text (Body.t_date body))) as [date|]; [|discriminate].
  destruct (Entry.save _) as [saved|] eqn:Es; [|discriminate].
  intros _. apply save_Some in Es as [Ec Hv].
  assert (Hx' : JS.truthy (Body.text (Body.fromAccount body)) = true).
  { destruct (Body.fromAccount body); [exact Hx|discriminate]. }
  assert (Hy' : JS.truthy (Body.text (Body.toAccount body)) = true).
  { destruct (Body.toAccount body); [exact Hy|discriminate]. }
  rewrite Hx', Hy'. cbn [andb].
  exists amount, date, saved.
  split; [reflexivity|]. split; [reflexivity|]. split; [exact Hv|].
  rewrite Ec. repeat apply conj; reflexivity.
Qed.

Lemma delete_income_found id now st e :
  Entry.findById id (incomes st) = Some e ->
  now - twelveHours <= Entry.createdAt e ->
  Entry.valid e = true ->
  Income.delete id now st
  = ({| status := 200; text := "Income deleted successfully!"; document := None |},
     {| incomes := Entry.deleteById id (incomes st);
        expenses := expenses st;
        accounts := incBalance (Entry.email e) (Entry.account e) (- Entry.amount e)
                      (accounts st) |}).
Proof.
  intros Hf Hw Hv. unfold Income.delete. rewrite Hf. cbv zeta.
  replace (Entry.createdAt e <? now - twelveHours) with false
    by (symmetry; apply Z.ltb_ge; lia).
  now rewrite (valid_account e Hv).
Qed.

Lemma delete_expense_found id now st e :
  Entry.findById id (expenses st) = Some e ->
  now - twelveHours <= Entry.createdAt e ->
  Entry.valid e = true ->
  Expense.delete id now st
  = ({| status := 200; text := "Expense deleted successfully!"; document := None |},
     {| incomes := incomes st;
        expenses := Entry.deleteById id (expenses st);
        accounts := incBalance (Entry.email e) (Entry.account e) (Entry.amount e)
                      (accounts st) |}).
Proof.
  intros Hf Hw Hv. unfold Expense.delete. rewrite Hf. cbv zeta.
  replace (Entry.createdAt e <? now - twelveHours) with false
    by (symmetry; apply Z.ltb_ge; lia).
  now rewrite (valid_account e Hv).
Qed.

(** A creation request that is not answered 201 changes nothing. *)
Lemma creation_rejected (st : Store) (now : Z) :
  (forall body oid,
     status (fst (Income.add body oid now st)) <> 201 ->
     snd (Income.add body oid now st) = st)
  /\ (forall body oid,
        status (fst (Expense.minus body oid now st)) <> 201 ->
        snd (Expense.minus body oid now st) = st)
  /\ (forall body oid,
        status (fst (Expense.transfer body oid now st)) <> 201 ->
        snd (Expense.transfer body oid now st) = st).
Proof.
  repeat apply conj.
  - intros body oid. unfold Income.add.
    required_fields; [reflexivity|].
    destruct (Body.parseFloat (Body.amount body)),
      (Date_parse (Body.text (Body.date body))); try reflexivity.
    destruct (Entry.save _); [|reflexivity].
    intros H. now contradiction H.
  - intros body oid. unfold Expense.minus.
    required_fields; [reflexivity|].
    destruct (Body.parseFloat (Body.amount body)),
      (Date_parse (Body.text (Body.date body))); try reflexivity.
    destruct (Entry.save _); [|reflexivity].
    intros H. now contradiction H.
  - intros body oid. unfold Expense.transfer.
    required_fields; [reflexivity|]. cbv zeta.
    destruct (Body.parseFloat (Body.t_amount body)),
      (Date_parse (Body.text (Body.t_date body))); try reflexivity.
    destruct (Entry.save _); [|reflexivity].
    intros H. now contradiction H.
Qed.

(** X1.  A request that is not answered with its success status changes
    nothing: for the three creation routes a status other than 201, and for
    the four mutation routes a status other than 200, leaves the incomes,
    the expenses and the accounts as they were. *)
Theorem rejected_request_keeps_store (st : Store) (now : Z) :
  (forall body oid,
     status (fst (Income.add body oid now st)) <> 201 ->
     snd (Income.add body oid now st) = st)
  /\ (forall body oid,
        status (fst (Expense.minus body oid now st)) <> 201 ->
        snd (Expense.minus body oid now st) = st)
  /\ (forall body oid,
        status (fst (Expense.transfer body oid now st)) <> 201 ->
        snd (Expense.transfer body oid now st) = st)
  /\ (forall id u,
        status (fst (Income.update id u now st)) <> 200 ->
        snd (Income.update id u now st) = st)
  /\ (forall id u,
        status (fst (Expense.update id u now st)) <> 200 ->
        snd (Expense.update id u now st) = st)
  /\ (forall id,
        status (fst (Income.delete id now st)) <> 200 ->
        snd (Income.delete id now st) = st)
  /\ (forall id,
        status (fst (Expense.delete id now st)) <> 200 ->
        snd (Expense.delete id now st) = st).
Proof.
  destruct (creation_rejected st now) as (Hadd & Hminus & Htransfer).
  split; [exact Hadd|]. split; [exact Hminus|]. split; [exact Htransfer|].
  repeat apply conj.
  - intros id u. unfold Income.update.
    destruct (Entry.findById id (incomes st)); [|reflexivity]. cbv zeta.
    destruct (_ <? _); [reflexivity|].
    destruct (Body.applyUpdate _ _ _); [|reflexivity].
    intros H. now contradiction H.
  - intros id u. unfold Expense.update.
    destruct (Entry.findById id (expenses st)); [|reflexivity]. cbv zeta.
    destruct (_ <? _); [reflexivity|].
    destruct (Body.applyUpdate _ _ _); [|reflexivity].
    intros H. now contradiction H.
  - intros id. unfold Income.delete.
    destruct (Entry.findById id (incomes st)); [|reflexivity]. cbv zeta.
    destruct (_ <? _); [reflexivity|].
    intros H. now contradiction H.
  - intros id. unfold Expense.delete.
    destruct (Entry.findById id (expenses st)); [|reflexivity]. cbv zeta.
    destruct (_ <? _); [reflexivity|].
    intros H. now contradiction H.
Qed.

Lemma or_default_truthy a b : JS.truthy a = true -> JS.or_default (Some a) b = a.
Proof. unfold JS.or_default. now intros ->. Qed.

(** X2.  Creating an entry on an account named in the request and
    deleting it within twelve hours: the deletion is answered 200, the
    incomes and the expenses are those of before the creation, and the
    accounts are those of before the creation after two updates of the
    account of the trimmed name, the first by the amount and the second by its
    opposite for an income ([POST /add], [DELETE /:id]), the first by the
    opposite of the amount and the second by the amount for an expense
    ([POST /minus], [DELETE /:id]).  No other account is changed. *)
Theorem add_then_delete_accounts (body : Body.entry) (oid : string)
  (now now' : Z) (st : Store) (a : string) (amount : Z) :
  Body.account body = Some a -> JS.truthy a = true ->
  Body.parseFloat (Body.amount body) = Some amount ->
  now' - twelveHours <= now ->
  let email := Body.text (Body.email body) in
  (Entry.findById oid (incomes st) = None ->
   status (fst (Income.add body oid now st)) = 201 ->
   Income.delete oid now' (snd (Income.add body oid now st))
   = ({| status := 200; text := "Income deleted successfully!"; document := None |},
      {| incomes := incomes st;
         expenses := expenses st;
         accounts := incBalance email a (- amount)
                       (incBalance email a amount (accounts st)) |}))
  /\ (Entry.findById oid (expenses st) = None ->
      status (fst (Expense.minus body oid now st)) = 201 ->
      Expense.delete oid now' (snd (Expense.minus body oid now st))
      = ({| status := 200; text := "Expense deleted successfully!"; document := None |},
         {| incomes := incomes st;
            expenses := expenses st;
            accounts := incBalance email a amount
                          (incBalance email a (- amount) (accounts st)) |}))
  /\ (forall d1 d2 k,
        k <> (email, JSString.trim a) ->
        incBalance email a d2 (incBalance email a d1 (accounts st)) !! k
        = accounts st !! k)
  /\ (forall d1 d2 acc,
        accounts st !! (email, JSString.trim a) = Some acc ->
        balanceOf email (JSString.trim a)
          (incBalance email a d2 (incBalance email a d1 (accounts st)))
        = Some (Account.balance acc + d1 + d2)).
Proof.
  intros Ha Hta Hamt Hw email.
  split; [|split; [|split]].
  - intros Hfresh Hok.
    destruct (add_created body oid now st Hok)
      as (amount' & date & saved & Ha' & _ & Hv & Hid & Hem & Ham & Hac & Hcr & ->).
    rewrite Hamt in Ha'. injection Ha' as <-.
    cbn [snd].
    rewrite (delete_income_found oid now' _ saved); cbn [incomes expenses accounts].
    + rewrite (deleteById_snoc _ _ _ Hfresh Hid).
      rewrite Ha in *. cbn [JS.truthy_opt Body.text default from_option id]. rewrite Hta.
      rewrite Hem, Hac, Ham, (or_default_truthy a "Cash" Hta), incBalance_trim.
      reflexivity.
    + now apply findById_snoc.
    + lia.
    + exact Hv.
  - intros Hfresh Hok.
    destruct (minus_created body oid now st Hok)
      as (amount' & date & saved & Ha' & _ & Hv & Hid & Hem & Ham & Hac & Hcr & ->).
    rewrite Hamt in Ha'. injection Ha' as <-.
    cbn [snd].
    rewrite (delete_expense_found oid now' _ saved); cbn [incomes expenses accounts].
    + rewrite (deleteById_snoc _ _ _ Hfresh Hid).
      rewrite Ha in *. cbn [JS.truthy_opt Body.text default from_option id]. rewrite Hta.
      rewrite Hem, Hac, Ham, (or_default_truthy a "Cash" Hta), incBalance_trim.
      reflexivity.
    + now apply findById_snoc.
    + lia.
    + exact Hv.
  - intros d1 d2 k Hk. unfold incBalance.
    now rewrite !lookup_alter_ne by congruence.
  - intros d1 d2 acc Hacc. unfold balanceOf, incBalance.
    rewrite !lookup_alter_eq, Hacc. reflexivity.
Qed.

(** X3.  A creation request without [account] adjusts no balance, but it
    stores the entry under [Cash], and the deletion of that entry within
    twelve hours adjusts [Cash].  After the two requests the entries are as
    before, and the [Cash] account of the owner, when there is one, has
    lost the amount for an income and gained it for an expense. *)
Theorem unnamed_account_drift (body : Body.entry) (oid : string)
  (now now' : Z) (st : Store) (amount : Z) :
  JS.truthy_opt (Body.account body) = false ->
  Body.parseFloat (Body.amount body) = Some amount ->
  now' - twelveHours <= now ->
  (Entry.findById oid (incomes st) = None ->
   status (fst (Income.add body oid now st)) = 201 ->
   Income.delete oid now' (snd (Income.add body oid now st))
   = ({| status := 200; text := "Income deleted successfully!"; document := None |},
      {| incomes := incomes st;
         expenses := expenses st;
         accounts := incBalance (Body.text (Body.email body)) "Cash" (- amount)
                       (accounts st) |}))
  /\ (Entry.findById oid (expenses st) = None ->
      status (fst (Expense.minus body oid now st)) = 201 ->
      Expense.delete oid now' (snd (Expense.minus body oid now st))
      = ({| status := 200; text := "Expense deleted successfully!"; document := None |},
         {| incomes := incomes st;
            expenses := expenses st;
            accounts := incBalance (Body.text (Body.email body)) "Cash" amount
                          (accounts st) |})).
Proof.
  intros Hacc Hamt Hw. split; intros Hfresh Hok.
  - destruct (add_created body oid now st Hok)
      as (amount' & date & saved & Ha' & _ & Hv & Hid & Hem & Ham & Hac & Hcr & ->).
    rewrite Hamt in Ha'. injection Ha' as <-.
    cbn [snd].
    rewrite (delete_income_found oid now' _ saved); cbn [incomes expenses accounts].
    + rewrite (deleteById_snoc _ _ _ Hfresh Hid).
      rewrite Hacc, Hem, Hac, Ham, (or_default_falsy _ _ Hacc). reflexivity.
    + now apply findById_snoc.
    + lia.
    + exact Hv.
  - destruct (minus_created body oid now st Hok)
      as (amount' & date & saved & Ha' & _ & Hv & Hid & Hem & Ham & Hac & Hcr & ->).
    rewrite Hamt in Ha'. injection Ha' as <-.
    cbn [snd].
    rewrite (delete_expense_found oid now' _ saved); cbn [incomes expenses accounts].
    + rewrite (deleteById_snoc _ _ _ Hfresh Hid).
      rewrite Hacc, Hem, Hac, Ham, (or_default_falsy _ _ Hacc). reflexivity.
    + now apply findById_snoc.
    + lia.
    + exact Hv.
Qed.

(** X4.  Deleting the expense recorded by a transfer, within twelve hours,
    gives the amount back to the source account and leaves the destination
    account with what it received.  After a transfer answered 201 and the
    deletion of its document, the incomes and the expenses are as before the
    transfer, and the accounts are those of before the transfer after three
    updates: the source by the opposite of the amount, the destination by
    the amount, and the source by the amount, each account being the one of
    the trimmed name.  So a destination other than the source, when the
    owner has it, ends at its balance plus the amount. *)
Theorem transfer_then_delete (body : Body.transfer) (oid : string)
  (now now' : Z) (st : Store) (A : Z) :
  Body.parseFloat (Body.t_amount body) = Some A ->
  Entry.findById oid (expenses st) = None ->
  now' - twelveHours <= now ->
  status (fst (Expense.transfer body oid now st)) = 201 ->
  let email := Body.text (Body.t_email body) in
  let X := Body.text (Body.fromAccount body) in
  let Y := Body.text (Body.toAccount body) in
  let after :=
    incBalance email X A
      (incBalance email Y A (incBalance email X (- A) (accounts st))) in
  Expense.delete oid now' (snd (Expense.transfer body oid now st))
  = ({| status := 200; text := "Expense deleted successfully!"; document := None |},
     {| incomes := incomes st; expenses := expenses st; accounts := after |})
  /\ (forall ay,
        JSString.trim X <> JSString.trim Y ->
        accounts st !! (email, JSString.trim Y) = Some ay ->
        balanceOf email (JSString.trim Y) after = Some (Account.balance ay + A))
  /\ (forall k,
        k <> (email, JSString.trim X) -> k <> (email, JSString.trim Y) ->
        after !! k = accounts st !! k).
Proof.
  intros Hamt Hfresh Hw Hok email X Y after.
  destruct (transfer_created body oid now st Hok)
    as (amount' & date & saved & Ha' & _ & Hv & Hid & Hem & Ham & Hac & Hcr & _ & ->).
  rewrite Hamt in Ha'. injection Ha' as <-.
  cbn [snd].
  split; [|split].
  - rewrite (delete_expense_found oid now' _ saved); cbn [incomes expenses accounts].
    + rewrite (deleteById_snoc _ _ _ Hfresh Hid).
      rewrite Hem, Hac, Ham, incBalance_trim. reflexivity.
    + now apply findById_snoc.
    + lia.
    + exact Hv.
  - intros ay Hne Hay. unfold after, balanceOf, incBalance.
    rewrite lookup_alter_ne by congruence.
    rewrite lookup_alter_eq.
    rewrite lookup_alter_ne by congruence.
    rewrite Hay. reflexivity.
  - intros k Hx Hy. unfold after, incBalance.
    now rewrite !lookup_alter_ne by congruence.
Qed.

(** X5.  When the identifiers of a collection are distinct, a deletion
    within the edit window is answered 200 and removes the document: the
    identifier is not found any more, every other identifier finds what it
    found before, the other collection is untouched, and a second deletion
    of the identifier is answered 404 and changes nothing. *)
Theorem deleted_entry_is_gone (id : string) (now : Z) (st : Store) (e : Entry.t) :
  now - twelveHours <= Entry.createdAt e ->
  (List.NoDup (List.map Entry._id (incomes st)) ->
   Entry.findById id (incomes st) = Some e ->
   let st' := snd (Income.delete id now st) in
   status (fst (Income.delete id now st)) = 200
   /\ Entry.findById id (incomes st') = None
   /\ (forall id', id' <> id ->
         Entry.findById id' (incomes st') = Entry.findById id' (incomes st))
   /\ expenses st' = expenses st
   /\ forall now', Income.delete id now' st' = (error 404 "Income not found!", st'))
  /\ (List.NoDup (List.map Entry._id (expenses st)) ->
      Entry.findById id (expenses st) = Some e ->
      let st' := snd (Expense.delete id now st) in
      status (fst (Expense.delete id now st)) = 200
      /\ Entry.findById id (expenses st') = None
      /\ (forall id', id' <> id ->
            Entry.findById id' (expenses st') = Entry.findById id' (expenses st))
      /\ incomes st' = incomes st
      /\ forall now', Expense.delete id now' st' = (error 404 "Expense not found!", st')).
Proof.
  intros Hw. apply Z.ltb_ge in Hw.
  split; intros Hnd Hf st'.
  - assert (E : Income.delete id now st
                = (fst (Income.delete id now st),
                   {| incomes := Entry.deleteById id (incomes st);
                      expenses := expenses st;
                      accounts := accounts st' |})
                /\ status (fst (Income.delete id now st)) = 200).
    { subst st'. unfold Income.delete. rewrite Hf. cbv zeta. rewrite Hw.
      split; reflexivity. }
    destruct E as [E Hs].
    assert (Hst : incomes st' = Entry.deleteById id (incomes st)
                  /\ expenses st' = expenses st).
    { subst st'. rewrite E. split; reflexivity. }
    destruct Hst as [Hi He].
    assert (Hgone : Entry.findById id (incomes st') = None).
    { rewrite Hi. now apply findById_deleteById_eq. }
    split; [exact Hs|]. split; [exact Hgone|].
    split; [intros id' Hne; rewrite Hi; now apply findById_deleteById_ne|].
    split; [exact He|].
    intros now'. unfold Income.delete. now rewrite Hgone.
  - assert (E : Expense.delete id now st
                = (fst (Expense.delete id now st),
                   {| incomes := incomes st;
                      expenses := Entry.deleteById id (expenses st);
                      accounts := accounts st' |})
                /\ status (fst (Expense.delete id now st)) = 200).
    { subst st'. unfold Expense.delete. rewrite Hf. cbv zeta. rewrite Hw.
      split; reflexivity. }
    destruct E as [E Hs].
    assert (Hst : expenses st' = Entry.deleteById id (expenses st)
                  /\ incomes st' = incomes st).
    { subst st'. rewrite E. split; reflexivity. }
    destruct Hst as [He Hi].
    assert (Hgone : Entry.findById id (expenses st') = None).
    { rewrite He. now apply findById_deleteById_eq. }
    split; [exact Hs|]. split; [exact Hgone|].
    split; [intros id' Hne; rewrite He; now apply findById_deleteById_ne|].
    split; [exact Hi|].
    intros now'. unfold Expense.delete. now rewrite Hgone.
Qed.

Lemma findById_In id c e : Entry.findById id c = Some e -> List.In e c.
Proof. unfold Entry.findById. intros H. now apply List.find_some in H as [H _]. Qed.

(** X6.  The validators of the schema are kept by the creation and the
    deletion routes, and by [PUT /:id] for a body without update operators:
    when every stored income and expense satisfies them (a non-empty owner,
    source, payment method, time and account, a non-negative amount, a
    division that is [Office] or [Personal]), so does every one after such a
    request.  They are not kept by [PUT /:id] in general, since the update
    validators do not look at what an operator does: within the edit window
    the body [{$inc: {amount: delta}}] is answered 200 and the document is
    stored with its amount changed by [delta], below zero when [delta] is
    less than the opposite of the amount. *)
Theorem handlers_keep_schema (st : Store) (now : Z) :
  schema_ok st ->
  (forall body oid, schema_ok (snd (Income.add body oid now st)))
  /\ (forall body oid, schema_ok (snd (Expense.minus body oid now st)))
  /\ (forall body oid, schema_ok (snd (Expense.transfer body oid now st)))
  /\ (forall id u, Body.u_operators u = None ->
        schema_ok (snd (Income.update id u now st)))
  /\ (forall id u, Body.u_operators u = None ->
        schema_ok (snd (Expense.update id u now st)))
  /\ (forall id, schema_ok (snd (Income.delete id now st)))
  /\ (forall id, schema_ok (snd (Expense.delete id now st)))
  /\ (forall id e delta,
        Entry.findById id (incomes st) = Some e ->
        now - twelveHours <= Entry.createdAt e ->
        let after := Income.update id (Body.inc_amount delta) now st in
        status (fst after) = 200
        /\ (exists e', Entry.findById id (incomes (snd after)) = Some e'
                       /\ Entry.amount e' = Entry.amount e + delta)
        /\ (Entry.amount e + delta < 0 -> ~ schema_ok (snd after)))
  /\ (forall id e delta,
        Entry.findById id (expenses st) = Some e ->
        now - twelveHours <= Entry.createdAt e ->
        let after := Expense.update id (Body.inc_amount delta) now st in
        status (fst after) = 200
        /\ (exists e', Entry.findById id (expenses (snd after)) = Some e'
                       /\ Entry.amount e' = Entry.amount e + delta)
        /\ (Entry.amount e + delta < 0 -> ~ schema_ok (snd after))).
Proof.
  intros [Hi He].
  assert (Hneg : forall e', Entry.amount e' < 0 -> Entry.valid e' = true -> False).
  { intros e' Hlt Hv. unfold Entry.valid in Hv. rewrite !andb_true_iff in Hv.
    destruct Hv as ((((((_ & _) & Hv) & _) & _) & _) & _). apply Z.leb_le in Hv. lia. }
  split; [|split; [|split; [|split; [|split; [|split; [|split; [|split]]]]]]].
  - intros body oid.
    destruct (Z.eq_dec (status (fst (Income.add body oid now st))) 201) as [Hok|Hno].
    + destruct (add_created body oid now st Hok)
        as (amount & date & saved & _ & _ & Hv & _ & _ & _ & _ & _ & ->).
      split; cbn [snd incomes expenses]; [|exact He].
      apply Forall_app. split; [exact Hi|]. now repeat constructor.
    + destruct (creation_rejected st now) as (H & _).
      rewrite (H body oid Hno). now split.
  - intros body oid.
    destruct (Z.eq_dec (status (fst (Expense.minus body oid now st))) 201) as [Hok|Hno].
    + destruct (minus_created body oid now st Hok)
        as (amount & date & saved & _ & _ & Hv & _ & _ & _ & _ & _ & ->).
      split; cbn [snd incomes expenses]; [exact Hi|].
      apply Forall_app. split; [exact He|]. now repeat constructor.
    + destruct (creation_rejected st now) as (_ & H & _).
      rewrite (H body oid Hno). now split.
  - intros body oid.
    destruct (Z.eq_dec (status (fst (Expense.transfer body oid now st))) 201)
      as [Hok|Hno].
    + destruct (transfer_created body oid now st Hok)
        as (amount & date & saved & _ & _ & Hv & _ & _ & _ & _ & _ & _ & ->).
      split; cbn [snd incomes expenses]; [exact Hi|].
      apply Forall_app. split; [exact He|]. now repeat constructor.
    + destruct (creation_rejected st now) as (_ & _ & H).
      rewrite (H body oid Hno). now split.
  - intros id u Hplain. unfold Income.update.
    destruct (Entry.findById id (incomes st)) as [e|] eqn:Ef; [|now split]. cbv zeta.
    destruct (_ <? _); [now split|].
    destruct (Body.applyUpdate u now e) as [e'|] eqn:Eu; [|now split].
    apply applyUpdate_Some in Eu as (_ & _ & Hset).
    destruct (Hset Hplain) as [Hv _].
    split; cbn [snd incomes expenses]; [|exact He].
    apply Forall_replaceById; [|exact Hi].
    apply Hv. rewrite List.Forall_forall in Hi. apply Hi. now apply (findById_In id).
  - intros id u Hplain. unfold Expense.update.
    destruct (Entry.findById id (expenses st)) as [e|] eqn:Ef; [|now split]. cbv zeta.
    destruct (_ <? _); [now split|].
    destruct (Body.applyUpdate u now e) as [e'|] eqn:Eu; [|now split].
    apply applyUpdate_Some in Eu as (_ & _ & Hset).
    destruct (Hset Hplain) as [Hv _].
    split; cbn [snd incomes expenses]; [exact Hi|].
    apply Forall_replaceById; [|exact He].
    apply Hv. rewrite List.Forall_forall in He. apply He. now apply (findById_In id).
  - intros id. unfold Income.delete.
    destruct (Entry.findById id (incomes st)) as [e|]; [|now split]. cbv zeta.
    destruct (_ <? _); [now split|].
    split; cbn [snd incomes expenses]; [|exact He].
    now apply Forall_deleteById.
  - intros id. unfold Expense.delete.
    destruct (Entry.findById id (expenses st)) as [e|]; [|now split]. cbv zeta.
    destruct (_ <? _); [now split|].
    split; cbn [snd incomes expenses]; [exact Hi|].
    now apply Forall_deleteById.
  - intros id e delta Hf Hw after. subst after. unfold Income.update.
    rewrite Hf. cbv zeta.
    replace (Entry.createdAt e <? now - twelveHours) with false
      by (symmetry; apply Z.ltb_ge; lia).
    cbn [Body.applyUpdate Body.validators Body.inc_amount Body.u_email Body.u_source
         Body.u_amount Body.u_paymentMethod Body.u_time Body.u_division Body.u_account
         Body.required_text option_map andb fst snd status incomes].
    split; [reflexivity|].
    match goal with
    | |- (exists e', Entry.findById id (Entry.replaceById id ?x _) = _ /\ _) /\ _ =>
        set (e1 := x)
    end.
    assert (Hfound : Entry.findById id (Entry.replaceById id e1 (incomes st)) = Some e1).
    { apply (findById_replaceById id e); [exact Hf|].
      unfold Entry.findById in Hf. apply List.find_some in Hf as [_ Hid].
      now apply String.eqb_eq in Hid. }
    split.
    + exists e1. split; [exact Hfound | reflexivity].
    + intros Hlt [Hok _]. cbn [incomes] in Hok.
      rewrite List.Forall_forall in Hok.
      apply (Hneg e1); [exact Hlt|]. apply Hok. now apply (findById_In id).
  - intros id e delta Hf Hw after. subst after. unfold Expense.update.
    rewrite Hf. cbv zeta.
    replace (Entry.createdAt e <? now - twelveHours) with false
      by (symmetry; apply Z.ltb_ge; lia).
    cbn [Body.applyUpdate Body.validators Body.inc_amount Body.u_email Body.u_source
         Body.u_amount Body.u_paymentMethod Body.u_time Body.u_division Body.u_account
         Body.required_text option_map andb fst snd status expenses].
    split; [reflexivity|].
    match goal with
    | |- (exists e', Entry.findById id (Entry.replaceById id ?x _) = _ /\ _) /\ _ =>
        set (e1 := x)
    end.
    assert (Hfound : Entry.findById id (Entry.replaceById id e1 (expenses st)) = Some e1).
    { apply (findById_replaceById id e); [exact Hf|].
      unfold Entry.findById in Hf. apply List.find_some in Hf as [_ Hid].
      now apply String.eqb_eq in Hid. }
    split.
    + exists e1. split; [exact Hfound | reflexivity].
    + intros Hlt [_ Hok]. cbn [expenses] in Hok.
      rewrite List.Forall_forall in Hok.
      apply (Hneg e1); [exact Hlt|]. apply Hok. now apply (findById_In id).
Qed.

(** X7.  No handler creates or removes an account; none changes a field
    of an account other than its balance, nor an account of another owner
    than the one of the request (for a deletion, the owner of the entry
    found).  [PUT /:id] changes no account at all, whatever it changes in
    the entry. *)
Theorem handlers_keep_accounts (st : Store) (now : Z) :
  (forall body oid,
     ledger_frame (Body.text (Body.email body)) (accounts st)
       (accounts (snd (Income.add body oid now st))))
  /\ (forall body oid,
        ledger_frame (Body.text (Body.email body)) (accounts st)
          (accounts (snd (Expense.minus body oid now st))))
  /\ (forall body oid,
        ledger_frame (Body.text (Body.t_email body)) (accounts st)
          (accounts (snd (Expense.transfer body oid now st))))
  /\ (forall id u, accounts (snd (Income.update id u now st)) = accounts st)
  /\ (forall id u, accounts (snd (Expense.update id u now st)) = accounts st)
  /\ (forall id owner,
        option_map Entry.email (Entry.findById id (incomes st)) = Some owner ->
        ledger_frame owner (accounts st) (accounts (snd (Income.delete id now st))))
  /\ (forall id owner,
        option_map Entry.email (Entry.findById id (expenses st)) = Some owner ->
        ledger_frame owner (accounts st) (accounts (snd (Expense.delete id now st)))).
Proof.
  repeat apply conj.
  - intros body oid. unfold Income.add.
    required_fields; [apply ledger_frame_refl|].
    destruct (Body.parseFloat (Body.amount body)),
      (Date_parse (Body.text (Body.date body))); try apply ledger_frame_refl.
    destruct (Entry.save _); [|apply ledger_frame_refl].
    cbn [snd accounts].
    destruct (JS.truthy_opt (Body.account body));
      [apply ledger_frame_inc | apply ledger_frame_refl].
  - intros body oid. unfold Expense.minus.
    required_fields; [apply ledger_frame_refl|].
    destruct (Body.parseFloat (Body.amount body)),
      (Date_parse (Body.text (Body.date body))); try apply ledger_frame_refl.
    destruct (Entry.save _); [|apply ledger_frame_refl].
    cbn [snd accounts].
    destruct (JS.truthy_opt (Body.account body));
      [apply ledger_frame_inc | apply ledger_frame_refl].
  - intros body oid. unfold Expense.transfer.
    required_fields; [apply ledger_frame_refl|]. cbv zeta.
    destruct (Body.parseFloat (Body.t_amount body)),
      (Date_parse (Body.text (Body.t_date body))); try apply ledger_frame_refl.
    destruct (Entry.save _); [|apply ledger_frame_refl].
    cbn [snd accounts].
    destruct (_ && _); [|apply ledger_frame_refl].
    eapply ledger_frame_trans; apply ledger_frame_inc.
  - intros id u. unfold Income.update.
    destruct (Entry.findById id (incomes st)); [|reflexivity]. cbv zeta.
    destruct (_ <? _); [reflexivity|].
    now destruct (Body.applyUpdate _ _ _).
  - intros id u. unfold Expense.update.
    destruct (Entry.findById id (expenses st)); [|reflexivity]. cbv zeta.
    destruct (_ <? _); [reflexivity|].
    now destruct (Body.applyUpdate _ _ _).
  - intros id owner. unfold Income.delete.
    destruct (Entry.findById id (incomes st)) as [e|]; [|discriminate].
    cbn [option_map]. intros [= <-]. cbv zeta.
    destruct (_ <? _); [apply ledger_frame_refl|]. cbn [snd accounts].
    destruct (JS.truthy _); [apply ledger_frame_inc | apply ledger_frame_refl].
  - intros id owner. unfold Expense.delete.
    destruct (Entry.findById id (expenses st)) as [e|]; [|discriminate].
    cbn [option_map]. intros [= <-]. cbv zeta.
    destruct (_ <? _); [apply ledger_frame_refl|]. cbn [snd accounts].
    destruct (JS.truthy _); [apply ledger_frame_inc | apply ledger_frame_refl].
Qed.

(** X8.  [PUT /:id] leaves the balances alone and [DELETE /:id] reverses
    the amount that the entry holds when it is deleted.  So creating an
    entry of amount [amount] on an account, setting its amount to [v] (with
    a body that names neither the owner nor the account and has no operator)
    and deleting it, all within twelve hours, leaves the entries as before,
    and the accounts are those of before the creation after two updates of
    the account: by [amount] and then by the opposite of [v] for an income,
    by the opposite of [amount] and then by [v] for an expense. *)
Theorem edit_then_delete_drift (body : Body.entry) (oid : string)
  (now t1 t2 : Z) (st : Store) (a : string) (u : Body.update) (amount v : Z) :
  Body.account body = Some a -> JS.truthy a = true ->
  Body.parseFloat (Body.amount body) = Some amount ->
  Body.u_amount u = Some v -> Body.u_account u = None ->
  Body.u_email u = None -> Body.u_operators u = None ->
  t1 - twelveHours <= now -> t2 - twelveHours <= now ->
  (Entry.findById oid (incomes st) = None ->
   status (fst (Income.add body oid now st)) = 201 ->
   let st1 := snd (Income.add body oid now st) in
   status (fst (Income.update oid u t1 st1)) = 200 ->
   accounts (snd (Income.update oid u t1 st1)) = accounts st1
   /\ Income.delete oid t2 (snd (Income.update oid u t1 st1))
      = ({| status := 200; text := "Income deleted successfully!"; document := None |},
         {| incomes := incomes st;
            expenses := expenses st;
            accounts := incBalance (Body.text (Body.email body)) a (- v)
                          (incBalance (Body.text (Body.email body)) a amount
                             (accounts st)) |}))
  /\ (Entry.findById oid (expenses st) = None ->
      status (fst (Expense.minus body oid now st)) = 201 ->
      let st1 := snd (Expense.minus body oid now st) in
      status (fst (Expense.update oid u t1 st1)) = 200 ->
      accounts (snd (Expense.update oid u t1 st1)) = accounts st1
      /\ Expense.delete oid t2 (snd (Expense.update oid u t1 st1))
         = ({| status := 200; text := "Expense deleted successfully!";
               document := None |},
            {| incomes := incomes st;
               expenses := expenses st;
               accounts := incBalance (Body.text (Body.email body)) a v
                             (incBalance (Body.text (Body.email body)) a (- amount)
                                (accounts st)) |})).
Proof.
  intros Ha Hta Hamt Hv Hua Hue Hplain Hw1 Hw2. split; intros Hfresh Hok st1.
  - destruct (add_created body oid now st Hok)
      as (amount' & date & saved & Ha' & _ & Hvalid & Hid & Hem & Ham & Hac & Hcr & E).
    rewrite Hamt in Ha'. injection Ha' as <-.
    subst st1. rewrite E. cbn [snd].
    unfold Income.update. cbn [incomes expenses accounts].
    rewrite (findById_snoc _ _ _ Hfresh Hid). cbv zeta.
    replace (Entry.createdAt saved <? t1 - twelveHours) with false
      by (symmetry; apply Z.ltb_ge; lia).
    destruct (Body.applyUpdate u t1 saved) as [e'|] eqn:Eu; [|discriminate].
    intros _. cbn [snd accounts]. split; [reflexivity|].
    apply applyUpdate_Some in Eu as (Hid' & Hcr' & Hset).
    destruct (Hset Hplain) as (Hv' & Hem' & Ham' & Hac').
    rewrite (delete_income_found oid t2 _ e'); cbn [incomes expenses accounts].
    + rewrite deleteById_replaceById by congruence.
      rewrite (deleteById_snoc _ _ _ Hfresh Hid).
      rewrite Hem', Hac', Ham', Hv, Hua, Hue, Hem, Hac, Ha.
      cbn [default from_option id JS.truthy_opt Body.text option_map]. rewrite Hta.
      rewrite (or_default_truthy a "Cash" Hta), incBalance_trim.
      reflexivity.
    + apply (findById_replaceById _ saved); [|congruence].
      now apply findById_snoc.
    + lia.
    + now apply Hv'.
  - destruct (minus_created body oid now st Hok)
      as (amount' & date & saved & Ha' & _ & Hvalid & Hid & Hem & Ham & Hac & Hcr & E).
    rewrite Hamt in Ha'. injection Ha' as <-.
    subst st1. rewrite E. cbn [snd].
    unfold Expense.update. cbn [incomes expenses accounts].
    rewrite (findById_snoc _ _ _ Hfresh Hid). cbv zeta.
    replace (Entry.createdAt saved <? t1 - twelveHours) with false
      by (symmetry; apply Z.ltb_ge; lia).
    destruct (Body.applyUpdate u t1 saved) as [e'|] eqn:Eu; [|discriminate].
    intros _. cbn [snd accounts]. split; [reflexivity|].
    apply applyUpdate_Some in Eu as (Hid' & Hcr' & Hset).
    destruct (Hset Hplain) as (Hv' & Hem' & Ham' & Hac').
    rewrite (delete_expense_found oid t2 _ e'); cbn [incomes expenses accounts].
    + rewrite deleteById_replaceById by congruence.
      rewrite (deleteById_snoc _ _ _ Hfresh Hid).
      rewrite Hem', Hac', Ham', Hv, Hua, Hue, Hem, Hac, Ha.
      cbn [default from_option id JS.truthy_opt Body.text option_map]. rewrite Hta.
      rewrite (or_default_truthy a "Cash" Hta), incBalance_trim.
      reflexivity.
    + apply (findById_replaceById _ saved); [|congruence].
      now apply findById_snoc.
    + lia.
    + now apply Hv'.
Qed.

End Requests.

(** ** What the listing shows *)

Lemma slice0_incl {A} (l : list A) e x : List.In x (JS.slice0 l e) -> List.In x l.
Proof.
  unfold JS.slice0. destruct e as [e|]; [|intros []].
  destruct (e <? 0); intros H;
    match type of H with
    | List.In _ (firstn ?n _) =>
        rewrite <- (List.firstn_skipn n l); apply List.in_or_app; now left
    end.
Qed.

Lemma slice0_length {A} (l : list A) (n : Z) :
  Z.of_nat (length (JS.slice0 l (Some n)))
  = if n <? 0 then Z.max (Z.of_nat (length l) + n) 0
    else Z.min n (Z.of_nat (length l)).
Proof.
  unfold JS.slice0. destruct (n <? 0) eqn:E.
  - apply Z.ltb_lt in E. rewrite List.length_firstn. lia.
  - apply Z.ltb_ge in E. rewrite List.length_firstn. lia.
Qed.

Lemma eq_filter_Some want have w :
  Transactions.eq_filter want have = true -> want = Some w -> have = Some w.
Proof.
  intros H ->. cbn in H. destruct have as [h|]; [|discriminate].
  apply String.eqb_eq in H. now subst.
Qed.

Section Shown.
Context {host : Host}.

Lemma matches_selected gte lte email q e :
  Transactions.matches gte lte (Transactions.buildQuery email q) e = true ->
  Entry.email e = email
  /\ (forall d, JS.truthy d = true -> Transactions.division q = Some d ->
        Entry.division e = d)
  /\ (forall k, JS.truthy k = true -> Transactions.category q = Some k ->
        Entry.category e = Some (JSString.trim k))
  /\ (forall a, JS.truthy a = true -> Transactions.account q = Some a ->
        Entry.account e = JSString.trim a)
  /\ (forall a, gte = Some a -> a <= Entry.date e)
  /\ (forall b, lte = Some b -> Entry.date e <= b).
Proof.
  unfold Transactions.matches, Transactions.buildQuery.
  cbn [Transactions.f_email Transactions.f_division Transactions.f_category
       Transactions.f_account].
  intros H.
  apply andb_prop in H as [H Hacc]. apply andb_prop in H as [H Hcat].
  apply andb_prop in H as [H Hdiv]. apply andb_prop in H as [H Hlte].
  apply andb_prop in H as [Hem Hgte].
  apply String.eqb_eq in Hem.
  split; [exact Hem|].
  split.
  { intros d Hd E. rewrite E in Hdiv. cbn [JS.truthy_opt] in Hdiv. rewrite Hd in Hdiv.
    pose proof (eq_filter_Some _ _ d Hdiv eq_refl) as H'. now injection H'. }
  split.
  { intros k Hk E. rewrite E in Hcat. cbn [JS.truthy_opt] in Hcat. rewrite Hk in Hcat.
    exact (eq_filter_Some _ _ (JSString.trim k) Hcat eq_refl). }
  split.
  { intros a Ha E. rewrite E in Hacc. cbn [JS.truthy_opt] in Hacc. rewrite Ha in Hacc.
    pose proof (eq_filter_Some _ _ (JSString.trim a) Hacc eq_refl) as H'.
    now injection H'. }
  split.
  - intros a ->. now apply Z.leb_le.
  - intros b ->. now apply Z.leb_le.
Qed.

Lemma fetch_selected kind email q c l :
  Transactions.fetch kind email q c = Some l ->
  Forall (selected kind email q c) l.
Proof.
  unfold Transactions.fetch.
  destruct (Transactions.wants kind (Transactions.type q)) eqn:Hw;
    [|intros [= <-]; constructor].
  unfold Transactions.find.
  destruct (Transactions.f_date (Transactions.buildQuery email q)) as [[gte lte]|] eqn:Ed.
  - destruct gte as [a|]; [|discriminate]. destruct lte as [b|]; [|discriminate].
    intros [= <-]. apply List.Forall_forall. intros e He.
    apply List.filter_In in He as [Hin Hm].
    destruct (matches_selected _ _ _ _ _ Hm) as (H1 & H2 & H3 & H4 & H5 & H6).
    unfold selected. repeat apply conj; auto.
    intros Hs He'. exists a, b.
    unfold Transactions.buildQuery in Ed. cbn [Transactions.f_date] in Ed.
    rewrite Hs, He' in Ed. cbn [andb] in Ed. injection Ed as E1 E2.
    split; [exact E1|]. split; [exact E2|].
    split; [now apply H5 | now apply H6].
  - intros [= <-]. apply List.Forall_forall. intros e He.
    apply List.filter_In in He as [Hin Hm].
    destruct (matches_selected _ _ _ _ _ Hm) as (H1 & H2 & H3 & H4 & H5 & H6).
    unfold selected. repeat apply conj; auto.
    intros Hs He'.
    unfold Transactions.buildQuery in Ed. cbn [Transactions.f_date] in Ed.
    rewrite Hs, He' in Ed. discriminate.
Qed.

(** The parts of a listing that answers. *)
Lemma list_inv email q now st body :
  Transactions.list email q now st = Transactions.Ok body ->
  exists incs exps,
    Transactions.fetch "income" email q (incomes st) = Some incs
    /\ Transactions.fetch "expense" email q (expenses st) = Some exps
    /\ Transactions.transactions body = feed q now incs exps
    /\ Transactions.counts body
       = {| Transactions.n_income := Z.of_nat (length incs);
            Transactions.n_expense := Z.of_nat (length exps);
            Transactions.n_total := Z.of_nat (length (feed q now incs exps)) |}.
Proof.
  unfold Transactions.list.
  destruct (negb (JS.truthy email)); [discriminate|].
  destruct (Transactions.fetch "income" email q (incomes st)) as [incs|]; [|discriminate].
  destruct (Transactions.fetch "expense" email q (expenses st)) as [exps|];
    [|discriminate].
  cbv zeta. fold (feed q now incs exps).
  destruct (if JS.truthy_opt (Transactions.period q) then _ else _) as [pd|];
    [|discriminate].
  intros [= <-]. exists incs, exps.
  cbn [Transactions.transactions Transactions.counts].
  rewrite !List.length_map. repeat apply conj; reflexivity.
Qed.

Lemma feed_In q now incs exps x :
  List.In x (feed q now incs exps) ->
  (exists e, List.In e incs /\ x = Transactions.formatIncome now e)
  \/ (exists e, List.In e exps /\ x = Transactions.formatExpense now e).
Proof.
  unfold feed. cbv zeta. intros H.
  assert (Hm : List.In x (List.map (Transactions.formatIncome now) incs
                          ++ List.map (Transactions.formatExpense now) exps)%list).
  { destruct (JS.truthy_opt (Transactions.limit q)).
    - apply slice0_incl in H. unfold Transactions.sortTransactions in H.
      eapply Permutation_in; [apply Permutation_sym, sort_Permutation | exact H].
    - unfold Transactions.sortTransactions in H.
      eapply Permutation_in; [apply Permutation_sym, sort_Permutation | exact H]. }
  apply List.in_app_or in Hm as [Hm|Hm]; apply List.in_map_iff in Hm as (e & <- & He);
    [left | right]; now exists e.
Qed.

(** X9.  Every record of the array returned by [GET /:email] is made from
    a stored document of the requested owner: an income for a record typed
    [income], an expense for a record typed [expense], of a kind that the
    [type] parameter asks for, and one that satisfies every filter given
    (division, category, account, and the date range when both bounds are
    given, which are then two valid dates).  Its [canEdit] flag is the value
    of the schema method at the time of the request. *)
Theorem listing_shows_only_matching (email : string) (q : Transactions.Query)
  (now : Z) (st : Store) (body : Transactions.Listing) :
  Transactions.list email q now st = Transactions.Ok body ->
  Forall
    (fun x =>
       match Txn.type x with
       | Txn.income => selected "income" email q (incomes st) (Txn.doc x)
       | Txn.expense => selected "expense" email q (expenses st) (Txn.doc x)
       end
       /\ Txn.canEdit x = Entry.canEdit now (Txn.doc x))
    (Transactions.transactions body).
Proof.
  intros Hok.
  destruct (list_inv email q now st body Hok) as (incs & exps & Hi & He & Ht & _).
  apply fetch_selected in Hi, He. rewrite List.Forall_forall in Hi, He.
  apply List.Forall_forall. intros x Hx. rewrite Ht in Hx.
  apply feed_In in Hx as [(e & Hin & ->)|(e & Hin & ->)];
    cbn [Txn.type Txn.doc Txn.canEdit Transactions.formatIncome
         Transactions.formatExpense]; split; auto.
Qed.

(** X10.  In the answer of [GET /:email], [counts.total] is the length of
    the array returned and is at most [counts.income + counts.expense].
    They are equal when the limit is absent or empty.  With a limit that
    [parseInt] reads as [n], the array has [min n found] records when
    [n >= 0] and loses its last [-n] records when [n < 0]; with a limit that
    is not a number it is empty. *)
Theorem listing_limit (email : string) (q : Transactions.Query)
  (now : Z) (st : Store) (body : Transactions.Listing) :
  Transactions.list email q now st = Transactions.Ok body ->
  let found := Transactions.n_income (Transactions.counts body)
               + Transactions.n_expense (Transactions.counts body) in
  let shown := Transactions.n_total (Transactions.counts body) in
  shown = Z.of_nat (length (Transactions.transactions body))
  /\ 0 <= shown <= found
  /\ match Transactions.limit q with
     | None | Some "" => shown = found
     | Some l =>
         match JSString.parseInt l with
         | None => shown = 0
         | Some n => shown = if n <? 0 then Z.max (found + n) 0 else Z.min n found
         end
     end.
Proof.
  intros Hok.
  destruct (list_inv email q now st body Hok) as (incs & exps & _ & _ & Ht & Hc).
  rewrite Hc, Ht. cbn [Transactions.n_income Transactions.n_expense Transactions.n_total].
  cbv zeta.
  set (merged := (List.map (Transactions.formatIncome now) incs
                  ++ List.map (Transactions.formatExpense now) exps)%list).
  assert (Hlen : Z.of_nat (length incs) + Z.of_nat (length exps)
                 = Z.of_nat (length (Transactions.sortTransactions merged
                       (default "date_desc" (Transactions.sortBy q))))).
  { unfold Transactions.sortTransactions.
    rewrite <- (Permutation_length (sort_Permutation _ merged)).
    unfold merged. rewrite List.length_app, !List.length_map. lia. }
  unfold feed. cbv zeta. fold merged.
  set (sorted := Transactions.sortTransactions merged _) in *.
  rewrite Hlen.
  split; [reflexivity|].
  destruct (Transactions.limit q) as [l|]; cbn [JS.truthy_opt Body.text default
    from_option id].
  - destruct l as [|c l]; cbn [JS.truthy]; [split; [lia | reflexivity]|].
    destruct (JSString.parseInt (String c l)) as [n|].
    + rewrite slice0_length. split; [|reflexivity].
      destruct (n <? 0) eqn:E; [apply Z.ltb_lt in E | apply Z.ltb_ge in E]; lia.
    + cbn [JS.slice0 length]. split; [lia | reflexivity].
  - split; [lia | reflexivity].
Qed.

End Shown.

(** ** Sums group by group *)


Lemma total_by_Permutation {E} (f : E -> Z) l l' :
  Permutation l l' -> total_by f l = total_by f l'.
Proof. unfold total_by. induction 1; cbn [fold_right]; lia. Qed.

Lemma total_by_ext {E} (f g : E -> Z) l :
  Forall (fun x => f x = g x) l -> total_by f l = total_by g l.
Proof.
  unfold total_by. induction 1 as [|x l Hx _ IH]; cbn [fold_right]; [reflexivity|].
  now rewrite Hx, IH.
Qed.

Lemma total_by_map {E F} (h : E -> F) (f : F -> Z) l :
  total_by f (List.map h l) = total_by (fun x => f (h x)) l.
Proof.
  unfold total_by. induction l as [|x l IH]; cbn [List.map fold_right]; [reflexivity|].
  now rewrite IH.
Qed.

Lemma total_by_indicator (k0 : string) (a : Z) ks :
  List.NoDup ks -> List.In k0 ks ->
  total_by (fun k => if String.eqb k0 k then a else 0) ks = a.
Proof.
  unfold total_by. induction 1 as [|k ks Hk Hnd IH]; intros Hin; [contradiction|].
  cbn [fold_right]. destruct Hin as [->|Hin].
  - rewrite String.eqb_refl.
    assert (H0 : fold_right (fun k acc => (if String.eqb k0 k then a else 0) + acc) 0 ks
                 = 0).
    { clear - Hk. induction ks as [|k ks IH]; [reflexivity|]. cbn [fold_right].
      destruct (String.eqb k0 k) eqn:E.
      - apply String.eqb_eq in E. subst. exfalso. apply Hk. now left.
      - rewrite IH; [lia|]. intros H. apply Hk. now right. }
    rewrite H0. lia.
  - destruct (String.eqb k0 k) eqn:E.
    + apply String.eqb_eq in E. subst. contradiction.
    + rewrite (IH Hin). lia.
Qed.

(** Summing group by group: when the keys [ks] are distinct and hold the
    key of every record, the sums over the records of each key add up to
    the sum over all records. *)
Lemma total_by_groups {E} (K : E -> string) (f : E -> Z) ks l :
  List.NoDup ks -> (forall x, List.In x l -> List.In (K x) ks) ->
  total_by (fun k => total_by f (List.filter (fun x => String.eqb (K x) k) l)) ks
  = total_by f l.
Proof.
  intros Hnd. induction l as [|x l IH]; intros Hin.
  - unfold total_by at 1. cbn [List.filter]. clear.
    induction ks as [|k ks IH]; cbn [fold_right]; [reflexivity|].
    rewrite IH. reflexivity.
  - transitivity (total_by (fun k => (if String.eqb (K x) k then f x else 0)
                                     + total_by f
                                         (List.filter (fun y => String.eqb (K y) k) l)) ks).
    { apply total_by_ext, List.Forall_forall. intros k _. cbn [List.filter].
      destruct (String.eqb (K x) k); [reflexivity|lia]. }
    assert (Hadd : forall (u v : string -> Z),
              total_by (fun k => u k + v k) ks = total_by u ks + total_by v ks).
    { intros u v. unfold total_by. clear.
      induction ks as [|k ks IH]; cbn [fold_right]; [reflexivity|]. rewrite IH. lia. }
    rewrite Hadd, IH by (intros y Hy; apply Hin; now right).
    rewrite (total_by_indicator (K x) (f x) ks Hnd) by (apply Hin; now left).
    reflexivity.
Qed.

Lemma length_total {E} (l : list E) : Z.of_nat (length l) = total_by (fun _ => 1) l.
Proof.
  unfold total_by. induction l as [|x l IH]; [reflexivity|].
  cbn [length fold_right]. lia.
Qed.

Section Groups.
Context {host : Host}.






(** The buckets partition the transactions, and their sizes add up to
    the number of transactions. *)
Lemma buckets_partition (transactions : list Txn.t) (period : string) :
  exists buckets,
    Transactions.groupTransactionsByPeriod transactions period = Some buckets
    /\ (forall x, List.In x transactions ->
          exists b, List.In b buckets
                    /\ Bucket.period b = periodKey period (Txn.date x)
                    /\ List.In x (Bucket.transactions b)
                    /\ forall b', List.In b' buckets ->
                         List.In x (Bucket.transactions b') -> b' = b)
    /\ total_by (fun b => Z.of_nat (length (Bucket.transactions b))) buckets
       = Z.of_nat (length transactions).
Proof.
  destruct (groupTransactionsByPeriod_buckets transactions period)
    as (g & buckets & E & Hperm & (Hnd & HP & Hin & _) & _).
  exists buckets. split; [exact E|].
  set (K := fun x : Txn.t => periodKey period (Txn.date x)) in *.
  assert (Hsum : forall (f : Txn.t -> Z) (h : Bucket.t -> Z),
            Forall (fun p => h (snd p)
                             = total_by f (List.filter (fun x => String.eqb (K x) (fst p))
                                             transactions)) g ->
            total_by h buckets = total_by f transactions).
  { intros f h Hh.
    rewrite <- (total_by_Permutation _ _ _ Hperm), total_by_map.
    rewrite <- (total_by_groups K f (List.map fst g) transactions Hnd Hin).
    rewrite total_by_map. now apply total_by_ext. }
  split.
  - intros x Hx.
    assert (Hk : List.In (K x) (List.map fst g)) by now apply Hin.
    apply List.in_map_iff in Hk as ([k b] & Hkx & Hkb). cbn [fst] in Hkx. subst k.
    rewrite List.Forall_forall in HP.
    destruct (HP _ Hkb) as (Hp & Ht & _). cbn [fst snd] in *.
    assert (Hb : List.In b buckets).
    { eapply Permutation_in; [exact Hperm|].
      change b with (snd (K x, b)). now apply List.in_map. }
    exists b. split; [exact Hb|]. split; [exact Hp|].
    split.
    + rewrite Ht. apply List.filter_In. split; [exact Hx|].
      fold (K x). rewrite Hp. apply String.eqb_refl.
    + intros b' Hb' Hxb'.
      apply (Permutation_in _ (Permutation_sym Hperm)) in Hb'.
      apply List.in_map_iff in Hb' as ([k' b''] & Hs & Hkb'). cbn [snd] in Hs.
      subst b''.
      destruct (HP _ Hkb') as (Hp' & Ht' & _). cbn [fst snd] in *.
      rewrite Ht' in Hxb'. apply List.filter_In in Hxb' as [_ Heq].
      apply String.eqb_eq in Heq. fold (K x) in Heq. rewrite Hp' in Heq. subst k'.
      clear - Hnd Hkb Hkb'.
      induction g as [|[k0 b0] g IH]; [contradiction|].
      cbn [List.map fst] in Hnd. inversion Hnd as [|? ? Hk0 Hnd']; subst.
      destruct Hkb as [Hkb|Hkb], Hkb' as [Hkb'|Hkb'].
      * congruence.
      * injection Hkb as -> ->. exfalso. apply Hk0.
        apply (List.in_map fst) in Hkb'. exact Hkb'.
      * injection Hkb' as -> ->. exfalso. apply Hk0.
        apply (List.in_map fst) in Hkb. exact Hkb.
      * now apply IH.
  - transitivity (total_by (fun _ : Txn.t => 1) transactions).
    + apply Hsum.
      eapply List.Forall_impl; [|exact HP].
      intros [k b] (Hp & Ht & _). cbn [fst snd] in *.
      rewrite Ht, Hp. apply length_total.
    + symmetry. apply length_total.
Qed.

(** Every bucket returned holds what [bucket_of] says. *)
Lemma buckets_members (transactions : list Txn.t) (period : string) buckets :
  Transactions.groupTransactionsByPeriod transactions period = Some buckets ->
  Forall (bucket_of period transactions) buckets.
Proof.
  intros E.
  destruct (groupTransactionsByPeriod_buckets transactions period)
    as (g & buckets' & E' & Hperm & (_ & HP & _) & _).
  rewrite E in E'. injection E' as <-.
  eapply Permutation_Forall; [exact Hperm|].
  apply List.Forall_map. eapply List.Forall_impl; [|exact HP].
  now intros [k b] [_ H].
Qed.

(** X15.  The buckets of [groupTransactionsByPeriod] partition the
    transactions: every transaction is a member of the bucket labelled by
    its key and of no other bucket, every member of a bucket is a
    transaction of the input whose key is the label of the bucket, and the
    sizes of the buckets add up to the number of transactions. *)
Theorem buckets_cover_input (transactions : list Txn.t) (period : string) :
  exists buckets,
    Transactions.groupTransactionsByPeriod transactions period = Some buckets
    /\ (forall x, List.In x transactions ->
          exists b, List.In b buckets
                    /\ Bucket.period b = periodKey period (Txn.date x)
                    /\ List.In x (Bucket.transactions b)
                    /\ forall b', List.In b' buckets ->
                         List.In x (Bucket.transactions b') -> b' = b)
    /\ (forall b x, List.In b buckets -> List.In x (Bucket.transactions b) ->
          List.In x transactions
          /\ periodKey period (Txn.date x) = Bucket.period b)
    /\ total_by (fun b => Z.of_nat (length (Bucket.transactions b))) buckets
       = Z.of_nat (length transactions).
Proof.
  destruct (buckets_partition transactions period)
    as (buckets & E & Hin & Hsize).
  exists buckets. split; [exact E|]. split; [exact Hin|]. split; [|exact Hsize].
  intros b x Hb Hx.
  pose proof (buckets_members transactions period buckets E) as HP.
  rewrite List.Forall_forall in HP.
  destruct (HP b Hb) as (Ht & _).
  rewrite Ht in Hx. apply List.filter_In in Hx as [Hx Hk].
  apply String.eqb_eq in Hk. now split.
Qed.

End Groups.

(** ** The division summary *)










(** ** The period totals *)














Section PeriodTotals.
Context {host : Host}.




End PeriodTotals.

(** ** The dashboard trends *)

Lemma fold_left_entries l : forall acc,
  fold_left (fun total e => total + Entry.amount e) l acc = acc + sum_entries l.
Proof.
  unfold sum_entries.
  induction l as [|x l IH]; intros acc; cbn [fold_left fold_right]; [lia|].
  rewrite IH. lia.
Qed.

Lemma firstTotal_aggregate email lo hi c :
  Dashboard.firstTotal (Dashboard.aggregateTotal email lo hi c)
  = total_between email lo hi c.
Proof.
  unfold Dashboard.aggregateTotal, total_between, Income.inRange.
  destruct (List.filter _ c) as [|e l]; [reflexivity|].
  unfold Dashboard.firstTotal. rewrite fold_left_entries.
  destruct (0 + sum_entries (e :: l) =? 0) eqn:E.
  - apply Z.eqb_eq in E. lia.
  - lia.
Qed.

Lemma downFrom_length n : length (Dashboard.downFrom n) = n.
Proof. induction n as [|n IH]; [reflexivity|]. cbn [Dashboard.downFrom length]. now rewrite IH. Qed.

Lemma downFrom_In n i : List.In i (Dashboard.downFrom n) <-> 0 <= i < Z.of_nat n.
Proof.
  induction n as [|n IH]; cbn [Dashboard.downFrom List.In]; [lia|].
  rewrite IH. lia.
Qed.

Section Trends.
Context {host : Host}.

Lemma MakeDay_day_before y m : MakeDay y m 0 = MakeDay y m 1 - 1.
Proof. unfold MakeDay. cbv zeta. lia. Qed.

Lemma month_end_midnight now i :
  ~ 0 <= getFullYear now <= 99 ->
  new_Date (getFullYear now) (getMonth now - i + 1) 0
  = midnight_of (MakeDay (getFullYear now) (getMonth now - (i - 1)) 1 - 1).
Proof.
  intros Hy. rewrite new_Date_midnight by exact Hy.
  rewrite MakeDay_day_before.
  now replace (getMonth now - (i - 1)) with (getMonth now - i + 1) by lia.
Qed.

(** The local date of the midnight of the first of a month, where the host
    reads that local time back. *)
Lemma midnight_first_fields y m :
  read_back (MakeDate (MakeDay y m 1) 0) ->
  localDate (midnight_of (MakeDay y m 1)) = (y + m / 12, m mod 12 + 1, 1)
  /\ localMidnight (midnight_of (MakeDay y m 1)).
Proof.
  intros Hrb. destruct (midnight_of_Day _ Hrb) as [D T].
  split; [|exact T].
  rewrite localDate_Day, D. unfold MakeDay. cbv zeta.
  replace (days_from_civil (y + m / 12) (m mod 12 + 1) 1 + 1 - 1)
    with (days_from_civil (y + m / 12) (m mod 12 + 1) 1) by lia.
  assert (Hm : 1 <= m mod 12 + 1 <= 12) by zlia.
  destruct (month_check_fields (y + m / 12) (m mod 12 + 1) Hm) as [-> _].
  reflexivity.
Qed.

Lemma month_first_fields now i :
  read_back (MakeDate (MakeDay (getFullYear now) (getMonth now - i) 1) 0) ->
  let monthStart := midnight_of (MakeDay (getFullYear now) (getMonth now - i) 1) in
  getFullYear monthStart * 12 + getMonth monthStart
  = getFullYear now * 12 + getMonth now - i
  /\ getDate monthStart = 1
  /\ localMidnight monthStart.
Proof.
  intros Hrb monthStart.
  destruct (midnight_first_fields _ _ Hrb) as [L T]. fold monthStart in L, T.
  unfold localDate in L. injection L as L1 L2 L3.
  split; [|split; [exact L3 | exact T]].
  rewrite L1. replace (getMonth monthStart) with ((getMonth now - i) mod 12) by lia.
  zlia.
Qed.

(** A month is not empty: the first day of the next month is at least a day
    later. *)
Lemma MakeDay_next y m : MakeDay y m 1 + 1 <= MakeDay y (m + 1) 1.
Proof.
  unfold MakeDay. cbv zeta.
  assert (Hm : 1 <= m mod 12 + 1 <= 12) by zlia.
  destruct (month_check_fields (y + m / 12) (m mod 12 + 1) Hm) as (_ & _ & Hle).
  unfold next_month_start in Hle.
  destruct (m mod 12 + 1 =? 12) eqn:E.
  - apply Z.eqb_eq in E.
    replace ((m + 1) / 12) with (m / 12 + 1) by zlia.
    replace ((m + 1) mod 12) with 0 by zlia.
    replace (y + (m / 12 + 1)) with (y + m / 12 + 1) by lia.
    change (0 + 1) with 1. lia.
  - apply Z.eqb_neq in E.
    replace ((m + 1) / 12) with (m / 12) by zlia.
    replace ((m + 1) mod 12) with (m mod 12 + 1) by zlia.
    lia.
Qed.

Lemma Z_month_range m : 0 <= m <= 11 -> 1 <= m + 1 <= 12.
Proof. lia. Qed.

Lemma quadruple_eq {A B C D : Type} (a a' : A) (b b' : B) (c c' : C) (d d' : D) :
  a = a' -> b = b' -> c = c' -> d = d' -> (a, b, c, d) = (a', b', c', d').
Proof. now intros -> -> -> ->. Qed.

Section SteadyTrends.
Hypothesis Hsteady : steady.

Lemma midnight_of_steady day : midnight_of day = day * msPerDay - LocalTZA 0 true.
Proof. unfold midnight_of. rewrite (UTC_steady Hsteady). unfold MakeDate. lia. Qed.

Lemma midnight_of_day_before day :
  midnight_of (day - 1) = midnight_of day - msPerDay.
Proof. rewrite !midnight_of_steady. lia. Qed.

Lemma first_day_step y m i :
  midnight_of (MakeDay y (m - i) 1) + msPerDay <= midnight_of (MakeDay y (m - (i - 1)) 1).
Proof.
  rewrite !midnight_of_steady.
  pose proof (MakeDay_next y (m - i)) as H.
  replace (m - (i - 1)) with (m - i + 1) by lia.
  unfold msPerDay. lia.
Qed.

Lemma first_day_mono y m i : forall k : nat,
  midnight_of (MakeDay y (m - (i + Z.of_nat k)) 1) <= midnight_of (MakeDay y (m - i) 1).
Proof.
  induction k as [|k IH].
  - replace (i + Z.of_nat 0) with i by lia. lia.
  - pose proof (first_day_step y m (i + Z.of_nat (S k))) as H.
    replace (i + Z.of_nat (S k) - 1) with (i + Z.of_nat k) in H by lia.
    unfold msPerDay in H. lia.
Qed.

Lemma first_day_le y m i j :
  i <= j -> midnight_of (MakeDay y (m - j) 1) <= midnight_of (MakeDay y (m - i) 1).
Proof.
  intros H. replace j with (i + Z.of_nat (Z.to_nat (j - i))) by lia.
  apply first_day_mono.
Qed.

End SteadyTrends.

(** X19.  [getMonthlyTrend] for a count [n >= 0] (and a current year
    outside 0..99) returns [n] rows, for the months from [n - 1] months
    before the month of [now] to the month of [now].  The window of the row
    of the month that is [i] months back runs from the instant that the host
    reads from 00:00 of the first day of that month to the instant that it
    reads from 00:00 of the day before the first day of the next month; the
    year and the month of the row are those that the host shows for the
    start of the window, the income and the expense are the totals of the
    documents of the owner dated in the window, and the balance is the
    income minus the expense.  Where the host reads 00:00 of the first day
    back, the start of the window is a local midnight of a first of the
    month, [i] months before the month of [now].  On a host whose offset
    never changes a window ends one day before the next one begins, so a
    document dated on the last day of a month, later than the local
    midnight that begins it, is counted in no row. *)
Theorem monthly_trend_rows (monthShort : Z -> string) (email : string) (n : Z)
  (now : Z) (st : Store) :
  0 <= n -> ~ 0 <= getFullYear now <= 99 ->
  let rows := Dashboard.getMonthlyTrend monthShort email (Some n) now st in
  let first_day i := MakeDay (getFullYear now) (getMonth now - i) 1 in
  Z.of_nat (length rows) = n
  /\ List.map (fun r => (TrendRow.m_year r, TrendRow.month r,
                         TrendRow.m_income r, TrendRow.m_expense r)) rows
     = List.map
         (fun i =>
            let monthStart := midnight_of (first_day i) in
            let monthEnd := midnight_of (first_day (i - 1) - 1) in
            (getFullYear monthStart, getMonth monthStart + 1,
             total_between email monthStart monthEnd (incomes st),
             total_between email monthStart monthEnd (expenses st)))
         (Dashboard.downFrom (Z.to_nat n))
  /\ Forall (fun r => 1 <= TrendRow.month r <= 12
                      /\ TrendRow.m_balance r = TrendRow.m_income r - TrendRow.m_expense r)
       rows
  /\ (forall i, read_back (MakeDate (first_day i) 0) ->
        let monthStart := midnight_of (first_day i) in
        getFullYear monthStart * 12 + getMonth monthStart
        = getFullYear now * 12 + getMonth now - i
        /\ getDate monthStart = 1
        /\ localMidnight monthStart)
  /\ (steady ->
      (forall i, midnight_of (first_day (i - 1) - 1)
                 = midnight_of (first_day (i - 1)) - msPerDay)
      /\ (forall i d,
            midnight_of (first_day (i - 1)) - msPerDay < d < midnight_of (first_day (i - 1)) ->
            forall j, ~ (midnight_of (first_day j) <= d
                         <= midnight_of (first_day (j - 1)) - msPerDay))).
Proof.
  intros Hn Hy rows first_day. subst rows. unfold Dashboard.getMonthlyTrend.
  cbn [Dashboard.loopIndices].
  split; [|split; [|split; [|split; [|intros H; split]]]].
  - rewrite List.length_map, downFrom_length. lia.
  - rewrite List.map_map. apply List.map_ext. intros i.
    cbn [TrendRow.m_year TrendRow.month TrendRow.m_income TrendRow.m_expense].
    rewrite !firstTotal_aggregate, (month_end_midnight now i Hy).
    rewrite !(new_Date_midnight (getFullYear now) (getMonth now - i) 1 Hy).
    apply quadruple_eq; reflexivity.
  - apply List.Forall_map, List.Forall_forall. intros i _.
    cbn [TrendRow.month TrendRow.m_balance TrendRow.m_income TrendRow.m_expense].
    split; [apply Z_month_range, getMonth_range | reflexivity].
  - intros i Hrb. exact (month_first_fields now i Hrb).
  - intros i. apply (midnight_of_day_before H).
  - intros i d Hd j Hj. unfold first_day in *.
    destruct (Z_le_gt_dec i j) as [Hij|Hij].
    + pose proof (first_day_le H (getFullYear now) (getMonth now) (i - 1) (j - 1)
                    ltac:(lia)). lia.
    + pose proof (first_day_le H (getFullYear now) (getMonth now) j (i - 1)
                    ltac:(lia)). lia.
Qed.

(** X20.  [getWeeklyTrend] for a count [n >= 0] returns [n] rows.  The
    window of the row of index [i] starts at the instant that the host reads
    from the local time of [now] moved back by [7 i] days, and ends at the
    instant that it reads from the local time of that start moved on by six
    days; the income and the expense of the row are the totals of the
    documents of the owner dated in the window, and its balance is the
    income minus the expense.  On a host whose offset never changes the
    window runs from [7 i] days before [now] to six days after that instant:
    the windows are a day apart and the most recent one starts at [now], so
    a document dated in the day before [now], or in the day before any
    earlier window, is counted in no row. *)
Theorem weekly_trend_rows (email : string) (n : Z) (now : Z) (st : Store) :
  0 <= n ->
  let rows := Dashboard.getWeeklyTrend email (Some n) now st in
  let week_start i := UTC (LocalTime now - i * 7 * msPerDay) in
  let week_end i := UTC (LocalTime (week_start i) + 6 * msPerDay) in
  Z.of_nat (length rows) = n
  /\ List.map (fun r => (TrendRow.w_income r, TrendRow.w_expense r)) rows
     = List.map
         (fun i =>
            (total_between email (week_start i) (week_end i) (incomes st),
             total_between email (week_start i) (week_end i) (expenses st)))
         (Dashboard.downFrom (Z.to_nat n))
  /\ Forall (fun r => TrendRow.w_balance r = TrendRow.w_income r - TrendRow.w_expense r)
       rows
  /\ (steady ->
      (forall i, week_start i = now - i * 7 * msPerDay
                 /\ week_end i = now - i * 7 * msPerDay + 6 * msPerDay)
      /\ (forall d k,
            0 <= k -> now - (k * 7 + 1) * msPerDay < d < now - k * 7 * msPerDay ->
            forall i, 0 <= i -> ~ (week_start i <= d <= week_end i))).
Proof.
  intros Hn rows week_start week_end. subst rows. unfold Dashboard.getWeeklyTrend.
  cbn [Dashboard.loopIndices].
  assert (Hsteady : steady ->
            forall i, week_start i = now - i * 7 * msPerDay
                      /\ week_end i = now - i * 7 * msPerDay + 6 * msPerDay).
  { intros H i. unfold week_end, week_start.
    rewrite !(UTC_steady H), !(LocalTime_steady H). lia. }
  split; [|split; [|split; [|intros H; split]]].
  - rewrite List.length_map, downFrom_length. lia.
  - rewrite List.map_map. apply List.map_ext. intros i.
    cbn [TrendRow.w_income TrendRow.w_expense].
    rewrite !firstTotal_aggregate.
    replace (getDate now - i * 7) with (getDate now + - (i * 7)) by lia.
    rewrite !setDate_local.
    replace (LocalTime now + - (i * 7) * msPerDay)
      with (LocalTime now - i * 7 * msPerDay) by lia.
    reflexivity.
  - apply List.Forall_map, List.Forall_forall. intros i _. reflexivity.
  - exact (Hsteady H).
  - intros d k Hk Hd i Hi. destruct (Hsteady H i) as [-> ->].
    unfold msPerDay in *. destruct (Z_le_gt_dec i k); lia.
Qed.

(** X21.  [getYearlyTrend] for a count [n >= 0] returns [n] rows, for
    the [n] consecutive years that end with the year of [now], oldest
    first.  A row is labelled by the decimal text of its year and sums the
    documents of the owner dated from the first instant of the first of
    January to the first instant of the 31st of December, its balance being
    income minus expense.  Where the offset of the host is the same at the
    two local midnights, as it always is on a host whose offset never
    changes, the first instant of the next year is one day after the end of
    that window. *)
Theorem yearly_trend_rows (email : string) (n : Z) (now : Z) (st : Store) :
  0 <= n ->
  let rows := Dashboard.getYearlyTrend email (Some n) now st in
  Z.of_nat (length rows) = n
  /\ List.map TrendRow.year rows
     = List.map (fun i => getFullYear now - i) (Dashboard.downFrom (Z.to_nat n))
  /\ Forall
       (fun r =>
          TrendRow.y_period r = JS.Number_toString (TrendRow.year r)
          /\ TrendRow.y_income r
             = total_between email (new_Date (TrendRow.year r) 0 1)
                 (new_Date (TrendRow.year r) 11 31) (incomes st)
          /\ TrendRow.y_expense r
             = total_between email (new_Date (TrendRow.year r) 0 1)
                 (new_Date (TrendRow.year r) 11 31) (expenses st)
          /\ TrendRow.y_balance r = TrendRow.y_income r - TrendRow.y_expense r)
       rows
  /\ (forall y, ~ 0 <= y <= 99 -> ~ 0 <= y + 1 <= 99 ->
        LocalTZA (MakeDate (MakeDay (y + 1) 0 1) 0) false
        = LocalTZA (MakeDate (MakeDay y 11 31) 0) false ->
        new_Date (y + 1) 0 1 = new_Date y 11 31 + msPerDay).
Proof.
  intros Hn rows. subst rows. unfold Dashboard.getYearlyTrend.
  cbn [Dashboard.loopIndices]. cbv zeta.
  repeat apply conj.
  - rewrite List.length_map, downFrom_length. lia.
  - rewrite List.map_map. reflexivity.
  - apply List.Forall_map, List.Forall_forall. intros i _.
    cbn [TrendRow.y_period TrendRow.year TrendRow.y_income TrendRow.y_expense
         TrendRow.y_balance].
    rewrite !firstTotal_aggregate. repeat apply conj; reflexivity.
  - intros y Hy Hy' Hoff. unfold new_Date.
    replace ((0 <=? y) && (y <=? 99)) with false
      by (symmetry; apply andb_false_iff; lia).
    replace ((0 <=? y + 1) && (y + 1 <=? 99)) with false
      by (symmetry; apply andb_false_iff; lia).
    assert (H : MakeDay (y + 1) 0 1 = MakeDay y 11 31 + 1).
    { rewrite !MakeDay_month by lia. unfold days_from_civil. simpl. zlia. }
    unfold UTC. rewrite Hoff. rewrite H. unfold MakeDate, msPerDay. lia.
Qed.

(** X22.  [GET /period/:email] of the dashboard, for a non-empty owner,
    answers with the keyword it was given ([monthly] when absent).  For
    [weekly] the data are 8 weekly rows and for [yearly] 5 yearly rows; for
    [monthly] they are monthly rows, 12 of them when [months] is absent,
    else as many as [parseInt] reads from [months], none when that is not a
    number or is negative; for any other keyword they are 12 monthly
    rows. *)
Theorem dashboard_period_rows (monthShort : Z -> string) (email : string)
  (period months : option string) (now : Z) (st : Store) :
  JS.truthy email = true ->
  let keyword := default "monthly" period in
  exists data,
    Dashboard.periodRoute monthShort email period months now st
    = Dashboard.PeriodOk keyword data
    /\ (keyword = "monthly" ->
        exists rows,
          data = Dashboard.Monthly rows
          /\ Z.of_nat (length rows)
             = match months with
               | None => 12
               | Some text =>
                   match JSString.parseInt text with
                   | Some k => Z.max k 0
                   | None => 0
                   end
               end)
    /\ (keyword = "weekly" ->
        exists rows, data = Dashboard.Weekly rows /\ length rows = 8%nat)
    /\ (keyword = "yearly" ->
        exists rows, data = Dashboard.Yearly rows /\ length rows = 5%nat)
    /\ (keyword <> "monthly" -> keyword <> "weekly" -> keyword <> "yearly" ->
        exists rows, data = Dashboard.Monthly rows /\ length rows = 12%nat).
Proof.
  intros Hemail keyword. unfold Dashboard.periodRoute. rewrite Hemail.
  cbn [negb]. cbv zeta. fold keyword.
  assert (Hmonthly : forall count,
            Z.of_nat (length (Dashboard.getMonthlyTrend monthShort email count now st))
            = match count with Some k => Z.max k 0 | None => 0 end).
  { intros count. unfold Dashboard.getMonthlyTrend. rewrite List.length_map.
    destruct count as [k|]; cbn [Dashboard.loopIndices length]; [|reflexivity].
    rewrite downFrom_length. lia. }
  destruct (String.eqb keyword "monthly") eqn:E1.
  { apply String.eqb_eq in E1. eexists. split; [reflexivity|].
    split; [|rewrite E1; repeat split; intros; try discriminate; congruence].
    intros _. eexists. split; [reflexivity|]. rewrite Hmonthly.
    destruct months as [text|]; reflexivity. }
  destruct (String.eqb keyword "weekly") eqn:E2.
  { apply String.eqb_eq in E2. eexists. split; [reflexivity|].
    rewrite E2. split; [discriminate|]. split; [|split; [discriminate|congruence]].
    intros _. eexists. split; [reflexivity|].
    unfold Dashboard.getWeeklyTrend. now rewrite List.length_map. }
  destruct (String.eqb keyword "yearly") eqn:E3.
  { apply String.eqb_eq in E3. eexists. split; [reflexivity|].
    rewrite E3. split; [discriminate|]. split; [discriminate|].
    split; [|congruence].
    intros _. eexists. split; [reflexivity|].
    unfold Dashboard.getYearlyTrend. now rewrite List.length_map. }
  apply String.eqb_neq in E1, E2, E3.
  eexists. split; [reflexivity|].
  split; [congruence|]. split; [congruence|]. split; [congruence|].
  intros _ _ _. eexists. split; [reflexivity|].
  unfold Dashboard.getMonthlyTrend. now rewrite List.length_map.
Qed.

End Trends.

(** ** The end of a range, and the income of a period *)


Section LastDay.
Context {host : Host}.

(** On a host whose offset never changes, an instant less than a day after
    a local midnight is on the same local day. *)
Lemma same_local_day e d :
  steady -> localMidnight e -> e < d < e + msPerDay ->
  Day (LocalTime d) = Day (LocalTime e).
Proof.
  intros Hs. unfold localMidnight. rewrite !(LocalTime_steady Hs).
  unfold TimeWithinDay, Day, msPerDay. intros He Hd. zlia.
Qed.

Lemma same_day_fields e d :
  Day (LocalTime d) = Day (LocalTime e) -> localDate d = localDate e.
Proof. intros H. now rewrite !localDate_Day, H. Qed.

Lemma december_31 y :
  civil_from_days (days_from_civil y 12 1 + 31 - 1) = (y, 12, 31).
Proof.
  assert (E : days_from_civil y 12 1 + 31 - 1 = next_month_start y 12 - 1).
  { unfold next_month_start. cbn [Z.eqb Pos.eqb]. unfold days_from_civil. simpl. zlia. }
  destruct (month_check_fields y 12 ltac:(lia)) as (_ & Hlast & _).
  rewrite <- E in Hlast.
  pose proof (days_from_civil_from_days (days_from_civil y 12 1 + 31 - 1)) as Hrt.
  destruct (civil_from_days (days_from_civil y 12 1 + 31 - 1)) as [[y' m'] d'].
  cbn [fst snd] in *. injection Hlast as -> ->.
  rewrite (days_from_civil_day y 12 d') in Hrt.
  f_equal. lia.
Qed.

Lemma inRange_after email lo hi e :
  hi < Entry.date e -> Income.inRange email lo hi e = false.
Proof.
  intros H. unfold Income.inRange.
  replace (Entry.date e <=? hi) with false by (symmetry; apply Z.leb_gt; lia).
  apply andb_false_r.
Qed.

(** X17.  The resolver of the transactions routes is the one of the income
    routes.  For a current year outside 0..99 the monthly range ends at the
    instant that the host reads from 00:00 of the last day of the month of
    [now], and the yearly range at the instant that it reads from 00:00 of
    the 31st of December of the year of [now]; a document dated after the
    end of a range does not pass the range filter.  On a host whose offset
    never changes, an instant [d] less than a day after the end of the
    monthly range belongs to the month of [now] and the day after it is a
    first of the month, and an instant less than a day after the end of the
    yearly range is on the 31st of December of the year of [now]: a
    document dated then is on the last day of the period and yet outside
    the range. *)
Theorem range_stops_at_last_midnight (now d : Z) :
  ~ 0 <= getFullYear now <= 99 ->
  let monthly := Income.getDateRange (Some "monthly") now in
  let yearly := Income.getDateRange (Some "yearly") now in
  (forall period, Transactions.getDateRangeForPeriod period now
                  = Income.getDateRange period now)
  /\ snd monthly
     = midnight_of (next_month_start (getFullYear now) (getMonth now + 1) - 1)
  /\ snd yearly = midnight_of (days_from_civil (getFullYear now) 12 31)
  /\ (forall period email e,
        snd (Income.getDateRange period now) < Entry.date e ->
        Income.inRange email (fst (Income.getDateRange period now))
          (snd (Income.getDateRange period now)) e = false)
  /\ (steady ->
      snd monthly < d < snd monthly + msPerDay ->
      getFullYear d = getFullYear now /\ getMonth d = getMonth now
      /\ getDate (d + msPerDay) = 1
      /\ forall email e, Entry.date e = d ->
           Income.inRange email (fst monthly) (snd monthly) e = false)
  /\ (steady ->
      snd yearly < d < snd yearly + msPerDay ->
      localDate d = (getFullYear now, 12, 31)
      /\ forall email e, Entry.date e = d ->
           Income.inRange email (fst yearly) (snd yearly) e = false).
Proof.
  intros Hy monthly yearly.
  split; [reflexivity|]. split; [|split; [|split; [|split]]].
  - unfold monthly. now rewrite getDateRange_monthly.
  - unfold yearly, Income.getDateRange. cbn [String.eqb Ascii.eqb Bool.eqb snd].
    rewrite new_Date_midnight by exact Hy.
    rewrite MakeDay_month by lia. change (11 + 1) with 12.
    now rewrite (days_from_civil_day _ 12 31).
  - intros period email e H. now apply inRange_after.
  - intros Hs. unfold monthly, Income.getDateRange.
    cbn [String.eqb Ascii.eqb Bool.eqb fst snd].
    intros Hd.
    pose proof (getMonth_range now) as Hm.
    destruct (new_Date_last Hs (getFullYear now) (getMonth now) Hy Hm)
      as (Hlast & Hmid & Hnext & _).
    pose proof (same_local_day _ _ Hs Hmid Hd) as Hday.
    pose proof (same_day_fields _ _ Hday) as Hsame.
    rewrite <- Hsame in Hlast. unfold localDate in Hlast. cbn [fst] in Hlast.
    injection Hlast as H1 H2.
    split; [exact H1|]. split; [lia|]. split.
    + assert (Hday' : Day (LocalTime (d + msPerDay))
                      = Day (LocalTime (new_Date (getFullYear now) (getMonth now + 1) 0
                                        + msPerDay))).
      { revert Hday. rewrite !(LocalTime_steady Hs).
        generalize (new_Date (getFullYear now) (getMonth now + 1) 0) (LocalTZA 0 true).
        intros t o. unfold Day, msPerDay. intros Ht. zlia. }
      pose proof (same_day_fields _ _ Hday') as Hsd. unfold localDate in Hsd.
      injection Hsd as _ _ H3. rewrite H3. exact Hnext.
    + intros email e He. apply inRange_after. rewrite He. lia.
  - intros Hs. unfold yearly, Income.getDateRange.
    cbn [String.eqb Ascii.eqb Bool.eqb fst snd].
    intros Hd.
    destruct (Day_new_Date Hs (getFullYear now) 11 31 Hy) as [D T].
    pose proof (same_local_day _ _ Hs T Hd) as Hday.
    split.
    + rewrite (same_day_fields _ _ Hday), localDate_Day, D, MakeDay_month by lia.
      change (11 + 1) with 12. now rewrite december_31.
    + intros email e He. apply inRange_after. rewrite He. lia.
Qed.

End LastDay.

Section IncomePeriod.
Context {host : Host}.
Variable sortByDate : list Entry.t -> list Entry.t.
Hypothesis sortByDate_Permutation : forall l, Permutation l (sortByDate l).


End IncomePeriod.


(** ** The reset codes *)

Lemma get_set_same {V} k (v : V) o : JSObject.get (JSObject.set k v o) k = JSObject.Own v.
Proof.
  unfold JSObject.get.
  assert (H : JSObject.own k (JSObject.set k v o) = Some v).
  { induction o as [|[k' v'] o IH]; cbn [JSObject.set JSObject.own].
    - now rewrite String.eqb_refl.
    - destruct (String.eqb k k') eqn:E; cbn [JSObject.own].
      + now rewrite String.eqb_refl.
      + now rewrite E. }
  now rewrite H.
Qed.

Lemma get_set_other {V} k k' (v : V) o :
  k' <> k -> JSObject.get (JSObject.set k v o) k' = JSObject.get o k'.
Proof.
  intros Hne. unfold JSObject.get.
  assert (H : JSObject.own k' (JSObject.set k v o) = JSObject.own k' o).
  { induction o as [|[k0 v0] o IH]; cbn [JSObject.set JSObject.own].
    - replace (String.eqb k' k) with false by (symmetry; now apply String.eqb_neq).
      reflexivity.
    - destruct (String.eqb k k0) eqn:E; cbn [JSObject.own].
      + apply String.eqb_eq in E. subst k0.
        replace (String.eqb k' k) with false by (symmetry; now apply String.eqb_neq).
        reflexivity.
      + destruct (String.eqb k' k0); [reflexivity | exact IH]. }
  now rewrite H.
Qed.

(** X23.  A reset code stored at [now] for an e-mail is accepted for that
    e-mail up to ten minutes later, the bound included; after that every
    attempt is answered as expired; within the ten minutes any other code,
    or none, is answered as invalid; and the answers for the other e-mails
    are what they were before the code was stored. *)
Theorem reset_code_round_trip (email code : string) (now now' : Z)
  (resetCodes : list (string * Auth.ResetCode)) :
  email <> "__proto__" ->
  let stored := Auth.storeResetCode email code now resetCodes in
  (now' <= now + 600000 ->
   Auth.verifyResetCode {| Auth.email := Some email; Auth.resetCode := Some code |}
     now' stored = (200, "Code verified successfully!"))
  /\ (now + 600000 < now' ->
      forall attempt,
        Auth.verifyResetCode {| Auth.email := Some email; Auth.resetCode := attempt |}
          now' stored = (400, "Reset code expired. Request a new one."))
  /\ (now' <= now + 600000 ->
      forall attempt, attempt <> Some code ->
        Auth.verifyResetCode {| Auth.email := Some email; Auth.resetCode := attempt |}
          now' stored = (400, "Invalid reset code."))
  /\ (forall other attempt, other <> email ->
        Auth.verifyResetCode {| Auth.email := Some other; Auth.resetCode := attempt |}
          now' stored
        = Auth.verifyResetCode {| Auth.email := Some other; Auth.resetCode := attempt |}
            now' resetCodes).
Proof.
  intros _ stored. subst stored. unfold Auth.storeResetCode, Auth.verifyResetCode.
  cbn [Auth.email Auth.resetCode Auth.propertyKey default from_option id].
  repeat apply conj.
  - intros Hw. rewrite get_set_same. cbn [Auth.expiresAt Auth.code].
    replace (now + 10 * 60 * 1000 <? now') with false
      by (symmetry; apply Z.ltb_ge; lia).
    now rewrite String.eqb_refl.
  - intros Hw attempt. rewrite get_set_same. cbn [Auth.expiresAt Auth.code].
    replace (now + 10 * 60 * 1000 <? now') with true
      by (symmetry; apply Z.ltb_lt; lia).
    reflexivity.
  - intros Hw attempt Hne. rewrite get_set_same. cbn [Auth.expiresAt Auth.code].
    replace (now + 10 * 60 * 1000 <? now') with false
      by (symmetry; apply Z.ltb_ge; lia).
    destruct attempt as [text|]; [|reflexivity].
    destruct (String.eqb code text) eqn:E; [|reflexivity].
    apply String.eqb_eq in E. congruence.
  - intros other attempt Hne. now rewrite get_set_other.
Qed.

(** X24.  [POST /verify-reset-code] answers 200 in exactly two cases:
    the object holds a code for the e-mail that has not expired and the
    body holds that code; or the object holds nothing for the e-mail, the
    e-mail is the name of a member of [Object.prototype], and the body
    holds no [resetCode]. *)
Theorem reset_code_accepted (body : Auth.Verify) (now : Z)
  (resetCodes : list (string * Auth.ResetCode)) :
  fst (Auth.verifyResetCode body now resetCodes) = 200 <->
  (exists entry,
     JSObject.own (Auth.propertyKey (Auth.email body)) resetCodes = Some entry
     /\ now <= Auth.expiresAt entry
     /\ Auth.resetCode body = Some (Auth.code entry))
  \/ (JSObject.own (Auth.propertyKey (Auth.email body)) resetCodes = None
      /\ JSObject.inherited (Auth.propertyKey (Auth.email body)) = true
      /\ Auth.resetCode body = None).
Proof.
  unfold Auth.verifyResetCode, JSObject.get.
  destruct (JSObject.own (Auth.propertyKey (Auth.email body)) resetCodes) as [entry|].
  - destruct (Auth.expiresAt entry <? now) eqn:E.
    + apply Z.ltb_lt in E. split; [discriminate|].
      intros [(entry' & [= <-] & Hle & _)|(H & _)]; [lia | discriminate].
    + apply Z.ltb_ge in E.
      destruct (Auth.resetCode body) as [text|].
      * destruct (String.eqb (Auth.code entry) text) eqn:Ec.
        -- apply String.eqb_eq in Ec. split; [|reflexivity].
           intros _. left. exists entry. repeat split; [lia | congruence].
        -- apply String.eqb_neq in Ec. split; [discriminate|].
           intros [(entry' & [= <-] & _ & [= H])|(H & _)]; [congruence | discriminate].
      * split; [discriminate|].
        intros [(entry' & _ & _ & H)|(H & _)]; discriminate.
  - destruct (JSObject.inherited (Auth.propertyKey (Auth.email body))).
    + destruct (Auth.resetCode body) as [text|].
      * split; [discriminate|].
        intros [(entry' & H & _)|(_ & _ & H)]; discriminate.
      * split; [|reflexivity]. intros _. right. repeat split.
    + split; [discriminate|].
      intros [(entry' & H & _)|(_ & H & _)]; discriminate.
Qed.

(** ** The period data of the listing, and the range listing *)

Section PeriodData.
Context {host : Host}.



End PeriodData.

Section Range.
Context {host : Host}.




End Range.

(** ** What the creation routes check, and what a transfer does not *)

Lemma incBalance_missing (email name : string) (delta : Z) (m : Accounts) :
  m !! (email, JSString.trim name) = None -> incBalance email name delta m = m.
Proof. intros H. unfold incBalance. now apply alter_id'. Qed.

Section Unchecked.
Context {host : Host}.

(** X27.  [POST /transfer] looks at no account before it answers: the
    response is the same whatever the accounts are, so neither the
    existence of the two accounts nor the funds of the source are checked.
    When a transfer is answered 201 the accounts are those obtained by the
    two updates, first of the source and then of the destination, each
    account being the one of the trimmed name.  So a destination that the
    owner does not have receives nothing while the source is still debited;
    a source that the owner does not have is not debited while the
    destination is still credited; and an existing source, different from
    the destination, ends at its balance less the amount, also below
    zero. *)
Theorem transfer_checks_no_account (body : Body.transfer) (oid : string) (now : Z)
  (st : Store) (A : Z) :
  Body.parseFloat (Body.t_amount body) = Some A ->
  status (fst (Expense.transfer body oid now st)) = 201 ->
  let email := Body.text (Body.t_email body) in
  let X := Body.text (Body.fromAccount body) in
  let Y := Body.text (Body.toAccount body) in
  let after := accounts (snd (Expense.transfer body oid now st)) in
  (forall m, fst (Expense.transfer body oid now (with_accounts st m))
             = fst (Expense.transfer body oid now st))
  /\ after = incBalance email Y A (incBalance email X (- A) (accounts st))
  /\ (accounts st !! (email, JSString.trim Y) = None ->
      after = incBalance email X (- A) (accounts st))
  /\ (accounts st !! (email, JSString.trim X) = None ->
      after = incBalance email Y A (accounts st))
  /\ (forall ax,
        JSString.trim X <> JSString.trim Y ->
        accounts st !! (email, JSString.trim X) = Some ax ->
        balanceOf email (JSString.trim X) after = Some (Account.balance ax - A)).
Proof.
  intros Hamt Hok email X Y after.
  destruct (transfer_created body oid now st Hok)
    as (amount & date & saved & Ha & _ & _ & _ & _ & _ & _ & _ & _ & E).
  rewrite Hamt in Ha. injection Ha as <-.
  assert (Hafter : after = incBalance email Y A (incBalance email X (- A) (accounts st))).
  { subst after. rewrite E. reflexivity. }
  repeat apply conj.
  - intros m. unfold Expense.transfer, with_accounts. cbn [incomes expenses accounts].
    required_fields; [reflexivity|]. cbv zeta.
    destruct (Body.parseFloat (Body.t_amount body)),
      (Date_parse (Body.text (Body.t_date body))); try reflexivity.
    destruct (Entry.save _); reflexivity.
  - exact Hafter.
  - intros Hnone. rewrite Hafter. apply incBalance_missing.
    unfold incBalance.
    destruct (decide ((email, JSString.trim X) = (email, JSString.trim Y)))
      as [Heq|Hne].
    + rewrite Heq, lookup_alter_eq, Hnone. reflexivity.
    + now rewrite lookup_alter_ne by exact Hne.
  - intros Hnone. rewrite Hafter. f_equal. now apply incBalance_missing.
  - intros ax Hne Hax. rewrite Hafter. unfold balanceOf, incBalance.
    rewrite lookup_alter_ne by congruence.
    rewrite lookup_alter_eq, Hax. reflexivity.
Qed.

(** X28.  The status of [POST /add] is 400 exactly when one of the six
    required fields is missing or falsy (an amount of 0 counts as missing),
    201 exactly when they are present and the request is acceptable to the
    schema (a non-negative numeric amount, a date the host reads, a source,
    a payment method and a time that are not blank, a division that is
    absent, [Office] or [Personal], an account that is absent or not
    blank), and 500 in the remaining case.  [POST /minus] answers with the
    same status. *)
Theorem creation_status (body : Body.entry) (oid : string) (now : Z) (st : Store) :
  (status (fst (Income.add body oid now st)) = 400 <-> required_present body = false)
  /\ (status (fst (Income.add body oid now st)) = 201
      <-> required_present body = true /\ acceptable body)
  /\ (status (fst (Income.add body oid now st)) = 500
      <-> required_present body = true /\ ~ acceptable body)
  /\ status (fst (Expense.minus body oid now st))
     = status (fst (Income.add body oid now st)).
Proof.
  assert (Hadd : status (fst (Income.add body oid now st))
                 = if required_present body
                   then match Body.parseFloat (Body.amount body),
                              Date_parse (Body.text (Body.date body)) with
                        | Some amount, Some date =>
                            if Entry.valid
                                 (Entry.cast
                                    {| Entry._id := oid;
                                       Entry.email := Body.text (Body.email body);
                                       Entry.source := Body.text (Body.source body);
                                       Entry.amount := amount;
                                       Entry.paymentMethod :=
                                         Body.text (Body.paymentMethod body);
                                       Entry.date := date;
                                       Entry.time := Body.text (Body.time body);
                                       Entry.notes := Body.notes body;
                                       Entry.division :=
                                         JS.or_default (Body.division body) "Personal";
                                       Entry.category :=
                                         Some (JS.or_default (Body.category body)
                                                 (Body.text (Body.source body)));
                                       Entry.account :=
                                         JS.or_default (Body.account body) "Cash";
                                       Entry.isTransfer := false;
                                       Entry.transferCounterpart := None;
                                       Entry.createdAt := now;
                                       Entry.updatedAt := now |})
                            then 201 else 500
                        | _, _ => 500
                        end
                   else 400).
  { unfold Income.add. rewrite required_fields_test.
    destruct (required_present body); cbn [negb]; [|reflexivity].
    destruct (Body.parseFloat (Body.amount body)) as [amount|]; [|reflexivity].
    destruct (Date_parse (Body.text (Body.date body))) as [date|]; [|reflexivity].
    unfold Entry.save. cbv zeta.
    destruct (Entry.valid _); reflexivity. }
  assert (Hminus : status (fst (Expense.minus body oid now st))
                   = status (fst (Income.add body oid now st))).
  { rewrite Hadd. unfold Expense.minus. rewrite required_fields_test.
    destruct (required_present body); cbn [negb]; [|reflexivity].
    destruct (Body.parseFloat (Body.amount body)) as [amount|]; [|reflexivity].
    destruct (Date_parse (Body.text (Body.date body))) as [date|]; [|reflexivity].
    unfold Entry.save. cbv zeta.
    destruct (Entry.valid _); reflexivity. }
  assert (Hacc : required_present body = true ->
            (acceptable body <->
             match Body.parseFloat (Body.amount body),
                   Date_parse (Body.text (Body.date body)) with
             | Some amount, Some date =>
                 (if Entry.valid
                       (Entry.cast
                          {| Entry._id := oid;
                             Entry.email := Body.text (Body.email body);
                             Entry.source := Body.text (Body.source body);
                             Entry.amount := amount;
                             Entry.paymentMethod := Body.text (Body.paymentMethod body);
                             Entry.date := date;
                             Entry.time := Body.text (Body.time body);
                             Entry.notes := Body.notes body;
                             Entry.division :=
                               JS.or_default (Body.division body) "Personal";
                             Entry.category :=
                               Some (JS.or_default (Body.category body)
                                       (Body.text (Body.source body)));
                             Entry.account := JS.or_default (Body.account body) "Cash";
                             Entry.isTransfer := false;
                             Entry.transferCounterpart := None;
                             Entry.createdAt := now;
                             Entry.updatedAt := now |})
                  then 201 else 500) = 201
             | _, _ => False
             end)).
  { intros Hreq.
    assert (Hemail : JS.truthy_opt (Body.email body) = true).
    { unfold required_present in Hreq.
      destruct (JS.truthy_opt (Body.email body)); [reflexivity | discriminate]. }
    unfold acceptable.
    destruct (Body.parseFloat (Body.amount body)) as [amount|].
    - destruct (Date_parse (Body.text (Body.date body))) as [date|].
      + pose proof (new_entry_valid body oid amount date now Hemail) as Hv.
        destruct (Entry.valid _).
        * split; [reflexivity|]. intros _.
          destruct (proj1 Hv eq_refl) as (H0 & H1 & H2 & H3 & H4 & H5).
          split; [exists amount; now split|]. split; [discriminate|].
          repeat apply conj; assumption.
        * split; [|discriminate].
          intros ((amount' & [= <-] & H0) & _ & H1 & H2 & H3 & H4 & H5).
          assert (false = true) by (apply Hv; repeat apply conj; assumption).
          discriminate.
      + split; [|contradiction]. intros (_ & Hd & _). now apply Hd.
    - split; [|contradiction]. intros ((amount' & Hp & _) & _). discriminate. }
  split; [|split; [|split; [|exact Hminus]]].
  - rewrite Hadd. destruct (required_present body).
    + split; [|discriminate].
      destruct (Body.parseFloat (Body.amount body)),
        (Date_parse (Body.text (Body.date body))); try discriminate.
      destruct (Entry.valid _); discriminate.
    + split; reflexivity.
  - rewrite Hadd. destruct (required_present body) eqn:Hreq.
    + specialize (Hacc eq_refl). split.
      * intros H. split; [reflexivity|]. apply Hacc.
        destruct (Body.parseFloat (Body.amount body)),
          (Date_parse (Body.text (Body.date body))); try discriminate. exact H.
      * intros [_ H]. apply Hacc in H.
        destruct (Body.parseFloat (Body.amount body)),
          (Date_parse (Body.text (Body.date body))); try contradiction. exact H.
    + split; [discriminate | intros [H _]; discriminate].
  - rewrite Hadd. destruct (required_present body) eqn:Hreq.
    + specialize (Hacc eq_refl). split.
      * intros H. split; [reflexivity|]. intros Ha. apply Hacc in Ha.
        destruct (Body.parseFloat (Body.amount body)),
          (Date_parse (Body.text (Body.date body))); try contradiction.
        rewrite Ha in H. discriminate.
      * intros [_ Hno].
        destruct (Body.parseFloat (Body.amount body)),
          (Date_parse (Body.text (Body.date body))); try reflexivity.
        destruct (Entry.valid _) eqn:Ev; [|reflexivity].
        exfalso. apply Hno, Hacc. reflexivity.
    + split; [discriminate | intros [H _]; discriminate].
Qed.

End Unchecked.

(** * The further statements on concrete inputs *)

Lemma rejected_request_keeps_store_witness :
  status (fst (Income.delete "zz" SampleHost.noon SampleHost.store)) = 404
  /\ snd (Income.delete "zz" SampleHost.noon SampleHost.store) = SampleHost.store.
Proof.
  destruct (rejected_request_keeps_store (host := SampleHost.host) SampleHost.store
              SampleHost.noon) as (_ & _ & _ & _ & _ & Hdelete & _).
  split; [reflexivity|].
  apply Hdelete. vm_compute. intros E. discriminate E.
Defined.

Lemma add_then_delete_accounts_witness :
  Income.delete "n1" (SampleHost.noon + 1000)
    (snd (Income.add (host := SampleHost.host) SampleData.body_spaced "n1"
            SampleHost.noon SampleHost.store))
  = ({| status := 200; text := "Income deleted successfully!"; document := None |},
     {| incomes := incomes SampleHost.store;
        expenses := expenses SampleHost.store;
        accounts := incBalance SampleHost.owner "Cash" (- 100)
                      (incBalance SampleHost.owner "Cash" 100 SampleHost.ledger) |})
  /\ balanceOf SampleHost.owner "Cash"
       (accounts
          (snd (Expense.delete "n1" (SampleHost.noon + 1000)
                  (snd (Expense.minus (host := SampleHost.host) SampleData.body_spaced
                          "n1" SampleHost.noon SampleHost.store)))))
     = Some (1000 + - 100 + 100).
Proof.
  destruct (add_then_delete_accounts (host := SampleHost.host) SampleData.body_spaced
              "n1" SampleHost.noon (SampleHost.noon + 1000) SampleHost.store
              " Cash  " 100)
    as (Hincome & Hexpense & _ & Hbalance);
    [reflexivity | reflexivity | reflexivity
     | unfold SampleHost.noon, twelveHours; lia |].
  split.
  - rewrite Hincome by (vm_compute; reflexivity). vm_compute. reflexivity.
  - rewrite Hexpense by (vm_compute; reflexivity). cbn [snd accounts].
    apply (Hbalance (- 100) 100 (SampleHost.account 1000)).
    vm_compute. reflexivity.
Defined.

Lemma unnamed_account_drift_witness :
  balanceOf SampleHost.owner "Cash"
    (accounts
       (snd (Income.delete "n1" (SampleHost.noon + 1000)
               (snd (Income.add (host := SampleHost.host) SampleHost.body_no_account
                       "n1" SampleHost.noon SampleHost.store)))))
  = Some 900
  /\ balanceOf SampleHost.owner "Cash"
       (accounts
          (snd (Expense.delete "n1" (SampleHost.noon + 1000)
                  (snd (Expense.minus (host := SampleHost.host)
                          SampleHost.body_no_account "n1" SampleHost.noon
                          SampleHost.store)))))
     = Some 1100.
Proof.
  destruct (unnamed_account_drift (host := SampleHost.host) SampleHost.body_no_account
              "n1" SampleHost.noon (SampleHost.noon + 1000) SampleHost.store 100)
    as [Hincome Hexpense];
    [reflexivity | reflexivity | unfold SampleHost.noon, twelveHours; lia |].
  split.
  - rewrite Hincome; vm_compute; reflexivity.
  - rewrite Hexpense; vm_compute; reflexivity.
Defined.

Lemma transfer_then_delete_witness :
  let after :=
    snd (Expense.delete "t1" (SampleHost.noon + 1000)
           (snd (Expense.transfer (host := SampleHost.host)
                   SampleData.body_transfer_spaced "t1" SampleHost.noon
                   SampleHost.store))) in
  expenses after = expenses SampleHost.store
  /\ balanceOf SampleHost.owner "Cash" (accounts after) = Some 1000
  /\ balanceOf SampleHost.owner "Bank" (accounts after) = Some (500 + 300).
Proof.
  intros after. subst after.
  destruct (transfer_then_delete (host := SampleHost.host)
              SampleData.body_transfer_spaced "t1" SampleHost.noon
              (SampleHost.noon + 1000) SampleHost.store 300)
    as (Hdelete & Hdest & _);
    [reflexivity | reflexivity | unfold SampleHost.noon, twelveHours; lia
     | vm_compute; reflexivity |].
  rewrite Hdelete. cbn [snd expenses accounts].
  split; [reflexivity|]. split; [vm_compute; reflexivity|].
  apply (Hdest (SampleHost.account 500)); [|vm_compute; reflexivity].
  vm_compute. intros H. discriminate H.
Defined.

Lemma deleted_entry_is_gone_witness :
  Entry.findById "i1" (incomes (snd (Income.delete "i1" SampleHost.noon SampleHost.store)))
  = None
  /\ Income.delete "i1" SampleHost.noon
       (snd (Income.delete "i1" SampleHost.noon SampleHost.store))
     = (error 404 "Income not found!",
        snd (Income.delete "i1" SampleHost.noon SampleHost.store)).
Proof.
  destruct (deleted_entry_is_gone "i1" SampleHost.noon SampleHost.store
              SampleHost.salary) as [Hincome _].
  - vm_compute. intros E. discriminate E.
  - destruct Hincome as (_ & Hgone & _ & _ & Hagain).
    + repeat (constructor; [cbn; intuition discriminate|]). constructor.
    + reflexivity.
    + split; [exact Hgone | exact (Hagain SampleHost.noon)].
Defined.

Lemma handlers_keep_schema_witness :
  schema_ok SampleHost.store
  /\ schema_ok (snd (Income.add (host := SampleHost.host) SampleData.body_cash "n1"
                       SampleHost.noon SampleHost.store))
  /\ schema_ok (snd (Income.update "i1" SampleHost.body_update SampleHost.noon
                       SampleHost.store))
  /\ status (fst (Income.update "i1" (Body.inc_amount (- 150)) SampleHost.noon
                    SampleHost.store)) = 200
  /\ ~ schema_ok (snd (Income.update "i1" (Body.inc_amount (- 150)) SampleHost.noon
                         SampleHost.store)).
Proof.
  assert (Hok : schema_ok SampleHost.store).
  { split; repeat (constructor; [reflexivity|]); constructor. }
  destruct (handlers_keep_schema (host := SampleHost.host) SampleHost.store
              SampleHost.noon Hok) as (Hadd & _ & _ & Hupdate & _ & _ & _ & Hinc & _).
  split; [exact Hok|]. split; [apply Hadd|].
  split; [apply Hupdate; reflexivity|].
  destruct (Hinc "i1" SampleHost.salary (- 150)) as (Hstatus & _ & Hbroken);
    [reflexivity | vm_compute; intros H; discriminate H |].
  split; [exact Hstatus|]. apply Hbroken. vm_compute. reflexivity.
Defined.

Lemma handlers_keep_accounts_witness :
  ledger_frame SampleHost.owner (accounts SampleHost.store)
    (accounts (snd (Expense.transfer (host := SampleHost.host)
                      SampleHost.body_transfer "t1" SampleHost.noon SampleHost.store)))
  /\ accounts (snd (Income.update "i1" SampleHost.body_update SampleHost.noon
                      SampleHost.store))
     = accounts SampleHost.store.
Proof.
  destruct (handlers_keep_accounts (host := SampleHost.host) SampleHost.store
              SampleHost.noon) as (_ & _ & Htransfer & Hupdate & _).
  split; [exact (Htransfer SampleHost.body_transfer "t1") | apply Hupdate].
Defined.

Lemma edit_then_delete_drift_witness :
  balanceOf SampleHost.owner "Cash"
    (accounts
       (snd (Income.delete "n1" (SampleHost.noon + 2000)
               (snd (Income.update "n1" SampleHost.body_update (SampleHost.noon + 1000)
                       (snd (Income.add (host := SampleHost.host) SampleData.body_cash
                               "n1" SampleHost.noon SampleHost.store)))))))
  = Some (1000 + 100 + - 250)
  /\ balanceOf SampleHost.owner "Cash"
       (accounts
          (snd (Expense.delete "n1" (SampleHost.noon + 2000)
                  (snd (Expense.update "n1" SampleHost.body_update
                          (SampleHost.noon + 1000)
                          (snd (Expense.minus (host := SampleHost.host)
                                  SampleData.body_cash "n1" SampleHost.noon
                                  SampleHost.store)))))))
     = Some (1000 + - 100 + 250).
Proof.
  destruct (edit_then_delete_drift (host := SampleHost.host) SampleData.body_cash
              "n1" SampleHost.noon (SampleHost.noon + 1000) (SampleHost.noon + 2000)
              SampleHost.store "Cash" SampleHost.body_update 100 250)
    as [Hincome Hexpense];
    [reflexivity | reflexivity | reflexivity | reflexivity | reflexivity | reflexivity
     | reflexivity
     | unfold SampleHost.noon, twelveHours; lia
     | unfold SampleHost.noon, twelveHours; lia |].
  split.
  - destruct Hincome as [_ Hdelete]; [reflexivity | vm_compute; reflexivity
                                     | vm_compute; reflexivity |].
    rewrite Hdelete. vm_compute. reflexivity.
  - destruct Hexpense as [_ Hdelete]; [reflexivity | vm_compute; reflexivity
                                      | vm_compute; reflexivity |].
    rewrite Hdelete. vm_compute. reflexivity.
Defined.

Lemma listing_shows_only_matching_witness :
  exists body,
    Transactions.list (host := SampleHost.host) SampleHost.owner
      SampleData.query_spaced SampleHost.noon SampleHost.store = Transactions.Ok body
    /\ List.map Txn.doc (Transactions.transactions body) = [SampleHost.salary]
    /\ Forall (fun x => Entry.email (Txn.doc x) = SampleHost.owner
                        /\ Entry.category (Txn.doc x) = Some "Salary"
                        /\ Entry.account (Txn.doc x) = "Cash")
         (Transactions.transactions body).
Proof.
  assert (E : exists body,
            Transactions.list (host := SampleHost.host) SampleHost.owner
              SampleData.query_spaced SampleHost.noon SampleHost.store
            = Transactions.Ok body
            /\ List.map Txn.doc (Transactions.transactions body) = [SampleHost.salary])
    by (eexists; split; vm_compute; reflexivity).
  destruct E as (body & E & Hshown). exists body. split; [exact E|].
  split; [exact Hshown|].
  pose proof (listing_shows_only_matching (host := SampleHost.host) SampleHost.owner
                SampleData.query_spaced SampleHost.noon SampleHost.store body E) as H.
  eapply List.Forall_impl; [|exact H].
  intros x [Hsel _].
  destruct (Txn.type x); destruct Hsel as (_ & _ & Hemail & _ & Hcat & Hacc & _);
    (split; [exact Hemail|]; split;
     [exact (Hcat " Salary " eq_refl eq_refl) | exact (Hacc "Cash " eq_refl eq_refl)]).
Defined.

Lemma listing_limit_witness :
  exists body,
    Transactions.list (host := SampleHost.host) SampleHost.owner SampleHost.query
      SampleHost.noon SampleHost.store = Transactions.Ok body
    /\ Transactions.n_total (Transactions.counts body)
       = Z.of_nat (length (Transactions.transactions body))
    /\ Transactions.n_total (Transactions.counts body) <= 2.
Proof.
  assert (E : exists body,
            Transactions.list (host := SampleHost.host) SampleHost.owner
              SampleHost.query SampleHost.noon SampleHost.store
            = Transactions.Ok body) by (eexists; vm_compute; reflexivity).
  destruct E as [body E]. exists body. split; [exact E|].
  destruct (listing_limit (host := SampleHost.host) SampleHost.owner
              SampleHost.query SampleHost.noon SampleHost.store body E)
    as (Hlen & _ & Hcut).
  split; [exact Hlen|].
  change (Transactions.limit SampleHost.query) with (Some "2") in Hcut.
  cbv beta iota in Hcut.
  change (JSString.parseInt "2") with (Some 2) in Hcut.
  cbv beta iota in Hcut. change (2 <? 0) with false in Hcut.
  cbv beta iota in Hcut. lia.
Defined.

Lemma sort_invalid_dates_witness :
  Transactions.sortTransactions (host := SampleHost.host)
    [Transactions.formatIncome SampleHost.noon SampleData.late_income;
     Transactions.formatExpense SampleHost.noon SampleData.early_expense]
    "date_desc"
  = [Transactions.formatIncome SampleHost.noon SampleData.late_income;
     Transactions.formatExpense SampleHost.noon SampleData.early_expense].
Proof.
  apply (sort_invalid_dates (host := SampleHost.host) None); [reflexivity|].
  constructor; [vm_compute; reflexivity|].
  constructor; [vm_compute; reflexivity|]. constructor.
Defined.




Lemma buckets_cover_input_witness :
  exists buckets,
    Transactions.groupTransactionsByPeriod (host := SampleHost.host)
      (SampleData.typed_incomes ++ SampleData.typed_expenses) "monthly" = Some buckets
    /\ total_by (fun b => Z.of_nat (length (Bucket.transactions b))) buckets = 3.
Proof.
  destruct (buckets_cover_input (host := SampleHost.host)
              (SampleData.typed_incomes ++ SampleData.typed_expenses) "monthly")
    as (buckets & E & _ & _ & Hsize).
  exists buckets. split; [exact E | exact Hsize].
Defined.


Lemma range_stops_at_last_midnight_witness :
  getMonth (host := SampleHost.host) SampleData.last_of_march
  = getMonth (host := SampleHost.host) SampleHost.noon
  /\ Income.inRange SampleHost.owner
       (fst (Income.getDateRange (host := SampleHost.host) (Some "monthly")
               SampleHost.noon))
       (snd (Income.getDateRange (host := SampleHost.host) (Some "monthly")
               SampleHost.noon))
       (SampleHost.entry "i9" 5 "2024-03-31" "08:00" "Gift" "Cash" SampleHost.noon)
     = false.
Proof.
  assert (Hyear : getFullYear (host := SampleHost.host) SampleHost.noon = 2024)
    by (vm_compute; reflexivity).
  destruct (range_stops_at_last_midnight (host := SampleHost.host) SampleHost.noon
              SampleData.last_of_march) as (_ & _ & _ & _ & Hmonthly & _).
  - rewrite Hyear. lia.
  - destruct (Hmonthly sample_steady) as (_ & Hmonth & _ & Hout).
    + vm_compute. split; reflexivity.
    + split; [exact Hmonth|]. apply Hout. vm_compute. reflexivity.
Defined.


Lemma monthly_trend_rows_witness :
  List.map (fun r => (TrendRow.m_year r, TrendRow.month r,
                      TrendRow.m_income r, TrendRow.m_expense r))
    (Dashboard.getMonthlyTrend (host := SampleHost.host) SampleData.monthShort
       SampleHost.owner (Some 3) SampleHost.noon SampleHost.store)
  = [(2024, 1, 50, 0); (2024, 2, 0, 0); (2024, 3, 300, 115)].
Proof.
  assert (Hyear : getFullYear (host := SampleHost.host) SampleHost.noon = 2024)
    by (vm_compute; reflexivity).
  destruct (monthly_trend_rows (host := SampleHost.host) SampleData.monthShort
              SampleHost.owner 3 SampleHost.noon SampleHost.store)
    as (_ & Hrows & _); [lia | rewrite Hyear; lia |].
  rewrite Hrows. vm_compute. reflexivity.
Defined.

Lemma weekly_trend_rows_witness :
  List.map (fun r => (TrendRow.w_income r, TrendRow.w_expense r))
    (Dashboard.getWeeklyTrend (host := SampleHost.host) SampleHost.owner (Some 2)
       SampleHost.noon SampleHost.store)
  = [(200, 115); (0, 0)]
  /\ UTC (host := SampleHost.host)
       (LocalTime (host := SampleHost.host) SampleHost.noon - 1 * 7 * msPerDay)
     = SampleHost.noon - 1 * 7 * msPerDay.
Proof.
  destruct (weekly_trend_rows (host := SampleHost.host) SampleHost.owner 2
              SampleHost.noon SampleHost.store) as (_ & Hrows & _ & Hsteady); [lia|].
  split; [rewrite Hrows; vm_compute; reflexivity|].
  destruct (Hsteady sample_steady) as [Hwindows _].
  exact (proj1 (Hwindows 1)).
Defined.

Lemma yearly_trend_rows_witness :
  List.map TrendRow.year
    (Dashboard.getYearlyTrend (host := SampleHost.host) SampleHost.owner (Some 2)
       SampleHost.noon SampleHost.store)
  = [2023; 2024].
Proof.
  destruct (yearly_trend_rows (host := SampleHost.host) SampleHost.owner 2
              SampleHost.noon SampleHost.store) as (_ & Hyears & _); [lia|].
  rewrite Hyears. vm_compute. reflexivity.
Defined.

Lemma dashboard_period_rows_witness :
  exists rows,
    Dashboard.periodRoute (host := SampleHost.host) SampleData.monthShort
      SampleHost.owner (Some "weekly") None SampleHost.noon SampleHost.store
    = Dashboard.PeriodOk "weekly" (Dashboard.Weekly rows)
    /\ length rows = 8%nat.
Proof.
  destruct (dashboard_period_rows (host := SampleHost.host) SampleData.monthShort
              SampleHost.owner (Some "weekly") None SampleHost.noon SampleHost.store)
    as (data & E & _ & Hweekly & _); [reflexivity|].
  destruct (Hweekly eq_refl) as (rows & -> & Hlen).
  exists rows. split; [exact E | exact Hlen].
Defined.

Lemma reset_code_round_trip_witness :
  Auth.verifyResetCode
    {| Auth.email := Some SampleHost.owner; Auth.resetCode := Some "123456" |}
    (SampleHost.noon + 600000)
    (Auth.storeResetCode SampleHost.owner "123456" SampleHost.noon [])
  = (200, "Code verified successfully!")
  /\ Auth.verifyResetCode
       {| Auth.email := Some SampleHost.owner; Auth.resetCode := Some "123456" |}
       (SampleHost.noon + 600001)
       (Auth.storeResetCode SampleHost.owner "123456" SampleHost.noon [])
     = (400, "Reset code expired. Request a new one.").
Proof.
  split.
  - destruct (reset_code_round_trip SampleHost.owner "123456" SampleHost.noon
                (SampleHost.noon + 600000) []) as (Hok & _); [discriminate|].
    apply Hok. lia.
  - destruct (reset_code_round_trip SampleHost.owner "123456" SampleHost.noon
                (SampleHost.noon + 600001) []) as (_ & Hlate & _); [discriminate|].
    apply Hlate. lia.
Defined.

Lemma reset_code_accepted_witness :
  fst (Auth.verifyResetCode
         {| Auth.email := Some "constructor"; Auth.resetCode := None |}
         SampleHost.noon []) = 200.
Proof.
  apply (reset_code_accepted
           {| Auth.email := Some "constructor"; Auth.resetCode := None |}
           SampleHost.noon []).
  right. repeat split.
Defined.



Lemma transfer_checks_no_account_witness :
  let after :=
    accounts (snd (Expense.transfer (host := SampleHost.host) SampleData.body_overdraw
                     "t2" SampleHost.noon SampleHost.store)) in
  after = incBalance SampleHost.owner "Cash" (- 1500) SampleHost.ledger
  /\ balanceOf SampleHost.owner "Cash" after = Some (- 500)
  /\ after !! (SampleHost.owner, "Savings") = None.
Proof.
  intros after.
  destruct (transfer_checks_no_account (host := SampleHost.host)
              SampleData.body_overdraw "t2" SampleHost.noon SampleHost.store 1500)
    as (_ & _ & Hdest & _ & Hsource); [reflexivity | vm_compute; reflexivity |].
  assert (Hafter : after = incBalance SampleHost.owner "Cash" (- 1500) SampleHost.ledger).
  { apply Hdest. vm_compute. reflexivity. }
  split; [exact Hafter|]. split.
  - apply (Hsource (SampleHost.account 1000)).
    + intros H. vm_compute in H. discriminate.
    + vm_compute. reflexivity.
  - rewrite Hafter. vm_compute. reflexivity.
Defined.
